(** * Shelfly bookstore: pricing and order settlement

    A shallow embedding of [bookstore/models.py] and of the cart, coupon,
    checkout, card-payment and cancellation views of [bookstore/views.py],
    with the properties of the pricing calculator and of the settlement and
    cancellation workflows.

    Modelling conventions.
    - The relational database is a record [DB] of tables.  Django runs in
      autocommit mode and neither view opens a transaction, so every
      [save()], [create()] and [delete()] is an immediate update of [DB];
      an exception leaves the updates made before it in place.
    - [Decimal] values are exact rationals: every product, sum and division
      by 100 below is exact in Python's default 28-digit decimal context.
    - A [DecimalField] column of a row that a view writes ([Order],
      [OrderItem], [Payment]) holds the value as it was written.  When such
      a row is read back, the ORM converts the column ([decimal_from_db]):
      the value is rounded half-even to two places and
      [decimal.InvalidOperation] is raised when the rounded value needs more
      than [max_digits] digits.  The catalogue tables ([books], [coupons])
      are not written by these views in their decimal columns and hold the
      amounts as read.
    - A [PositiveIntegerField] column refuses a negative value with an
      [IntegrityError]; the one place where a view can store one is the
      decrement of [Coupon.current_usage] by [cancel_order].
    - Text is a sequence of characters with code points below 256; text
      with other characters is outside the model.  On such text [strip],
      [isdigit], [replace] and [int] of one character are Python's: white
      space includes U+0085 and U+00A0, and [isdigit] accepts the
      superscript digits U+00B2, U+00B3 and U+00B9, which [int] refuses
      with a [ValueError].  [upper] and [lower] are Python's on ASCII text
      only ([ascii_text]); every property that depends on them is stated
      for ASCII input.
    - Columns that no view reads are left out: the timestamps
      ([created_at], [updated_at], [added_at], [registration_date]) and the
      [User] of a customer.
    - The clock ([datetime.now()], [timezone.now()]) is an explicit
      argument.
    - The session (delivery details, payment details) and the template
      contexts are left out: no table depends on them.
    - Primary keys of [Order] and [OrderItem] rows are their positions in
      the table (auto-increment keys, rows never deleted by these views);
      the one-to-one [Cart] of a customer is keyed by the customer.
    - A [CartItem] row is addressed by its position in the table at the
      time of the request; a deletion closes the gap, so keys of cart lines
      are not compared across requests.  *)

From Stdlib Require Import ZArith QArith Qminmax Qround Qabs Lqa Lia Ascii String.
From stdpp Require Import gmap strings list pretty.

Local Open Scope Z_scope.

(** ** Decimal arithmetic *)

Abbreviation Decimal := Q (only parsing).

Definition Qge_bool (a b : Decimal) : bool := Qle_bool b a.
Definition Qlt_bool (a b : Decimal) : bool := negb (Qle_bool b a).

(** Python's [min(a, b)]: the first argument unless the second is smaller. *)
Definition py_min (a b : Decimal) : Decimal := if Qlt_bool b a then b else a.

(** Python's [sum(xs)]: a left fold of [+] from [0]. *)
Definition py_sum (xs : list Decimal) : Decimal := fold_left Qplus xs 0%Q.
Definition py_sum_int (xs : list Z) : Z := fold_left Z.add xs 0.

(** Rounding to the nearest integer, ties to the even one
    ([ROUND_HALF_EVEN]). *)
Definition round_half_even (x : Decimal) : Z :=
  let f := Qfloor x in
  match (x - inject_Z f ?= 1 # 2)%Q with
  | Lt => f
  | Gt => f + 1
  | Eq => if Z.even f then f else f + 1
  end.

(** [x.quantize(Decimal('0.01'))]: [x] rounded to two places. *)
Definition quantize (x : Decimal) : Decimal :=
  (inject_Z (round_half_even (x * 100)) / 100)%Q.

(** ** The data model ([models.py]) *)

Record Customer := {
  customer_phone : string;
  customer_address : string;
  customer_is_first_time_buyer : bool
}.

Record Book := {
  book_title : string;
  book_price : Decimal;
  book_stock : Z
}.

Inductive DiscountType := fixed | percentage.

Record Coupon := {
  coupon_code : string;
  coupon_discount_type : DiscountType;
  coupon_discount_value : Decimal;
  coupon_max_usage : Z;
  coupon_current_usage : Z;
  coupon_min_purchase : Decimal;
  coupon_expiry_date : Z;
  coupon_is_active : bool
}.

(** [CouponUsage.Meta.unique_together = ('coupon', 'order')]. *)
Record CouponUsage := {
  usage_coupon : nat;
  usage_customer : nat;
  usage_order : nat;
  usage_used_at : Z
}.

Inductive OrderStatus := Pending | Confirmed | Shipped | Delivered | Cancelled.

Record Order := {
  order_customer : nat;
  order_date : Z;
  order_status : OrderStatus;
  order_delivery_name : string;
  order_delivery_phone : string;
  order_delivery_address : string;
  order_delivery_notes : option string;
  order_shipping_fee : Decimal;
  order_applied_coupon : option nat;
  order_coupon_discount : Decimal;
  order_order_value_discount : Decimal;
  order_first_time_discount : Decimal;
  order_discount_code_used : option string;
  order_cancellation_reason : option string;
  order_cancelled_at : option Z
}.

(** An [OrderItem] instance; [item_pk] is [None] until the first save. *)
Record OrderItem := {
  item_pk : option nat;
  item_order : nat;
  item_book : nat;
  item_quantity : Z;
  item_unit_price : Decimal;
  item_subtotal : Decimal
}.

Inductive PaymentMethod := Cash | Card.
Inductive PaymentStatus := Unpaid | Paid | Failed | Refunded.

(** [transaction_id] is [None] or the text [CARD-<order id>-<timestamp>],
    kept as its two components. *)
Record Payment := {
  payment_order : nat;
  payment_amount : Decimal;
  payment_method : PaymentMethod;
  payment_status : PaymentStatus;
  payment_transaction_id : option (nat * Z)
}.

(** A [Cart] instance.  The table [carts] below is keyed by the customer of
    the (one-to-one) cart and stores its remaining column,
    [applied_coupon]. *)
Record Cart := {
  cart_customer : nat;
  cart_applied_coupon : option nat
}.

(** [CartItem.Meta.unique_together = ('cart', 'book')]. *)
Record CartItem := {
  cartitem_cart : nat;
  cartitem_book : nat;
  cartitem_quantity : Z
}.

Record DB := {
  customers : gmap nat Customer;
  books : gmap nat Book;
  coupons : gmap nat Coupon;
  coupon_usages : list CouponUsage;
  orders : list Order;
  order_items : list OrderItem;
  payments : list Payment;
  carts : gmap nat (option nat);
  cart_items : list CartItem
}.

(** ** Exceptions and the database monad *)

Inductive Exn :=
| DoesNotExist (model : string)
| MultipleObjectsReturned
| ValidationError (msg : string)
| IntegrityError (constraint : string)
| InvalidOperation
| ValueError
| Http404_.

Inductive Result (A : Type) :=
| Ok (a : A)
| Raise (e : Exn).
Arguments Ok {A} a.
Arguments Raise {A} e.

Definition rbind {A B} (r : Result A) (k : A -> Result B) : Result B :=
  match r with Ok a => k a | Raise e => Raise e end.

(** The converter of a [DecimalField(max_digits, decimal_places=2)] column
    for a row that is read:
    [value.quantize(Decimal('0.01'), context=Context(prec=max_digits))]. *)
Definition decimal_from_db (max_digits : Z) (x : Decimal) : Result Decimal :=
  let y := quantize x in
  if Qle_bool (inject_Z (10 ^ (max_digits - 2))) (Qabs y)
  then Raise InvalidOperation else Ok y.

(** A statement of a view: it reads and updates the database and either
    returns or raises; the database it leaves behind is kept in both cases. *)
Definition M (A : Type) := DB -> Result A * DB.

Definition ret {A} (a : A) : M A := fun db => (Ok a, db).
Definition raise {A} (e : Exn) : M A := fun db => (Raise e, db).
Definition bind {A B} (m : M A) (k : A -> M B) : M B :=
  fun db => match m db with
            | (Ok a, db') => k a db'
            | (Raise e, db') => (Raise e, db')
            end.
Definition query {A} (q : DB -> Result A) : M A := fun db => (q db, db).
Definition update (f : DB -> DB) : M unit := fun db => (Ok tt, f db).
Definition when (b : bool) (m : M unit) : M unit := if b then m else ret tt.
Definition current_db : M DB := fun db => (Ok db, db).

Notation "'do' x <- m ; k" := (bind m (fun x => k))
  (at level 10, x name, m at level 100, k at level 200).
Notation "'run' m ; k" := (bind m (fun _ => k))
  (at level 10, m at level 100, k at level 200).

Fixpoint for_each {A} (l : list A) (body : A -> M unit) : M unit :=
  match l with
  | [] => ret tt
  | x :: l' => run body x; for_each l' body
  end.

Fixpoint mapR {A B} (f : A -> Result B) (l : list A) : Result (list B) :=
  match l with
  | [] => Ok []
  | x :: l' => rbind (f x) (fun y => rbind (mapR f l') (fun ys => Ok (y :: ys)))
  end.

(** Following a foreign key ([item.book], [cart.applied_coupon], ...). *)
Definition get_book (db : DB) (pk : nat) : Result Book :=
  match books db !! pk with Some b => Ok b | None => Raise (DoesNotExist "Book") end.
Definition get_coupon (db : DB) (pk : nat) : Result Coupon :=
  match coupons db !! pk with Some c => Ok c | None => Raise (DoesNotExist "Coupon") end.
Definition get_customer (db : DB) (pk : nat) : Result Customer :=
  match customers db !! pk with Some c => Ok c | None => Raise (DoesNotExist "Customer") end.

(** Table updates. *)
Definition set_books (f : gmap nat Book -> gmap nat Book) (db : DB) : DB :=
  {| customers := customers db; books := f (books db); coupons := coupons db;
     coupon_usages := coupon_usages db; orders := orders db;
     order_items := order_items db; payments := payments db;
     carts := carts db; cart_items := cart_items db |}.
Definition set_coupons (f : gmap nat Coupon -> gmap nat Coupon) (db : DB) : DB :=
  {| customers := customers db; books := books db; coupons := f (coupons db);
     coupon_usages := coupon_usages db; orders := orders db;
     order_items := order_items db; payments := payments db;
     carts := carts db; cart_items := cart_items db |}.
Definition set_customers (f : gmap nat Customer -> gmap nat Customer) (db : DB) : DB :=
  {| customers := f (customers db); books := books db; coupons := coupons db;
     coupon_usages := coupon_usages db; orders := orders db;
     order_items := order_items db; payments := payments db;
     carts := carts db; cart_items := cart_items db |}.
Definition set_coupon_usages (f : list CouponUsage -> list CouponUsage) (db : DB) : DB :=
  {| customers := customers db; books := books db; coupons := coupons db;
     coupon_usages := f (coupon_usages db); orders := orders db;
     order_items := order_items db; payments := payments db;
     carts := carts db; cart_items := cart_items db |}.
Definition set_orders (f : list Order -> list Order) (db : DB) : DB :=
  {| customers := customers db; books := books db; coupons := coupons db;
     coupon_usages := coupon_usages db; orders := f (orders db);
     order_items := order_items db; payments := payments db;
     carts := carts db; cart_items := cart_items db |}.
Definition set_order_items (f : list OrderItem -> list OrderItem) (db : DB) : DB :=
  {| customers := customers db; books := books db; coupons := coupons db;
     coupon_usages := coupon_usages db; orders := orders db;
     order_items := f (order_items db); payments := payments db;
     carts := carts db; cart_items := cart_items db |}.
Definition set_payments (f : list Payment -> list Payment) (db : DB) : DB :=
  {| customers := customers db; books := books db; coupons := coupons db;
     coupon_usages := coupon_usages db; orders := orders db;
     order_items := order_items db; payments := f (payments db);
     carts := carts db; cart_items := cart_items db |}.
Definition set_carts (f : gmap nat (option nat) -> gmap nat (option nat))
    (db : DB) : DB :=
  {| customers := customers db; books := books db; coupons := coupons db;
     coupon_usages := coupon_usages db; orders := orders db;
     order_items := order_items db; payments := payments db;
     carts := f (carts db); cart_items := cart_items db |}.
Definition set_cart_items (f : list CartItem -> list CartItem) (db : DB) : DB :=
  {| customers := customers db; books := books db; coupons := coupons db;
     coupon_usages := coupon_usages db; orders := orders db;
     order_items := order_items db; payments := payments db;
     carts := carts db; cart_items := f (cart_items db) |}.

(** ** [Coupon] methods *)

Module Coupon.

(** [Coupon.is_valid]; [now] is [datetime.now()]. *)
Definition is_valid (now : Z) (self : Coupon) : bool * string :=
  if negb (coupon_is_active self) then (false, "This coupon is inactive")
  else if coupon_current_usage self >=? coupon_max_usage self
    then (false, "Coupon usage limit reached")
  else if now >? coupon_expiry_date self
    then (false, "This coupon has expired")
  else (true, "Valid").

(** [Coupon.calculate_discount]. *)
Definition calculate_discount (self : Coupon) (amount : Decimal) : Decimal :=
  match coupon_discount_type self with
  | fixed => py_min (coupon_discount_value self) amount
  | percentage => (amount * coupon_discount_value self) / 100
  end%Q.

End Coupon.

(** ** [CartItem] and [Cart] properties *)

Module CartItem.

(** [CartItem.subtotal]: [self.book.price * self.quantity]. *)
Definition subtotal (db : DB) (self : CartItem) : Result Decimal :=
  rbind (get_book db (cartitem_book self)) (fun book =>
  Ok (book_price book * inject_Z (cartitem_quantity self))%Q).

End CartItem.

Module Cart.

(** [self.cartitem_set.all()]. *)
Definition cartitem_set (db : DB) (self : Cart) : list CartItem :=
  filter (fun item => cartitem_cart item = cart_customer self) (cart_items db).

Definition subtotal (db : DB) (self : Cart) : Result Decimal :=
  rbind (mapR (CartItem.subtotal db) (cartitem_set db self)) (fun xs =>
  Ok (py_sum xs)).

Definition total_items (db : DB) (self : Cart) : Z :=
  py_sum_int (map cartitem_quantity (cartitem_set db self)).

(** The body of [calculate_shipping] once [subtotal] and [total_items]
    are read. *)
Definition shipping_of (subtotal : Decimal) (total_items : Z) : Decimal :=
  if Qge_bool subtotal 5000 then 0.00%Q
  else
    let base_fee := 50.00%Q in
    if total_items >? 5 then
      let additional_fee := (inject_Z (total_items - 5) * 10.00)%Q in
      (base_fee + additional_fee)%Q
    else base_fee.

Definition calculate_shipping (db : DB) (self : Cart) : Result Decimal :=
  rbind (subtotal db self) (fun subtotal =>
  let total_items := total_items db self in
  Ok (shipping_of subtotal total_items)).

Definition shipping_fee (db : DB) (self : Cart) : Result Decimal :=
  calculate_shipping db self.

Definition coupon_discount (now : Z) (db : DB) (self : Cart) : Result Decimal :=
  match cart_applied_coupon self with
  | Some pk =>
      rbind (get_coupon db pk) (fun applied_coupon =>
      let '(is_valid, msg) := Coupon.is_valid now applied_coupon in
      if is_valid then
        rbind (subtotal db self) (fun s =>
        if Qge_bool s (coupon_min_purchase applied_coupon) then
          rbind (subtotal db self) (fun s' =>
          Ok (Coupon.calculate_discount applied_coupon s'))
        else Ok 0.00%Q)
      else Ok 0.00%Q)
  | None => Ok 0.00%Q
  end.

(** The body of [order_value_discount] once [subtotal] is read. *)
Definition order_value_discount_of (subtotal : Decimal) : Decimal :=
  if Qge_bool subtotal 5000 then (subtotal * 0.15)%Q
  else if Qge_bool subtotal 2000 then (subtotal * 0.10)%Q
  else if Qge_bool subtotal 1000 then (subtotal * 0.05)%Q
  else 0.00%Q.

Definition order_value_discount (db : DB) (self : Cart) : Result Decimal :=
  rbind (subtotal db self) (fun subtotal =>
  Ok (order_value_discount_of subtotal)).

Definition first_time_discount (db : DB) (self : Cart) : Result Decimal :=
  rbind (get_customer db (cart_customer self)) (fun customer =>
  if customer_is_first_time_buyer customer then
    rbind (subtotal db self) (fun s => Ok (s * 0.15)%Q)
  else Ok 0.00%Q).

Definition total_discount (now : Z) (db : DB) (self : Cart) : Result Decimal :=
  rbind (coupon_discount now db self) (fun cd =>
  rbind (order_value_discount db self) (fun ovd =>
  rbind (first_time_discount db self) (fun ftd =>
  Ok (cd + ovd + ftd)%Q))).

Definition total_amount (now : Z) (db : DB) (self : Cart) : Result Decimal :=
  rbind (subtotal db self) (fun s =>
  rbind (total_discount now db self) (fun td =>
  rbind (shipping_fee db self) (fun sf =>
  Ok (s - td + sf)%Q))).

End Cart.

(** ** [OrderItem] and [Order] *)

Module OrderItem.

(** [OrderItem.save]; [book] is the instance held in [self.book].  The
    first two assignments replace whatever the caller put in
    [unit_price] and [subtotal].  [not self.pk] is [self.pk is None]: no
    row has key 0 in Django, and position [i] here stands for key [i + 1].
    An instance whose key names no row cannot come from these views; the
    positional table cannot hold it and the model raises.  The quantity of
    a new row is that of a cart line and its order is the one just
    created; the column check of [quantity] (a [PositiveIntegerField]) and
    the foreign key to the order are not modelled, and no property below
    is about a save that they would refuse. *)
Definition save (self : OrderItem) (book : Book) : M OrderItem :=
  let unit_price := book_price book in
  let subtotal := (unit_price * inject_Z (item_quantity self))%Q in
  run match item_pk self with
      | None =>
          if book_stock book >=? item_quantity self then
            let book' := {| book_title := book_title book;
                            book_price := book_price book;
                            book_stock := book_stock book - item_quantity self |} in
            update (set_books (insert (item_book self) book'))
          else
            raise (ValidationError ("Insufficient stock for " +:+ book_title book))
      | Some _ => ret tt
      end;
  (* super().save(): INSERT for a new instance, UPDATE of its row otherwise *)
  do db <- current_db;
  let row pk := {| item_pk := Some pk; item_order := item_order self;
                   item_book := item_book self;
                   item_quantity := item_quantity self;
                   item_unit_price := unit_price;
                   item_subtotal := subtotal |} in
  match item_pk self with
  | None =>
      let pk := length (order_items db) in
      run update (set_order_items (fun t => t ++ [row pk]));
      ret (row pk)
  | Some pk =>
      if decide (pk < length (order_items db))%nat then
        run update (set_order_items (fun t => <[pk := row pk]> t));
        ret (row pk)
      else raise (DoesNotExist "OrderItem")
  end.

(** An [OrderItem] row as the ORM reads it: [unit_price] and [subtotal]
    are [DecimalField(max_digits=8, decimal_places=2)]. *)
Definition from_db (row : OrderItem) : Result OrderItem :=
  rbind (decimal_from_db 8 (item_unit_price row)) (fun unit_price =>
  rbind (decimal_from_db 8 (item_subtotal row)) (fun subtotal =>
  Ok {| item_pk := item_pk row; item_order := item_order row;
        item_book := item_book row; item_quantity := item_quantity row;
        item_unit_price := unit_price; item_subtotal := subtotal |})).

(** [OrderItem.objects.create(order=, book=, quantity=, unit_price=, subtotal=)]. *)
Definition create (order : nat) (book_pk : nat) (book : Book) (quantity : Z)
    (unit_price subtotal : Decimal) : M OrderItem :=
  save {| item_pk := None; item_order := order; item_book := book_pk;
          item_quantity := quantity; item_unit_price := unit_price;
          item_subtotal := subtotal |} book.

End OrderItem.

Module Order.

(** The rows of [self.orderitem_set]. *)
Definition orderitem_set (db : DB) (pk : nat) : list OrderItem :=
  filter (fun item => item_order item = pk) (order_items db).

(** [self.orderitem_set.all()], evaluated: every row is read and converted
    before the first one is used. *)
Definition orderitem_set_all (db : DB) (pk : nat) : Result (list OrderItem) :=
  mapR OrderItem.from_db (orderitem_set db pk).

Definition subtotal (db : DB) (pk : nat) : Result Decimal :=
  rbind (orderitem_set_all db pk) (fun items =>
  Ok (py_sum (map item_subtotal items))).

Definition total_discount (self : Order) : Decimal :=
  (order_coupon_discount self + order_order_value_discount self
   + order_first_time_discount self)%Q.

Definition total_amount (db : DB) (pk : nat) (self : Order) : Result Decimal :=
  rbind (subtotal db pk) (fun s =>
  Ok (s - total_discount self + order_shipping_fee self)%Q).

(** [Order.objects.create(...)]: the new row's key is returned. *)
Definition create (self : Order) : M nat :=
  do db <- current_db;
  run update (set_orders (fun t => t ++ [self]));
  ret (length (orders db)).

(** [order.save()] of an existing row. *)
Definition save (pk : nat) (self : Order) : M unit :=
  update (set_orders (fun t => <[pk := self]> t)).

Definition with_amounts (self : Order)
    (shipping_fee coupon_discount order_value_discount first_time_discount : Decimal)
    : Order :=
  {| order_customer := order_customer self; order_date := order_date self;
     order_status := order_status self;
     order_delivery_name := order_delivery_name self;
     order_delivery_phone := order_delivery_phone self;
     order_delivery_address := order_delivery_address self;
     order_delivery_notes := order_delivery_notes self;
     order_shipping_fee := shipping_fee;
     order_applied_coupon := order_applied_coupon self;
     order_coupon_discount := coupon_discount;
     order_order_value_discount := order_value_discount;
     order_first_time_discount := first_time_discount;
     order_discount_code_used := order_discount_code_used self;
     order_cancellation_reason := order_cancellation_reason self;
     order_cancelled_at := order_cancelled_at self |}.

(** An [Order] row as the ORM reads it: the four amounts are
    [DecimalField(max_digits=8, decimal_places=2)]. *)
Definition from_db (row : Order) : Result Order :=
  rbind (decimal_from_db 8 (order_shipping_fee row)) (fun shipping_fee =>
  rbind (decimal_from_db 8 (order_coupon_discount row)) (fun coupon_discount =>
  rbind (decimal_from_db 8 (order_order_value_discount row))
    (fun order_value_discount =>
  rbind (decimal_from_db 8 (order_first_time_discount row))
    (fun first_time_discount =>
  Ok (with_amounts row shipping_fee coupon_discount order_value_discount
        first_time_discount))))).

Definition with_status (self : Order) (st : OrderStatus) : Order :=
  {| order_customer := order_customer self; order_date := order_date self;
     order_status := st;
     order_delivery_name := order_delivery_name self;
     order_delivery_phone := order_delivery_phone self;
     order_delivery_address := order_delivery_address self;
     order_delivery_notes := order_delivery_notes self;
     order_shipping_fee := order_shipping_fee self;
     order_applied_coupon := order_applied_coupon self;
     order_coupon_discount := order_coupon_discount self;
     order_order_value_discount := order_order_value_discount self;
     order_first_time_discount := order_first_time_discount self;
     order_discount_code_used := order_discount_code_used self;
     order_cancellation_reason := order_cancellation_reason self;
     order_cancelled_at := order_cancelled_at self |}.

Definition cancelled (self : Order) (reason : option string) (at_ : Z) : Order :=
  {| order_customer := order_customer self; order_date := order_date self;
     order_status := Cancelled;
     order_delivery_name := order_delivery_name self;
     order_delivery_phone := order_delivery_phone self;
     order_delivery_address := order_delivery_address self;
     order_delivery_notes := order_delivery_notes self;
     order_shipping_fee := order_shipping_fee self;
     order_applied_coupon := order_applied_coupon self;
     order_coupon_discount := order_coupon_discount self;
     order_order_value_discount := order_order_value_discount self;
     order_first_time_discount := order_first_time_discount self;
     order_discount_code_used := order_discount_code_used self;
     order_cancellation_reason := reason;
     order_cancelled_at := Some at_ |}.

End Order.

Module CouponUsage.

Definition same_pair (coupon order : nat) (u : CouponUsage) : bool :=
  bool_decide (usage_coupon u = coupon /\ usage_order u = order).

(** [CouponUsage.objects.create(coupon=, customer=, order=)], under the
    [unique_together] constraint of the table. *)
Definition create (now : Z) (coupon customer order : nat) : M unit :=
  do db <- current_db;
  if existsb (same_pair coupon order) (coupon_usages db) then
    raise (IntegrityError "unique_together (coupon, order)")
  else
    update (set_coupon_usages (fun t =>
      t ++ [{| usage_coupon := coupon; usage_customer := customer;
               usage_order := order; usage_used_at := now |}])).

End CouponUsage.

Module Payment.

(** A [Payment] row as the ORM reads it: [amount] is
    [DecimalField(max_digits=10, decimal_places=2)]. *)
Definition from_db (row : Payment) : Result Payment :=
  rbind (decimal_from_db 10 (payment_amount row)) (fun amount =>
  Ok {| payment_order := payment_order row; payment_amount := amount;
        payment_method := payment_method row;
        payment_status := payment_status row;
        payment_transaction_id := payment_transaction_id row |}).

(** The [post_save] receiver [update_order_status]; [order] is the
    instance held in [instance.order]. *)
Definition update_order_status (instance : Payment) (order : Order) : M unit :=
  match payment_status instance, order_status order with
  | Paid, Pending =>
      Order.save (payment_order instance) (Order.with_status order Confirmed)
  | _, _ => ret tt
  end.

(** [Payment.objects.create(...)]: the one-to-one key on [order], the
    insertion, then the [post_save] signal. *)
Definition create (instance : Payment) (order : Order) : M unit :=
  do db <- current_db;
  if existsb (fun p => bool_decide (payment_order p = payment_order instance))
             (payments db) then
    raise (IntegrityError "unique (order)")
  else
    run update (set_payments (fun t => t ++ [instance]));
    update_order_status instance order.

End Payment.

(** ** Text helpers *)

Definition code_of (c : ascii) : nat := nat_of_ascii c.

(** White space as [str.strip()] sees it: the ASCII white space
    (U+0009 to U+000D, U+001C to U+0020), U+0085 and U+00A0. *)
Definition is_space (c : ascii) : bool :=
  let n := code_of c in
  ((9 <=? n) && (n <=? 13) || (28 <=? n) && (n <=? 32)
   || (n =? 133) || (n =? 160))%nat.

(** One of the letters a to z. *)
Definition is_lower (c : ascii) : bool :=
  let n := code_of c in ((97 <=? n) && (n <=? 122))%nat.

(** A decimal digit, 0 to 9. *)
Definition is_digit (c : ascii) : bool :=
  let n := code_of c in ((48 <=? n) && (n <=? 57))%nat.

(** A character that [str.isdigit()] accepts: a decimal digit or one of
    the superscript digits U+00B2, U+00B3 and U+00B9. *)
Definition is_digit_char (c : ascii) : bool :=
  let n := code_of c in
  (is_digit c || (n =? 178) || (n =? 179) || (n =? 185))%nat.

Definition upper_char (c : ascii) : ascii :=
  if is_lower c then ascii_of_nat (code_of c - 32) else c.

Definition is_upper (c : ascii) : bool :=
  let n := code_of c in ((65 <=? n) && (n <=? 90))%nat.

Definition lower_char (c : ascii) : ascii :=
  if is_upper c then ascii_of_nat (code_of c + 32) else c.

Fixpoint map_string (f : ascii -> ascii) (s : string) : string :=
  match s with
  | EmptyString => EmptyString
  | String c s' => String (f c) (map_string f s')
  end.

(** [s.upper()] and [s.lower()], on ASCII text. *)
Definition upper (s : string) : string := map_string upper_char s.
Definition lower (s : string) : string := map_string lower_char s.

Fixpoint lstrip (s : string) : string :=
  match s with
  | String c s' => if is_space c then lstrip s' else s
  | EmptyString => EmptyString
  end.

Fixpoint rstrip (s : string) : string :=
  match s with
  | String c s' =>
      match rstrip s' with
      | EmptyString => if is_space c then EmptyString else String c EmptyString
      | r => String c r
      end
  | EmptyString => EmptyString
  end.

(** [s.strip()]. *)
Definition strip (s : string) : string := rstrip (lstrip s).

(** [s.replace(' ', '')]. *)
Fixpoint remove_spaces (s : string) : string :=
  match s with
  | String c s' =>
      if Ascii.eqb c " "%char then remove_spaces s' else String c (remove_spaces s')
  | EmptyString => EmptyString
  end.

Fixpoint all_chars (p : ascii -> bool) (s : string) : bool :=
  match s with
  | String c s' => p c && all_chars p s'
  | EmptyString => true
  end.

Fixpoint has_char (p : ascii -> bool) (s : string) : bool :=
  match s with
  | String c s' => p c || has_char p s'
  | EmptyString => false
  end.

(** Text of ASCII characters only, on which [upper] and [lower] are
    Python's. *)
Definition is_ascii (c : ascii) : bool := (code_of c <? 128)%nat.
Definition ascii_text (s : string) : bool := all_chars is_ascii s.

(** [s.isdigit()]: non-empty and digits only. *)
Definition isdigit (s : string) : bool :=
  match s with
  | EmptyString => false
  | _ => all_chars is_digit_char s
  end.

(** Truth value of a string: non-empty. *)
Definition truthy (s : string) : bool :=
  match s with EmptyString => false | _ => true end.

Fixpoint rev_chars (s : string) (acc : list ascii) : list ascii :=
  match s with
  | String c s' => rev_chars s' (c :: acc)
  | EmptyString => acc
  end.

(** [int(digit)] for one decimal digit. *)
Definition int_of_digit (c : ascii) : Z := Z.of_nat (code_of c) - 48.

(** ** Responses of the views *)

Inductive HttpMethod := GET | POST.

Inductive Level := msg_success | msg_warning | msg_error.

(** Flash messages; the formatted ones keep their arguments. *)
Inductive Message :=
| Text (s : string)
| CouponError (msg : string)
| MinimumPurchase (required : Decimal)
| CouponApplied (code : string) (saved : Decimal)
| CannotCancel (status : OrderStatus)
| OrderCancelled (order : nat)
| OrderPlaced (order : nat) (saved : Decimal)
| ErrorCreatingOrder (e : Exn)
| ErrorProcessingPayment (e : Exn).

Inductive Response :=
| Redirect (to : string) (flash : option (Level * Message))
| Render (template : string)
| JsonResponse (success : bool) (message : Message) (order_id : option nat)
| Http404
| HttpResponseNotAllowed
| ServerError (e : Exn).

Definition View := DB -> Response * DB.

(** A view body; an uncaught exception becomes an error response. *)
Definition respond (m : M Response) : View :=
  fun db => match m db with
            | (Ok r, db') => (r, db')
            | (Raise Http404_, db') => (Http404, db')
            | (Raise e, db') => (ServerError e, db')
            end.

(** [try: body except Exception as e: handler(e)]. *)
Definition try_except {A} (body : M A) (handler : Exn -> M A) : M A :=
  fun db => match body db with
            | (Ok a, db') => (Ok a, db')
            | (Raise e, db') => handler e db'
            end.

(** [@customer_required], once the session user is resolved to the key of
    a customer profile. *)
Definition customer_required (view : Customer -> M Response) (customer_pk : nat)
    : M Response :=
  do db <- current_db;
  match customers db !! customer_pk with
  | Some customer => view customer
  | None => ret (Redirect "home"
      (Some (msg_error, Text "Customer profile not found. Please contact support.")))
  end.

Definition is_post (m : HttpMethod) : bool :=
  match m with POST => true | GET => false end.

Definition flash (to : string) (level : Level) (m : Message) : Response :=
  Redirect to (Some (level, m)).

(** [get_object_or_404(Cart, customer=customer)]. *)
Definition get_cart_or_404 (customer_pk : nat) (db : DB) : Result Cart :=
  match carts db !! customer_pk with
  | Some applied => Ok {| cart_customer := customer_pk; cart_applied_coupon := applied |}
  | None => Raise Http404_
  end.

(** [cart.save()].  The table [carts] holds the column [applied_coupon];
    [updated_at], which every save rewrites ([auto_now]), is not
    modelled, so that equality of [carts] is equality of the applied
    coupons. *)
Definition Cart_save (self : Cart) : M unit :=
  update (set_carts (insert (cart_customer self) (cart_applied_coupon self))).

(** [get_object_or_404(Order, id=order_id, customer=customer)]: the row
    that the query finds is read. *)
Definition get_order_or_404 (order_id customer_pk : nat) (db : DB) : Result Order :=
  match orders db !! order_id with
  | Some order =>
      if decide (order_customer order = customer_pk) then Order.from_db order
      else Raise Http404_
  | None => Raise Http404_
  end.

(** [Coupon.objects.get(code=code)]: an exact match on the stored code. *)
Definition Coupon_objects_get (code : string) (db : DB) : Result (nat * Coupon) :=
  match map_to_list (filter (fun kv => coupon_code kv.2 = code) (coupons db)) with
  | [] => Raise (DoesNotExist "Coupon")
  | [kv] => Ok kv
  | _ => Raise MultipleObjectsReturned
  end.

(** ** Coupon views ([views.py]) *)

Definition apply_coupon (now : Z) (method : HttpMethod) (customer_pk : nat)
    (coupon_code_field : option string) : View :=
  respond (customer_required (fun customer =>
    if is_post method then
      let coupon_code := upper (strip (default "" coupon_code_field)) in
      do cart <- query (get_cart_or_404 customer_pk);
      if negb (truthy coupon_code) then
        ret (flash "view_cart" msg_error (Text "Please enter a coupon code!"))
      else
        do db <- current_db;
        match Coupon_objects_get coupon_code db with
        | Raise (DoesNotExist _) =>
            ret (flash "view_cart" msg_error (Text "Invalid coupon code!"))
        | Raise e => raise e
        | Ok (pk, coupon) =>
            let '(is_valid, msg) := Coupon.is_valid now coupon in
            if negb is_valid then
              ret (flash "view_cart" msg_error (CouponError msg))
            else
              do subtotal <- query (fun db => Cart.subtotal db cart);
              if Qlt_bool subtotal (coupon_min_purchase coupon) then
                ret (flash "view_cart" msg_error
                       (MinimumPurchase (coupon_min_purchase coupon)))
              else
                let cart := {| cart_customer := cart_customer cart;
                               cart_applied_coupon := Some pk |} in
                run Cart_save cart;
                do subtotal <- query (fun db => Cart.subtotal db cart);
                let discount_amount := Coupon.calculate_discount coupon subtotal in
                ret (flash "view_cart" msg_success
                       (CouponApplied coupon_code discount_amount))
        end
    else ret (Redirect "view_cart" None)) customer_pk).

(** ** Cancellation ([cancel_order]) *)

Definition cancellable (st : OrderStatus) : bool :=
  match st with Pending | Confirmed => true | _ => false end.

Definition restock (book : Book) (quantity : Z) : Book :=
  {| book_title := book_title book; book_price := book_price book;
     book_stock := book_stock book + quantity |}.

Definition with_usage (coupon : Coupon) (n : Z) : Coupon :=
  {| coupon_code := coupon_code coupon;
     coupon_discount_type := coupon_discount_type coupon;
     coupon_discount_value := coupon_discount_value coupon;
     coupon_max_usage := coupon_max_usage coupon;
     coupon_current_usage := n;
     coupon_min_purchase := coupon_min_purchase coupon;
     coupon_expiry_date := coupon_expiry_date coupon;
     coupon_is_active := coupon_is_active coupon |}.

(** One turn of the loop "Restore stock for all items in the order". *)
Definition restore_stock (order_item : OrderItem) : M unit :=
  do book <- query (fun db => get_book db (item_book order_item));
  update (set_books (insert (item_book order_item)
                            (restock book (item_quantity order_item)))).

Definition negative_usage : Exn :=
  IntegrityError "CHECK constraint failed: current_usage".

(** The block "Revert coupon usage if coupon was applied".  The save of
    the decremented counter is refused when the counter becomes negative
    ([current_usage] is a [PositiveIntegerField]). *)
Definition revert_coupon_usage (order_id : nat) (order : Order) : M unit :=
  match order_applied_coupon order with
  | Some pk =>
      do coupon <- query (fun db => get_coupon db pk);
      let coupon := with_usage coupon (coupon_current_usage coupon - 1) in
      run (if coupon_current_usage coupon <? 0 then raise negative_usage
           else update (set_coupons (insert pk coupon)));
      (* Delete coupon usage record *)
      update (set_coupon_usages (filter (fun u => usage_order u <> order_id)))
  | None => ret tt
  end.

Definition cancel_order (now : Z) (method : HttpMethod) (customer_pk order_id : nat)
    (cancellation_reason_field : option string) : View :=
  respond (customer_required (fun customer =>
    do order <- query (get_order_or_404 order_id customer_pk);
    if negb (cancellable (order_status order)) then
      ret (flash "order_history" msg_error (CannotCancel (order_status order)))
    else if is_post method then
      let cancellation_reason := strip (default "" cancellation_reason_field) in
      (* Restore stock for all items in the order *)
      do order_items <- query (fun db => Order.orderitem_set_all db order_id);
      run for_each order_items restore_stock;
      (* Revert coupon usage if coupon was applied *)
      run revert_coupon_usage order_id order;
      (* Update order status and save cancellation details *)
      run Order.save order_id
            (Order.cancelled order
               (if truthy cancellation_reason then Some cancellation_reason else None)
               now);
      ret (flash "order_history" msg_success (OrderCancelled order_id))
    else ret (Render "bookstore/cancel_order.html")) customer_pk).

(** ** Settlement ([checkout] and [process_card_payment]) *)

Record Delivery := {
  delivery_name : string;
  delivery_phone : string;
  delivery_address : string;
  delivery_notes : option string
}.

Definition first_purchase_done (customer : Customer) : Customer :=
  {| customer_phone := customer_phone customer;
     customer_address := customer_address customer;
     customer_is_first_time_buyer := false |}.

(** [cart.applied_coupon], the instance behind the foreign key. *)
Definition Cart_applied_coupon (cart : Cart) (db : DB) : Result (option (nat * Coupon)) :=
  match cart_applied_coupon cart with
  | Some pk => rbind (get_coupon db pk) (fun coupon => Ok (Some (pk, coupon)))
  | None => Ok None
  end.

(** One turn of the loop "Create Order Items": [cart_item.book] is
    fetched, then [OrderItem.objects.create] saves the new row. *)
Definition create_order_item (order_pk : nat) (cart_item : CartItem) : M unit :=
  do book <- query (fun db => get_book db (cartitem_book cart_item));
  run OrderItem.create order_pk (cartitem_book cart_item) book
        (cartitem_quantity cart_item) (book_price book)
        (book_price book * inject_Z (cartitem_quantity cart_item))%Q;
  ret tt.

(** The block "Update Coupon Usage": the counter is incremented and
    saved, then the [CouponUsage] row is inserted. *)
Definition update_coupon_usage (now : Z) (customer_pk order_pk : nat)
    (applied_coupon : option (nat * Coupon)) : M unit :=
  match applied_coupon with
  | Some (pk, coupon) =>
      run update (set_coupons
            (insert pk (with_usage coupon (coupon_current_usage coupon + 1))));
      CouponUsage.create now pk customer_pk order_pk
  | None => ret tt
  end.

(** The keyword arguments of [Order.objects.create], evaluated in order
    on the cart: the new [Order] instance (status [Pending] by default)
    and the coupon instance that [cart.applied_coupon] caches. *)
Definition new_order (now : Z) (customer_pk : nat) (cart : Cart)
    (delivery : Delivery) (db : DB) : Result (Order * option (nat * Coupon)) :=
  rbind (Cart.shipping_fee db cart) (fun shipping_fee =>
  rbind (Cart_applied_coupon cart db) (fun applied_coupon =>
  rbind (Cart.coupon_discount now db cart) (fun coupon_discount =>
  rbind (Cart.order_value_discount db cart) (fun order_value_discount =>
  rbind (Cart.first_time_discount db cart) (fun first_time_discount =>
  Ok ({| order_customer := customer_pk; order_date := now;
         order_status := Pending;
         order_delivery_name := delivery_name delivery;
         order_delivery_phone := delivery_phone delivery;
         order_delivery_address := delivery_address delivery;
         order_delivery_notes := delivery_notes delivery;
         order_shipping_fee := shipping_fee;
         order_applied_coupon := cart_applied_coupon cart;
         order_coupon_discount := coupon_discount;
         order_order_value_discount := order_value_discount;
         order_first_time_discount := first_time_discount;
         order_discount_code_used :=
           match applied_coupon with
           | Some (_, coupon) => Some (coupon_code coupon)
           | None => None
           end;
         order_cancellation_reason := None;
         order_cancelled_at := None |},
      applied_coupon)))))).

(** The arguments of [Payment.objects.create]: [amount=order.total_amount]
    reads the order items back, [order] being the instance in memory. *)
Definition payment_of (now : Z) (order_pk : nat) (order : Order)
    (method : PaymentMethod) (status : PaymentStatus) (with_transaction_id : bool)
    (db : DB) : Result Payment :=
  rbind (Order.total_amount db order_pk order) (fun amount =>
  Ok {| payment_order := order_pk;
        payment_amount := amount;
        payment_method := method; payment_status := status;
        payment_transaction_id :=
          if with_transaction_id then Some (order_pk, now) else None |}).

(** The body of the [try] block.  The two views run the same statements
    and differ in the [Payment] row only: [method], [status] and whether a
    [transaction_id] is recorded. *)
Definition place_order (now : Z) (customer_pk : nat) (customer : Customer)
    (cart : Cart) (cart_items : list CartItem) (delivery : Delivery)
    (method : PaymentMethod) (status : PaymentStatus) (with_transaction_id : bool)
    : M (nat * Order) :=
  do created <- query (new_order now customer_pk cart delivery);
  let order := created.1 in
  let applied_coupon := created.2 in
  do order_pk <- Order.create order;
  (* Create Order Items *)
  run for_each cart_items (create_order_item order_pk);
  (* Update Coupon Usage *)
  run update_coupon_usage now customer_pk order_pk applied_coupon;
  (* Update First-Time Buyer Status *)
  run when (customer_is_first_time_buyer customer)
        (update (set_customers (insert customer_pk (first_purchase_done customer))));
  (* Create Payment *)
  do payment <- query (payment_of now order_pk order method status
                         with_transaction_id);
  run Payment.create payment order;
  (* Clear Cart *)
  run update (set_cart_items
        (filter (fun item => cartitem_cart item <> cart_customer cart)));
  run Cart_save {| cart_customer := cart_customer cart; cart_applied_coupon := None |};
  ret (order_pk, order).

Record CheckoutForm := {
  checkout_payment_method : option string;
  checkout_delivery_name : option string;
  checkout_delivery_phone : option string;
  checkout_delivery_address : option string;
  checkout_delivery_notes : option string
}.

(** [card_payment_form]: it only reads the cart and renders the form. *)
Definition card_payment_form (customer_pk : nat) : M Response :=
  customer_required (fun customer =>
    do cart <- query (get_cart_or_404 customer_pk);
    do db <- current_db;
    match Cart.cartitem_set db cart with
    | [] => ret (flash "view_cart" msg_warning (Text "Your cart is empty!"))
    | _ => ret (Render "bookstore/card_payment_form.html")
    end) customer_pk.

Definition checkout (now : Z) (method : HttpMethod) (customer_pk : nat)
    (form : CheckoutForm) : View :=
  respond (customer_required (fun customer =>
    do cart <- query (get_cart_or_404 customer_pk);
    do db <- current_db;
    let cart_items := Cart.cartitem_set db cart in
    match cart_items with
    | [] => ret (flash "view_cart" msg_warning (Text "Your cart is empty!"))
    | _ =>
      if is_post method then
        let payment_method := default "Cash" (checkout_payment_method form) in
        let delivery_notes := default "" (checkout_delivery_notes form) in
        match checkout_delivery_name form, checkout_delivery_phone form,
              checkout_delivery_address form with
        | Some delivery_name, Some delivery_phone, Some delivery_address =>
          if negb (truthy delivery_name && truthy delivery_phone
                   && truthy delivery_address) then
            ret (flash "checkout" msg_error (Text "Please fill in all delivery details!"))
          else if String.eqb payment_method "Cash" then
            try_except
              (do placed <- place_order now customer_pk customer cart cart_items
                    {| delivery_name := delivery_name;
                       delivery_phone := delivery_phone;
                       delivery_address := delivery_address;
                       delivery_notes := Some delivery_notes |}
                    Cash Unpaid false;
               ret (flash "order_history" msg_success
                      (OrderPlaced placed.1 (Order.total_discount placed.2))))
              (fun e => ret (flash "checkout" msg_error (ErrorCreatingOrder e)))
          else if String.eqb payment_method "Card" then
            card_payment_form customer_pk
          else
            ret (flash "checkout" msg_error (Text "Invalid payment method!"))
        | _, _, _ =>
            ret (flash "checkout" msg_error (Text "Please fill in all delivery details!"))
        end
      else ret (Render "bookstore/checkout.html")
    end) customer_pk).

(** ** Card validation and the card payment view *)

Fixpoint luhn_total (reverse_digits : list ascii) (i : nat) (total : Z) : Z :=
  match reverse_digits with
  | [] => total
  | digit :: rest =>
      let n := int_of_digit digit in
      let n := if Nat.odd i
               then (let n := n * 2 in if n >? 9 then n - 9 else n)
               else n in
      luhn_total rest (S i) (total + n)
  end.

Definition luhn_check (num : string) : bool :=
  luhn_total (rev_chars num []) 0 0 mod 10 =? 0.

(** [validate_card_number].  [int(digit)] in the loop of [luhn_check]
    raises [ValueError] at a character that is not a decimal digit, which
    [isdigit] lets through when it is a superscript digit; the loop has no
    effect, so the exception is raised here before [luhn_check] is run on
    decimal digits. *)
Definition validate_card_number (card_number : string) : Result (bool * string) :=
  let card_number := remove_spaces card_number in
  if negb (isdigit card_number) then
    Ok (false, "Card number must contain only digits")
  else if ((String.length card_number <? 13) || (19 <? String.length card_number))%nat then
    Ok (false, "Card number must be between 13-19 digits")
  else if negb (all_chars is_digit card_number) then Raise ValueError
  else if negb (luhn_check card_number) then
    Ok (false, "Invalid card number (failed Luhn check)")
  else Ok (true, "Valid").

Definition validate_cvv (cvv : string) : bool * string :=
  if negb (isdigit cvv) then (false, "CVV must contain only digits")
  else if negb ((String.length cvv =? 3) || (String.length cvv =? 4))%nat then
    (false, "CVV must be 3 or 4 digits")
  else (true, "Valid").

Record CardForm := {
  card_number : string;
  card_holder : string;
  expiry_month : string;
  expiry_year : string;
  cvv : string;
  card_delivery_name : string;
  card_delivery_phone : string;
  card_delivery_address : string;
  card_delivery_notes : string
}.

Section CardPayment.

(** Python's built-in [int] on text ([None] when it raises), and the
    calendar year and month of [timezone.now()]. *)
Variable py_int : string -> option Z.
Variables current_year current_month : Z.

Definition validate_expiry_date (month year : string) : bool * string :=
  match py_int month, py_int year with
  | Some month, Some year =>
      if (month <? 1) || (month >? 12) then (false, "Month must be between 01-12")
      else
        let year :=
          if year <? 100 then
            let current_century := (current_year / 100) * 100 in
            current_century + year
          else year in
        if year <? current_year then (false, "Card has expired")
        else if (year =? current_year) && (month <? current_month)
          then (false, "Card has expired")
        else (true, "Valid")
  | _, _ => (false, "Invalid expiry format")
  end.

Definition json_error (message : string) : Response :=
  JsonResponse false (Text message) None.

Definition process_card_payment (now : Z) (method : HttpMethod) (customer_pk : nat)
    (form : CardForm) : View :=
  respond (customer_required (fun customer =>
    if negb (is_post method) then ret HttpResponseNotAllowed else
    do cart <- query (get_cart_or_404 customer_pk);
    do db <- current_db;
    let cart_items := Cart.cartitem_set db cart in
    match cart_items with
    | [] => ret (json_error "Cart is empty")
    | _ =>
      let card_number := strip (card_number form) in
      let card_holder := strip (card_holder form) in
      let expiry_month := strip (expiry_month form) in
      let expiry_year := strip (expiry_year form) in
      let cvv := strip (cvv form) in
      let delivery_name := strip (card_delivery_name form) in
      let delivery_phone := strip (card_delivery_phone form) in
      let delivery_address := strip (card_delivery_address form) in
      let delivery_notes :=
        let notes := strip (card_delivery_notes form) in
        if truthy notes then Some notes else None in
      (* Validate all fields are provided *)
      if negb (forallb truthy [card_number; card_holder; expiry_month; expiry_year;
                               cvv; delivery_name; delivery_phone; delivery_address])
      then ret (json_error "All fields are required")
      else
      do checked <- query (fun _ => validate_card_number card_number);
      let '(is_valid, msg) := checked in
      if negb is_valid then ret (json_error msg) else
      let '(is_valid, msg) := validate_expiry_date expiry_month expiry_year in
      if negb is_valid then ret (json_error msg) else
      let '(is_valid, msg) := validate_cvv cvv in
      if negb is_valid then ret (json_error msg) else
      if (String.length card_holder <? 3)%nat then
        ret (json_error "Card holder name must be at least 3 characters")
      else
        try_except
          (do placed <- place_order now customer_pk customer cart cart_items
                {| delivery_name := delivery_name; delivery_phone := delivery_phone;
                   delivery_address := delivery_address;
                   delivery_notes := delivery_notes |}
                Card Paid true;
           ret (JsonResponse true (Text "Payment processed successfully!")
                  (Some placed.1)))
          (fun e => ret (JsonResponse false (ErrorProcessingPayment e) None))
    end) customer_pk).

End CardPayment.

(** ** Cart views ([views.py]) *)

(** [get_object_or_404(Book, id=book_id)]. *)
Definition get_book_or_404 (book_id : nat) (db : DB) : Result Book :=
  match books db !! book_id with Some b => Ok b | None => Raise Http404_ end.

(** [Cart.objects.get_or_create(customer=customer)]. *)
Definition Cart_get_or_create (customer_pk : nat) : M Cart :=
  do db <- current_db;
  match carts db !! customer_pk with
  | Some applied =>
      ret {| cart_customer := customer_pk; cart_applied_coupon := applied |}
  | None =>
      run update (set_carts (insert customer_pk None));
      ret {| cart_customer := customer_pk; cart_applied_coupon := None |}
  end.

(** [CartItem.objects.filter(cart=cart, book=book)], each row with its key. *)
Definition CartItem_filter (cart : Cart) (book_id : nat) (db : DB)
    : list (nat * CartItem) :=
  filter (fun kv => cartitem_cart kv.2 = cart_customer cart
                    /\ cartitem_book kv.2 = book_id)
         (imap pair (cart_items db)).

(** [CartItem.objects.get_or_create(cart=cart, book=book)]: the row, its
    key and whether it was created; a new row has the default quantity. *)
Definition CartItem_get_or_create (cart : Cart) (book_id : nat)
    : M (nat * CartItem * bool) :=
  do db <- current_db;
  match CartItem_filter cart book_id db with
  | [] =>
      let cart_item := {| cartitem_cart := cart_customer cart;
                          cartitem_book := book_id; cartitem_quantity := 1 |} in
      run update (set_cart_items (fun rows => rows ++ [cart_item]));
      ret (length (cart_items db), cart_item, true)
  | [(pk, cart_item)] => ret (pk, cart_item, false)
  | _ => raise MultipleObjectsReturned
  end.

Definition with_quantity (self : CartItem) (quantity : Z) : CartItem :=
  {| cartitem_cart := cartitem_cart self; cartitem_book := cartitem_book self;
     cartitem_quantity := quantity |}.

(** [cart_item.save()] of an existing row. *)
Definition CartItem_save (pk : nat) (self : CartItem) : M unit :=
  update (set_cart_items (<[pk := self]>)).

Definition add_to_cart (customer_pk book_id : nat) : View :=
  respond (customer_required (fun customer =>
    do book <- query (get_book_or_404 book_id);
    do cart <- Cart_get_or_create customer_pk;
    do got <- CartItem_get_or_create cart book_id;
    let '(pk, cart_item, created) := got in
    if negb created then
      if cartitem_quantity cart_item <? book_stock book then
        run CartItem_save pk
              (with_quantity cart_item (cartitem_quantity cart_item + 1));
        ret (flash "view_cart" msg_success
               (Text ("Increased quantity of '" ++ book_title book ++ "' in cart!")))
      else
        ret (flash "view_cart" msg_warning
               (Text ("Cannot add more. Only " ++ pretty (book_stock book)
                      ++ " in stock!")))
    else
      ret (flash "view_cart" msg_success
             (Text ("'" ++ book_title book ++ "' added to cart!")))) customer_pk).

Definition view_cart (customer_pk : nat) : View :=
  respond (customer_required (fun customer =>
    do cart <- Cart_get_or_create customer_pk;
    ret (Render "bookstore/cart.html")) customer_pk).

(** The double quote character of the [remove_coupon] message. *)
Definition dquote : string := String (ascii_of_nat 34) EmptyString.

Definition remove_coupon (method : HttpMethod) (customer_pk : nat) : View :=
  respond (customer_required (fun customer =>
    if is_post method then
      do cart <- query (get_cart_or_404 customer_pk);
      do applied_coupon <- query (Cart_applied_coupon cart);
      match applied_coupon with
      | Some (_, coupon) =>
          let coupon_code := coupon_code coupon in
          run Cart_save {| cart_customer := cart_customer cart;
                           cart_applied_coupon := None |};
          ret (flash "view_cart" msg_success
                 (Text ("Coupon " ++ dquote ++ coupon_code ++ dquote ++ " removed!")))
      | None => ret (flash "view_cart" msg_warning (Text "No coupon applied!"))
      end
    else ret (Redirect "view_cart" None)) customer_pk).

(** [get_object_or_404(CartItem, id=item_id, cart__customer=customer)]:
    the row is joined with its cart. *)
Definition get_cart_item_or_404 (item_id customer_pk : nat) (db : DB)
    : Result CartItem :=
  match cart_items db !! item_id with
  | Some cart_item =>
      match carts db !! cartitem_cart cart_item with
      | Some _ =>
          if decide (cartitem_cart cart_item = customer_pk) then Ok cart_item
          else Raise Http404_
      | None => Raise Http404_
      end
  | None => Raise Http404_
  end.

Definition update_cart_item (method : HttpMethod) (customer_pk item_id : nat)
    (action : option string) : View :=
  respond (customer_required (fun customer =>
    do cart_item <- query (get_cart_item_or_404 item_id customer_pk);
    if is_post method then
      if decide (action = Some "increase") then
        do book <- query (fun db => get_book db (cartitem_book cart_item));
        if cartitem_quantity cart_item <? book_stock book then
          run CartItem_save item_id
                (with_quantity cart_item (cartitem_quantity cart_item + 1));
          ret (flash "view_cart" msg_success (Text "Quantity updated!"))
        else ret (flash "view_cart" msg_warning (Text "Maximum stock reached!"))
      else if decide (action = Some "decrease") then
        if 1 <? cartitem_quantity cart_item then
          run CartItem_save item_id
                (with_quantity cart_item (cartitem_quantity cart_item - 1));
          ret (flash "view_cart" msg_success (Text "Quantity updated!"))
        else ret (flash "view_cart" msg_warning (Text "Minimum quantity is 1!"))
      else ret (Redirect "view_cart" None)
    else ret (Redirect "view_cart" None)) customer_pk).

Definition remove_from_cart (customer_pk item_id : nat) : View :=
  respond (customer_required (fun customer =>
    do cart_item <- query (get_cart_item_or_404 item_id customer_pk);
    do book <- query (fun db => get_book db (cartitem_book cart_item));
    let book_title := book_title book in
    run update (set_cart_items (delete item_id));
    ret (flash "view_cart" msg_success
           (Text ("'" ++ book_title ++ "' removed from cart!")))) customer_pk).

(** ** The payment success page ([payment_success]) *)

(** [get_object_or_404(Payment, order=order)]: the row that the query
    finds is read. *)
Definition get_payment_or_404 (order_id : nat) (db : DB) : Result Payment :=
  match filter (fun payment => payment_order payment = order_id) (payments db) with
  | [] => Raise Http404_
  | [payment] => Payment.from_db payment
  | _ => Raise MultipleObjectsReturned
  end.

Definition payment_success (customer_pk order_id : nat) : View :=
  respond (customer_required (fun customer =>
    do order <- query (get_order_or_404 order_id customer_pk);
    do payment <- query (get_payment_or_404 order_id);
    ret (Render "bookstore/payment_success.html")) customer_pk).

(** ** Sample data *)

Definition alice : Customer :=
  {| customer_phone := "0300"; customer_address := "12 Mall Road";
     customer_is_first_time_buyer := true |}.

Definition book (title : string) (price : Decimal) (stock : Z) : Book :=
  {| book_title := title; book_price := price; book_stock := stock |}.

Definition coupon (code : string) (type : DiscountType) (value : Decimal)
    (current_usage : Z) : Coupon :=
  {| coupon_code := code; coupon_discount_type := type;
     coupon_discount_value := value; coupon_max_usage := 100;
     coupon_current_usage := current_usage; coupon_min_purchase := 0.00%Q;
     coupon_expiry_date := 2000000000; coupon_is_active := true |}.

Definition line (cart book_pk : nat) (quantity : Z) : CartItem :=
  {| cartitem_cart := cart; cartitem_book := book_pk; cartitem_quantity := quantity |}.

(** A shop with one customer (key 0), five books and two coupons; the
    cart of the customer is given by its lines and its applied coupon. *)
Definition shop (lines : list CartItem) (applied : option nat) : DB :=
  {| customers := {[ 0%nat := alice ]};
     books := list_to_map
       [ (0%nat, book "Dune" 4992.00%Q 3); (1%nat, book "Emma" 1.00%Q 10);
         (2%nat, book "Ulysses" 3000.00%Q 1); (3%nat, book "Walden" 600.00%Q 4);
         (4%nat, book "Hamlet" 999.80%Q 9) ];
     coupons := list_to_map
       [ (0%nat, coupon "FLAT1000" fixed 1000.00%Q 3);
         (1%nat, coupon "ALL100" percentage 100.00%Q 0) ];
     coupon_usages := []; orders := []; order_items := []; payments := [];
     carts := {[ 0%nat := applied ]};
     cart_items := lines |}.

Definition cart_of (applied : option nat) : Cart :=
  {| cart_customer := 0; cart_applied_coupon := applied |}.

(** Subtotal 4999 with 8 items. *)
Definition eight_items : list CartItem := [line 0 0 1; line 0 1 7].
(** Subtotal 4999 with 5 items. *)
Definition five_items : list CartItem := [line 0 4 5].
(** Subtotal 6000. *)
Definition two_ulysses : list CartItem := [line 0 2 2].
(** Subtotal 600. *)
Definition one_walden : list CartItem := [line 0 3 1].

Definition now0 : Z := 1700000000.

(** The pricing invariant of an [OrderItem] row. *)
Definition priced (row : OrderItem) : Prop :=
  item_subtotal row = (item_unit_price row * inject_Z (item_quantity row))%Q.

(** An instance to save whose caller supplied a wrong price and subtotal. *)
Definition mispriced_item : OrderItem :=
  {| item_pk := None; item_order := 0; item_book := 3; item_quantity := 2;
     item_unit_price := 1.00%Q; item_subtotal := 7.00%Q |}.

(** A coupon table with a lower-case code and its upper-case twin. *)
Definition twin_coupons : DB :=
  set_coupons (fun _ => list_to_map
    [ (0%nat, coupon "save" fixed 100.00%Q 0);
      (1%nat, coupon "SAVE" fixed 100.00%Q 0) ]) (shop one_walden None).

(** A coupon table whose only coupon has a lower-case letter in its code. *)
Definition lowercase_coupon : DB :=
  set_coupons (fun _ => {[ 0%nat := coupon "Save10" fixed 100.00%Q 0 ]})
    (shop one_walden None).

Definition invalid_code : Response :=
  flash "view_cart" msg_error (Text "Invalid coupon code!").

(** A stand-in for [int] on unsigned decimal text, for the examples. *)
Fixpoint digits_value (s : string) (acc : Z) : Z :=
  match s with
  | String c s' => digits_value s' (10 * acc + int_of_digit c)
  | EmptyString => acc
  end.

Definition decimal_int (s : string) : option Z :=
  match s with
  | EmptyString => None
  | _ => if all_chars is_digit s then Some (digits_value s 0) else None
  end.

(** Thirteen times the superscript two, U+00B2. *)
Definition superscript_number : string :=
  string_of_list_ascii (repeat (ascii_of_nat 178) 13).

(** A card form whose number is given; the other fields are valid in
    November 2026. *)
Definition card_form (number : string) : CardForm :=
  {| card_number := number; card_holder := "A Khan"; expiry_month := "12";
     expiry_year := "27"; cvv := "123"; card_delivery_name := "A Khan";
     card_delivery_phone := "0300"; card_delivery_address := "12 Mall Road";
     card_delivery_notes := "" |}.

(** The fields of a card form that must be present, stripped. *)
Definition required_fields (form : CardForm) : list string :=
  [ strip (card_number form); strip (card_holder form);
    strip (expiry_month form); strip (expiry_year form); strip (cvv form);
    strip (card_delivery_name form); strip (card_delivery_phone form);
    strip (card_delivery_address form) ].

(** ** Specification-level views of the two stock loops *)

Definition destock (book : Book) (quantity : Z) : Book :=
  {| book_title := book_title book; book_price := book_price book;
     book_stock := book_stock book - quantity |}.

Definition item_row (pk order_pk : nat) (cart_item : CartItem) (book : Book)
    : OrderItem :=
  {| item_pk := Some pk; item_order := order_pk;
     item_book := cartitem_book cart_item;
     item_quantity := cartitem_quantity cart_item;
     item_unit_price := book_price book;
     item_subtotal := (book_price book * inject_Z (cartitem_quantity cart_item))%Q |}.

(** The [books] and [order_items] tables after the lines of a cart have
    been settled one after the other; [None] when a line names no book or
    asks for more than the stock left at its turn. *)
Fixpoint reserve_lines (order_pk : nat) (lines : list CartItem)
    (stock : gmap nat Book) (table : list OrderItem)
    : option (gmap nat Book * list OrderItem) :=
  match lines with
  | [] => Some (stock, table)
  | line :: rest =>
      match stock !! cartitem_book line with
      | Some book =>
          if book_stock book >=? cartitem_quantity line then
            reserve_lines order_pk rest
              (<[cartitem_book line := destock book (cartitem_quantity line)]> stock)
              (table ++ [item_row (length table) order_pk line book])
          else None
      | None => None
      end
  end.

(** The database with its [books] and [order_items] tables replaced. *)
Definition with_stock (db : DB) (stock : gmap nat Book) (table : list OrderItem) : DB :=
  {| customers := customers db; books := stock; coupons := coupons db;
     coupon_usages := coupon_usages db; orders := orders db;
     order_items := table; payments := payments db;
     carts := carts db; cart_items := cart_items db |}.

(** Total quantity that a list of (book, quantity) lines moves for a book. *)
Fixpoint moved (book_pk : nat) (lines : list (nat * Z)) : Z :=
  match lines with
  | [] => 0
  | (b, q) :: rest => (if decide (b = book_pk) then q else 0) + moved book_pk rest
  end.

Definition cart_lines (lines : list CartItem) : list (nat * Z) :=
  map (fun line => (cartitem_book line, cartitem_quantity line)) lines.

Definition order_lines (rows : list OrderItem) : list (nat * Z) :=
  map (fun row => (item_book row, item_quantity row)) rows.

(** Referential integrity of the tables that point to orders. *)
Definition orders_referenced (db : DB) : Prop :=
  Forall (fun row => (item_order row < length (orders db))%nat) (order_items db) /\
  Forall (fun u => (usage_order u < length (orders db))%nat) (coupon_usages db) /\
  Forall (fun p => (payment_order p < length (orders db))%nat) (payments db).

(** The uniqueness of [(coupon, order)] among the usage rows. *)
Definition usage_pairs (db : DB) : list (nat * nat) :=
  map (fun u => (usage_coupon u, usage_order u)) (coupon_usages db).

(** The order row once its payment is recorded: a paid order is confirmed
    by the [post_save] receiver. *)
Definition settled_order (order : Order) (status : PaymentStatus) : Order :=
  match status, order_status order with
  | Paid, Pending => Order.with_status order Confirmed
  | _, _ => order
  end.

(** The database that a settlement has written when it comes to create
    the payment: the order, its items and the stock, the coupon counter and
    usage row, and the first-time flag. *)
Definition redeemed (now : Z) (customer_pk : nat) (customer : Customer)
    (order : Order) (applied_coupon : option (nat * Coupon))
    (stock : gmap nat Book) (table : list OrderItem) (db : DB) : DB :=
  let order_pk := length (orders db) in
  {| customers :=
       if customer_is_first_time_buyer customer
       then <[customer_pk := first_purchase_done customer]> (customers db)
       else customers db;
     books := stock;
     coupons :=
       match applied_coupon with
       | Some (pk, coupon) =>
           <[pk := with_usage coupon (coupon_current_usage coupon + 1)]> (coupons db)
       | None => coupons db
       end;
     coupon_usages :=
       match applied_coupon with
       | Some (pk, _) =>
           coupon_usages db ++
           [{| usage_coupon := pk; usage_customer := customer_pk;
               usage_order := order_pk; usage_used_at := now |}]
       | None => coupon_usages db
       end;
     orders := orders db ++ [order];
     order_items := table;
     payments := payments db;
     carts := carts db;
     cart_items := cart_items db |}.

(** The database that a settlement leaves when all its steps succeed. *)
Definition settled (now : Z) (customer_pk : nat) (customer : Customer) (cart : Cart)
    (order : Order) (applied_coupon : option (nat * Coupon))
    (stock : gmap nat Book) (table : list OrderItem)
    (method : PaymentMethod) (status : PaymentStatus) (with_transaction_id : bool)
    (db : DB) : DB :=
  let order_pk := length (orders db) in
  {| customers :=
       if customer_is_first_time_buyer customer
       then <[customer_pk := first_purchase_done customer]> (customers db)
       else customers db;
     books := stock;
     coupons :=
       match applied_coupon with
       | Some (pk, coupon) =>
           <[pk := with_usage coupon (coupon_current_usage coupon + 1)]> (coupons db)
       | None => coupons db
       end;
     coupon_usages :=
       match applied_coupon with
       | Some (pk, _) =>
           coupon_usages db ++
           [{| usage_coupon := pk; usage_customer := customer_pk;
               usage_order := order_pk; usage_used_at := now |}]
       | None => coupon_usages db
       end;
     orders := orders db ++ [settled_order order status];
     order_items := table;
     payments := payments db ++
       match payment_of now order_pk order method status with_transaction_id
               (with_stock db stock table) with
       | Ok payment => [payment]
       | Raise _ => []
       end;
     carts := <[cart_customer cart := None]> (carts db);
     cart_items :=
       filter (fun item => cartitem_cart item <> cart_customer cart) (cart_items db) |}.

(** A cart of five lines whose third asks for two copies of a book that
    has one in stock. *)
Definition five_lines : list CartItem :=
  [line 0 1 1; line 0 3 1; line 0 2 2; line 0 4 1; line 0 0 1].

Definition cash_form : CheckoutForm :=
  {| checkout_payment_method := Some "Cash";
     checkout_delivery_name := Some "A Khan";
     checkout_delivery_phone := Some "0300";
     checkout_delivery_address := Some "12 Mall Road";
     checkout_delivery_notes := None |}.

(** A checkout form that leads to the cash settlement: the method is
    absent or [Cash] and the three delivery fields are filled in. *)
Definition cash_checkout (form : CheckoutForm) (delivery : Delivery) : Prop :=
  default "Cash" (checkout_payment_method form) = "Cash" /\
  checkout_delivery_name form = Some (delivery_name delivery) /\
  checkout_delivery_phone form = Some (delivery_phone delivery) /\
  checkout_delivery_address form = Some (delivery_address delivery) /\
  delivery_notes delivery = Some (default "" (checkout_delivery_notes form)) /\
  truthy (delivery_name delivery) = true /\
  truthy (delivery_phone delivery) = true /\
  truthy (delivery_address delivery) = true.

Definition cash_delivery : Delivery :=
  {| delivery_name := "A Khan"; delivery_phone := "0300";
     delivery_address := "12 Mall Road"; delivery_notes := Some "" |}.

(** The reason that [cancel_order] stores for a submitted text. *)
Definition stored_reason (field : option string) : option string :=
  let reason := strip (default "" field) in
  if truthy reason then Some reason else None.

(** The [coupons] and [coupon_usages] tables after the coupon of a
    cancelled order is reverted. *)
Definition reverted_coupons (order : Order) (db : DB) : gmap nat Coupon :=
  match order_applied_coupon order with
  | Some pk =>
      match coupons db !! pk with
      | Some coupon =>
          <[pk := with_usage coupon (coupon_current_usage coupon - 1)]> (coupons db)
      | None => coupons db
      end
  | None => coupons db
  end.

Definition reverted_usages (order_id : nat) (order : Order) (db : DB)
    : list CouponUsage :=
  match order_applied_coupon order with
  | Some _ => filter (fun u => usage_order u <> order_id) (coupon_usages db)
  | None => coupon_usages db
  end.

(** The database that a cancellation leaves. *)
Definition cancelled_db (now : Z) (order_id : nat) (order : Order)
    (reason : option string) (stock : gmap nat Book) (db : DB) : DB :=
  {| customers := customers db; books := stock;
     coupons := reverted_coupons order db;
     coupon_usages := reverted_usages order_id order db;
     orders := <[order_id := Order.cancelled order reason now]> (orders db);
     order_items := order_items db; payments := payments db;
     carts := carts db; cart_items := cart_items db |}.

(** An amount that a [DecimalField] of [max_digits] digits gives back when
    it is read. *)
Definition amount_fits (max_digits : Z) (x : Decimal) : Prop :=
  exists y, decimal_from_db max_digits x = Ok y.

(** The order items that a settlement writes for these cart lines can be
    stored and read back: no quantity is negative ([quantity] is a
    [PositiveIntegerField]), and the unit price and the subtotal of every
    line fit their columns. *)
Definition lines_fit (db : DB) (lines : list CartItem) : Prop :=
  Forall (fun line =>
            0 <= cartitem_quantity line /\
            forall b, books db !! cartitem_book line = Some b ->
              amount_fits 8 (book_price b) /\
              amount_fits 8 (book_price b * inject_Z (cartitem_quantity line))%Q)
    lines.

Definition is_ok {A} (r : Result A) : bool :=
  match r with Ok _ => true | Raise _ => false end.

(** The row of an order and the rows of its payments can be read: their
    amounts fit their columns. *)
Definition rows_readable (db : DB) (order_id : nat) : bool :=
  match orders db !! order_id with
  | Some row => is_ok (Order.from_db row)
  | None => true
  end
  && forallb (fun payment => is_ok (Payment.from_db payment))
       (filter (fun payment => payment_order payment = order_id) (payments db)).

(** A shop whose customer has two copies of a book of 600000.00 in the
    cart, with the coupon FLAT1000 applied. *)
Definition atlas_shop : DB :=
  set_books (insert 5%nat (book "Atlas" 600000.00%Q 5))
    (shop [line 0 5 2] (Some 0%nat)).

(** No counter of the coupon table is negative, as the column constraint
    of [current_usage] has it. *)
Definition usage_nonneg (m : gmap nat Coupon) : Prop :=
  forall pk c, m !! pk = Some c -> 0 <= coupon_current_usage c.

(** A coupon table [m'] in which every counter of [m] is the same or one
    more. *)
Definition usage_bound (m m' : gmap nat Coupon) : Prop :=
  forall pk c, m !! pk = Some c ->
    exists c', m' !! pk = Some c' /\
      coupon_current_usage c <= coupon_current_usage c'
        <= coupon_current_usage c + 1.

Definition cart_is_empty : Response :=
  flash "view_cart" msg_warning (Text "Your cart is empty!").

Definition unique_usage : Exn := IntegrityError "unique_together (coupon, order)".

(** The tables that the loop does not touch. *)
Definition same_but_stock (db db' : DB) : Prop :=
  customers db' = customers db /\ coupons db' = coupons db /\
  coupon_usages db' = coupon_usages db /\ orders db' = orders db /\
  payments db' = payments db /\ carts db' = carts db /\
  cart_items db' = cart_items db.

(** The contribution of one digit at position [i] of the reversed number. *)
Definition luhn_weight (i : nat) (digit : ascii) : Z :=
  luhn_total [digit] i 0.

(** Invariants of the [books] table. *)
Definition stock_nonneg (bs : gmap nat Book) : Prop :=
  forall k b, bs !! k = Some b -> 0 <= book_stock b.

(** [bs'] has the books of [bs], with their titles and prices. *)
Definition same_catalog (bs bs' : gmap nat Book) : Prop :=
  forall k, book_title <$> bs' !! k = book_title <$> bs !! k /\
            book_price <$> bs' !! k = book_price <$> bs !! k.

(** A cart whose lines are on distinct books, each in stock for the
    quantity asked, and whose applied coupon exists. *)
Definition cart_in_stock (db : DB) (cart : Cart) : Prop :=
  let lines := Cart.cartitem_set db cart in
  lines <> [] /\
  NoDup (map cartitem_book lines) /\
  Forall (fun line => exists b, books db !! cartitem_book line = Some b
                                /\ cartitem_quantity line <= book_stock b) lines /\
  (forall pk, cart_applied_coupon cart = Some pk -> is_Some (coupons db !! pk)).

(** A card form that passes every validation of [process_card_payment]. *)
Definition card_form_valid (py_int : string -> option Z)
    (current_year current_month : Z) (form : CardForm) : Prop :=
  forallb truthy (required_fields form) = true /\
  validate_card_number (strip (card_number form)) = Ok (true, "Valid") /\
  (validate_expiry_date py_int current_year current_month
     (strip (expiry_month form)) (strip (expiry_year form))).1 = true /\
  (validate_cvv (strip (cvv form))).1 = true /\
  (3 <= String.length (strip (card_holder form)))%nat.

Definition card_delivery (form : CardForm) : Delivery :=
  {| delivery_name := strip (card_delivery_name form);
     delivery_phone := strip (card_delivery_phone form);
     delivery_address := strip (card_delivery_address form);
     delivery_notes :=
       if truthy (strip (card_delivery_notes form))
       then Some (strip (card_delivery_notes form)) else None |}.

(** ** Invariants of the cart lines *)

Definition cart_key (item : CartItem) : nat * nat :=
  (cartitem_cart item, cartitem_book item).

(** [unique_together = ('cart', 'book')] on the cart lines. *)
Definition unique_lines (db : DB) : Prop :=
  NoDup (map cart_key (cart_items db)).

(** Every cart line has a quantity of at least one and of at most the
    stock of its book, or one when the book has no stock. *)
Definition line_in_bounds (db : DB) (item : CartItem) : Prop :=
  1 <= cartitem_quantity item /\
  forall b, books db !! cartitem_book item = Some b ->
            cartitem_quantity item <= Z.max 1 (book_stock b).

Definition cart_invariant (db : DB) : Prop :=
  unique_lines db /\ Forall (line_in_bounds db) (cart_items db).

(** * Properties *)

(** ** Running the database monad *)

Lemma bind_query {A B} (q : DB -> Result A) (k : A -> M B) db :
  bind (query q) k db
  = match q db with Ok a => k a db | Raise e => (Raise e, db) end.
Proof. unfold bind, query. destruct (q db); reflexivity. Qed.

Lemma bind_current_db {B} (k : DB -> M B) db : bind current_db k db = k db db.
Proof. reflexivity. Qed.

Lemma bind_update {B} (f : DB -> DB) (k : unit -> M B) db :
  bind (update f) k db = k tt (f db).
Proof. reflexivity. Qed.

Lemma bind_ret {A B} (a : A) (k : A -> M B) db : bind (ret a) k db = k a db.
Proof. reflexivity. Qed.

Lemma bind_raise {A B} (e : Exn) (k : A -> M B) db :
  bind (raise e) k db = (Raise e, db).
Proof. reflexivity. Qed.

Lemma bind_bind {A B C} (m : M A) (k : A -> M B) (k' : B -> M C) db :
  bind (bind m k) k' db = bind m (fun a => bind (k a) k') db.
Proof. unfold bind. destruct (m db) as [[a|e] db']; reflexivity. Qed.

Lemma bind_Ok {A B} (m : M A) (k : A -> M B) db b db2 :
  bind m k db = (Ok b, db2) ->
  exists a db1, m db = (Ok a, db1) /\ k a db1 = (Ok b, db2).
Proof.
  unfold bind. destruct (m db) as [[a|e] db1]; [eauto | discriminate].
Qed.

Lemma respond_customer_required view customer_pk db :
  respond (customer_required view customer_pk) db
  = match customers db !! customer_pk with
    | Some customer => respond (view customer) db
    | None => (flash "home" msg_error
                 (Text "Customer profile not found. Please contact support."), db)
    end.
Proof.
  unfold respond, customer_required. rewrite bind_current_db.
  destruct (customers db !! customer_pk); reflexivity.
Qed.

(** ** Decimal comparisons *)

Lemma Qge_bool_true (a b : Decimal) : Qge_bool a b = true <-> (b <= a)%Q.
Proof. unfold Qge_bool. apply Qle_bool_iff. Qed.

Lemma Qge_bool_false (a b : Decimal) : Qge_bool a b = false <-> (a < b)%Q.
Proof.
  unfold Qge_bool. split; intros H.
  - apply Qnot_le_lt. intros Hle. apply Qle_bool_iff in Hle. congruence.
  - destruct (Qle_bool b a) eqn:E; [|reflexivity].
    apply Qle_bool_iff in E. apply Qlt_not_le in H. contradiction.
Qed.

Lemma Qlt_bool_true (a b : Decimal) : Qlt_bool a b = true <-> (a < b)%Q.
Proof.
  unfold Qlt_bool. rewrite negb_true_iff. apply (Qge_bool_false a b).
Qed.

Lemma Qlt_bool_false (a b : Decimal) : Qlt_bool a b = false <-> (b <= a)%Q.
Proof.
  unfold Qlt_bool. rewrite negb_false_iff. apply (Qge_bool_true a b).
Qed.

Ltac decimal_cases :=
  repeat match goal with
  | |- context [Qge_bool ?a ?b] =>
      let E := fresh "E" in
      destruct (Qge_bool a b) eqn:E;
      [apply Qge_bool_true in E | apply Qge_bool_false in E]
  | |- context [Qlt_bool ?a ?b] =>
      let E := fresh "E" in
      destruct (Qlt_bool a b) eqn:E;
      [apply Qlt_bool_true in E | apply Qlt_bool_false in E]
  end.

Lemma py_min_spec (a b : Decimal) :
  (py_min a b == Qmin a b)%Q /\ (py_min a b <= a)%Q /\ (py_min a b <= b)%Q.
Proof.
  unfold py_min. decimal_cases.
  - rewrite Q.min_r by lra. repeat split; lra.
  - rewrite Q.min_l by lra. repeat split; lra.
Qed.

(** ** The pricing calculator *)

Lemma shipping_fee_of_subtotal db cart S :
  Cart.subtotal db cart = Ok S ->
  Cart.shipping_fee db cart = Ok (Cart.shipping_of S (Cart.total_items db cart)).
Proof.
  intros HS. unfold Cart.shipping_fee, Cart.calculate_shipping.
  rewrite HS. reflexivity.
Qed.

Lemma order_value_discount_of_subtotal db cart S :
  Cart.subtotal db cart = Ok S ->
  Cart.order_value_discount db cart = Ok (Cart.order_value_discount_of S).
Proof. intros HS. unfold Cart.order_value_discount. rewrite HS. reflexivity. Qed.

Lemma order_value_discount_tiers (S : Decimal) :
  ((5000 <= S -> Cart.order_value_discount_of S == S * 0.15) /\
   (2000 <= S -> S < 5000 -> Cart.order_value_discount_of S == S * 0.10) /\
   (1000 <= S -> S < 2000 -> Cart.order_value_discount_of S == S * 0.05) /\
   (S < 1000 -> Cart.order_value_discount_of S == 0))%Q.
Proof.
  unfold Cart.order_value_discount_of.
  repeat split; intros; decimal_cases; lra.
Qed.

Lemma order_value_discount_monotone (S1 S2 : Decimal) :
  (S1 <= S2 ->
   Cart.order_value_discount_of S1 <= Cart.order_value_discount_of S2)%Q.
Proof.
  intros Hle. unfold Cart.order_value_discount_of. decimal_cases; lra.
Qed.

(** C7. For every cart, [shipping_fee] is 0 when the subtotal is at least
    5000; otherwise it is the base fee 50 plus, when the total item count
    exceeds 5, 10 for each item beyond the fifth.  Subtotal 5000 gives 0,
    subtotal 4999 with 5 items gives 50 and with 8 items gives 80. *)
Theorem C7_shipping_fee db cart S :
  Cart.subtotal db cart = Ok S ->
  let n := Cart.total_items db cart in
  exists fee, Cart.shipping_fee db cart = Ok fee /\
    ((5000 <= S -> fee == 0) /\
     (S < 5000 -> (n <= 5)%Z -> fee == 50) /\
     (S < 5000 -> (5 < n)%Z -> fee == 50 + 10 * inject_Z (n - 5)) /\
     (S == 5000 -> fee == 0) /\
     (S == 4999 -> n = 5%Z -> fee == 50) /\
     (S == 4999 -> n = 8%Z -> fee == 80))%Q.
Proof.
  intros HS n. exists (Cart.shipping_of S n).
  split; [apply shipping_fee_of_subtotal, HS|].
  clearbody n. unfold Cart.shipping_of.
  repeat split; intros; decimal_cases;
    repeat match goal with
    | |- context [(?a >? ?b)%Z] => destruct (Z.gtb_spec a b)
    end; subst; try lia; try lra.
  reflexivity.
Qed.

(** The 8-item cart of subtotal 4999 pays 80, the 5-item one pays 50. *)
Lemma C7_shipping_fee_witness :
  (exists fee, Cart.shipping_fee (shop eight_items None) (cart_of None) = Ok fee
               /\ (fee == 80)%Q) /\
  (exists fee, Cart.shipping_fee (shop five_items None) (cart_of None) = Ok fee
               /\ (fee == 50)%Q).
Proof.
  split.
  - destruct (C7_shipping_fee (shop eight_items None) (cart_of None)
                (49990000 # 10000)%Q eq_refl) as (fee & Hfee & H).
    exists fee. split; [exact Hfee|].
    apply H; reflexivity.
  - destruct (C7_shipping_fee (shop five_items None) (cart_of None)
                (499900 # 100)%Q eq_refl) as (fee & Hfee & H).
    exists fee. split; [exact Hfee|].
    apply H; reflexivity.
Defined.

(** C6. For every subtotal [S] the order-value discount applies exactly
    one rate, that of the highest threshold met: 15% from 5000, 10% on
    [2000, 5000), 5% on [1000, 2000), nothing below 1000.  It is a
    monotonic step function of [S] and never the sum of several tiers. *)
Theorem C6_order_value_discount db cart S :
  Cart.subtotal db cart = Ok S ->
  exists d, Cart.order_value_discount db cart = Ok d /\
    ((5000 <= S -> d == S * 0.15) /\
     (2000 <= S -> S < 5000 -> d == S * 0.10) /\
     (1000 <= S -> S < 2000 -> d == S * 0.05) /\
     (S < 1000 -> d == 0) /\
     (0 <= S -> d <= S * 0.15) /\
     (forall S', S' <= S -> Cart.order_value_discount_of S' <= d) /\
     (forall S', S <= S' -> d <= Cart.order_value_discount_of S'))%Q.
Proof.
  intros HS. exists (Cart.order_value_discount_of S).
  split; [apply order_value_discount_of_subtotal, HS|].
  destruct (order_value_discount_tiers S) as (H1 & H2 & H3 & H4).
  repeat split; auto using order_value_discount_monotone.
  intros H0. unfold Cart.order_value_discount_of. decimal_cases; lra.
Qed.

(** A cart of subtotal 6000 gets 900, not 900 + 600 + 300. *)
Lemma C6_order_value_discount_witness :
  exists d, Cart.order_value_discount (shop two_ulysses None) (cart_of None) = Ok d
            /\ (d == 900)%Q.
Proof.
  destruct (C6_order_value_discount (shop two_ulysses None) (cart_of None)
              (600000 # 100)%Q eq_refl) as (d & Hd & H & _).
  exists d. split; [exact Hd|].
  rewrite H; [reflexivity | vm_compute; discriminate].
Defined.

(** C5. For every cart, [coupon_discount] is 0 unless a coupon is applied,
    that coupon passes validation and the subtotal reaches its
    [min_purchase]; then a fixed coupon yields
    [min(discount_value, subtotal)], never more than the subtotal, and a
    percentage coupon yields [subtotal * discount_value / 100]. *)
Theorem C5_coupon_discount now db cart S :
  Cart.subtotal db cart = Ok S ->
  (cart_applied_coupon cart = None ->
     exists d, Cart.coupon_discount now db cart = Ok d /\ (d == 0)%Q) /\
  (forall pk c,
     cart_applied_coupon cart = Some pk -> coupons db !! pk = Some c ->
     exists d, Cart.coupon_discount now db cart = Ok d /\
       ((Coupon.is_valid now c).1 = false -> d == 0) /\
       (S < coupon_min_purchase c -> d == 0) /\
       ((Coupon.is_valid now c).1 = true -> coupon_min_purchase c <= S ->
          (coupon_discount_type c = fixed ->
             d == Qmin (coupon_discount_value c) S /\ d <= S) /\
          (coupon_discount_type c = percentage ->
             d == S * coupon_discount_value c / 100)))%Q.
Proof.
  intros HS. split.
  - intros Hnone. unfold Cart.coupon_discount. rewrite Hnone.
    eexists; split; reflexivity.
  - intros pk c Hsome Hc. unfold Cart.coupon_discount, get_coupon.
    rewrite Hsome, Hc. simpl. rewrite HS. simpl.
    destruct (Coupon.is_valid now c) as [valid msg]. simpl.
    destruct valid.
    + destruct (Qge_bool S (coupon_min_purchase c)) eqn:E.
      * apply Qge_bool_true in E.
        eexists; split; [reflexivity|].
        unfold Coupon.calculate_discount.
        split; [discriminate|]. split; [intros; lra|].
        intros _ _. split; intros Htype; rewrite Htype.
        -- split; apply py_min_spec.
        -- reflexivity.
      * apply Qge_bool_false in E.
        eexists; split; [reflexivity|].
        repeat split; try (intros; lra || discriminate || reflexivity).
    + eexists; split; [reflexivity|].
      repeat split; try (intros; lra || discriminate || reflexivity).
Qed.

(** The fixed coupon of value 1000 on a subtotal of 600 gives 600. *)
Lemma C5_coupon_discount_witness :
  exists d, Cart.coupon_discount now0 (shop one_walden (Some 0%nat))
              (cart_of (Some 0%nat)) = Ok d /\ (d == 600)%Q.
Proof.
  destruct (C5_coupon_discount now0 (shop one_walden (Some 0%nat))
              (cart_of (Some 0%nat)) (60000 # 100)%Q eq_refl) as [_ H].
  destruct (H 0%nat (coupon "FLAT1000" fixed 1000.00%Q 3) eq_refl eq_refl)
    as (d & Hd & _ & _ & Hfix).
  exists d. split; [exact Hd|].
  destruct Hfix as [Hfix _]; [reflexivity| vm_compute; discriminate |].
  destruct (Hfix eq_refl) as [Hmin _]. rewrite Hmin. reflexivity.
Defined.

(** C4. For every cart, [first_time_discount] is 15% of the subtotal when
    the customer is a first-time buyer and 0 otherwise; [total_discount] is
    the sum of the three discounts; [total_amount] is
    [subtotal - total_discount + shipping_fee] with no floor at zero, hence
    negative whenever the discounts exceed subtotal plus shipping. *)
Theorem C4_cart_totals now db cart S customer :
  Cart.subtotal db cart = Ok S ->
  customers db !! cart_customer cart = Some customer ->
  let ftd := (if customer_is_first_time_buyer customer then S * 0.15 else 0.00)%Q in
  let ovd := Cart.order_value_discount_of S in
  let fee := Cart.shipping_of S (Cart.total_items db cart) in
  Cart.first_time_discount db cart = Ok ftd /\
  forall cd, Cart.coupon_discount now db cart = Ok cd ->
    Cart.total_discount now db cart = Ok (cd + ovd + ftd)%Q /\
    Cart.total_amount now db cart = Ok (S - (cd + ovd + ftd) + fee)%Q /\
    (S + fee < cd + ovd + ftd -> S - (cd + ovd + ftd) + fee < 0)%Q.
Proof.
  intros HS Hcust ftd ovd fee.
  assert (Hftd : Cart.first_time_discount db cart = Ok ftd).
  { unfold Cart.first_time_discount, get_customer. rewrite Hcust. simpl.
    subst ftd. destruct (customer_is_first_time_buyer customer);
      [rewrite HS|]; reflexivity. }
  split; [exact Hftd|].
  intros cd Hcd.
  assert (Htd : Cart.total_discount now db cart = Ok (cd + ovd + ftd)%Q).
  { unfold Cart.total_discount.
    rewrite Hcd, (order_value_discount_of_subtotal _ _ _ HS), Hftd.
    reflexivity. }
  repeat split; [exact Htd| |intros; lra].
  unfold Cart.total_amount.
  rewrite HS, Htd, (shipping_fee_of_subtotal _ _ _ HS). reflexivity.
Qed.

(** A first-time buyer with the 100% coupon on a subtotal of 6000: the
    three discounts are 6000, 900 and 900 and the total is -1800. *)
Lemma C4_cart_totals_witness :
  exists total, Cart.total_amount now0 (shop two_ulysses (Some 1%nat))
                  (cart_of (Some 1%nat)) = Ok total /\ (total == -1800)%Q.
Proof.
  destruct (C4_cart_totals now0 (shop two_ulysses (Some 1%nat))
              (cart_of (Some 1%nat)) (600000 # 100)%Q alice eq_refl eq_refl)
    as [_ H].
  destruct (H _ eq_refl) as (_ & Htotal & _).
  eexists. split; [exact Htotal|]. reflexivity.
Defined.

(** ** [OrderItem.save] *)

Lemma save_ignores_supplied_prices self book u s :
  OrderItem.save
    {| item_pk := item_pk self; item_order := item_order self;
       item_book := item_book self; item_quantity := item_quantity self;
       item_unit_price := u; item_subtotal := s |} book
  = OrderItem.save self book.
Proof. reflexivity. Qed.

(** C9. Every [OrderItem] that [save] persists has
    [unit_price = book.price] (the price held by [self.book] when saving)
    and [subtotal = unit_price * quantity]: the values supplied by the
    caller are overwritten, so no caller can persist a row that breaks the
    invariant, and the rows already in the table keep it. *)
Theorem C9_order_item_save self book db saved db' :
  OrderItem.save self book db = (Ok saved, db') ->
  item_unit_price saved = book_price book /\
  item_quantity saved = item_quantity self /\
  priced saved /\
  (exists pk, item_pk saved = Some pk /\ order_items db' !! pk = Some saved) /\
  (forall u s,
     OrderItem.save
       {| item_pk := item_pk self; item_order := item_order self;
          item_book := item_book self; item_quantity := item_quantity self;
          item_unit_price := u; item_subtotal := s |} book db
     = (Ok saved, db')) /\
  (Forall priced (order_items db) -> Forall priced (order_items db')).
Proof.
  intros Hsave.
  assert (Hsupplied : forall u s,
     OrderItem.save
       {| item_pk := item_pk self; item_order := item_order self;
          item_book := item_book self; item_quantity := item_quantity self;
          item_unit_price := u; item_subtotal := s |} book db
     = (Ok saved, db')).
  { intros u s. rewrite save_ignores_supplied_prices. exact Hsave. }
  unfold OrderItem.save, bind, update, raise, ret, current_db in Hsave.
  destruct (item_pk self) as [pk|] eqn:Hpk.
  - simpl in Hsave. destruct (decide (pk < length (order_items db))%nat) as [Hlt|];
      [|discriminate].
    simpl in Hsave. inversion Hsave; subst; clear Hsave. simpl.
    repeat split; auto.
    + exists pk. split; [reflexivity|]. apply list_lookup_insert_eq. exact Hlt.
    + intros Hall. apply Forall_insert; [exact Hall | reflexivity].
  - destruct (book_stock book >=? item_quantity self); simpl in Hsave;
      [|discriminate].
    inversion Hsave; subst; clear Hsave. simpl.
    repeat split; auto.
    + eexists. split; [reflexivity|].
      rewrite lookup_app_r by reflexivity.
      rewrite Nat.sub_diag. reflexivity.
    + intros Hall. apply Forall_app. split; [exact Hall|].
      constructor; [reflexivity | constructor].
Qed.

(** Saving an instance created with unit price 1 and subtotal 7 for two
    copies of a book that costs 600 persists 600 and 1200. *)
Lemma C9_order_item_save_witness :
  exists saved db',
    OrderItem.save mispriced_item (book "Walden" 600.00%Q 4) (shop [] None)
      = (Ok saved, db') /\
    item_unit_price saved = 600.00%Q /\ priced saved /\
    order_items db' = [saved].
Proof.
  eexists. eexists. split; [vm_compute; reflexivity|].
  destruct (C9_order_item_save mispriced_item (book "Walden" 600.00%Q 4)
              (shop [] None) _ _ eq_refl) as (Hprice & _ & Hpriced & _).
  split; [exact Hprice|]. split; [exact Hpriced|]. reflexivity.
Defined.

(** ** Text normalisation *)

Ltac by_cases_on_char c :=
  destruct c as [[] [] [] [] [] [] [] []]; reflexivity.

Lemma upper_char_lower_char c : upper_char (lower_char c) = upper_char c.
Proof. by_cases_on_char c. Qed.

Lemma upper_char_idem c : upper_char (upper_char c) = upper_char c.
Proof. by_cases_on_char c. Qed.

Lemma upper_char_not_lower c : is_lower (upper_char c) = false.
Proof. by_cases_on_char c. Qed.

Lemma is_space_lower_char c : is_space (lower_char c) = is_space c.
Proof. by_cases_on_char c. Qed.

Lemma is_space_upper_char c : is_space (upper_char c) = is_space c.
Proof. by_cases_on_char c. Qed.

Lemma upper_lower s : upper (lower s) = upper s.
Proof.
  induction s as [|c s IH]; simpl; [reflexivity|].
  unfold upper, lower in *. simpl. rewrite upper_char_lower_char, IH. reflexivity.
Qed.

Lemma upper_idem s : upper (upper s) = upper s.
Proof.
  induction s as [|c s IH]; simpl; [reflexivity|].
  unfold upper in *. simpl. rewrite upper_char_idem, IH. reflexivity.
Qed.

Lemma upper_no_lower s : has_char is_lower (upper s) = false.
Proof.
  induction s as [|c s IH]; simpl; [reflexivity|].
  rewrite upper_char_not_lower. exact IH.
Qed.

Section StripMap.
Variable f : ascii -> ascii.
Hypothesis f_space : forall c, is_space (f c) = is_space c.

Lemma lstrip_map s : lstrip (map_string f s) = map_string f (lstrip s).
Proof.
  induction s as [|c s IH]; simpl; [reflexivity|].
  rewrite f_space. destruct (is_space c); [exact IH | reflexivity].
Qed.

Lemma rstrip_map s : rstrip (map_string f s) = map_string f (rstrip s).
Proof.
  induction s as [|c s IH]; simpl; [reflexivity|].
  rewrite IH, f_space.
  destruct (rstrip s); simpl; [destruct (is_space c)|]; reflexivity.
Qed.

Lemma strip_map s : strip (map_string f s) = map_string f (strip s).
Proof. unfold strip. rewrite lstrip_map, rstrip_map. reflexivity. Qed.

End StripMap.

(** The code looked up is the same for a text, its lower-case and its
    upper-case form. *)
Lemma normalise_lower s : upper (strip (lower s)) = upper (strip s).
Proof.
  unfold lower. rewrite (strip_map _ is_space_lower_char).
  apply upper_lower.
Qed.

Lemma normalise_upper s : upper (strip (upper s)) = upper (strip s).
Proof.
  unfold upper at 2. rewrite (strip_map _ is_space_upper_char).
  apply upper_idem.
Qed.

(** ** Coupon lookup *)

Lemma Coupon_objects_get_Ok code db pk c :
  Coupon_objects_get code db = Ok (pk, c) ->
  coupons db !! pk = Some c /\ coupon_code c = code.
Proof.
  unfold Coupon_objects_get.
  destruct (map_to_list _) as [|kv [|kv' l]] eqn:E; try discriminate.
  intros [= ->].
  assert (Hin : (pk, c) ∈ map_to_list
            (filter (fun kv => coupon_code kv.2 = code) (coupons db))).
  { rewrite E. left. }
  apply elem_of_map_to_list in Hin.
  apply map_lookup_filter_Some in Hin. exact Hin.
Qed.

Lemma Coupon_objects_get_missing code db :
  (forall pk c, coupons db !! pk = Some c -> coupon_code c <> code) ->
  Coupon_objects_get code db = Raise (DoesNotExist "Coupon").
Proof.
  intros Hnone. unfold Coupon_objects_get.
  destruct (map_to_list _) as [|[pk c] l] eqn:E; [reflexivity|].
  assert (Hin : (pk, c) ∈ map_to_list
            (filter (fun kv => coupon_code kv.2 = code) (coupons db))).
  { rewrite E. left. }
  apply elem_of_map_to_list in Hin.
  apply map_lookup_filter_Some in Hin. destruct Hin as [Hc Hcode].
  exfalso. exact (Hnone _ _ Hc Hcode).
Qed.

Lemma lowercase_code_never_found code db pk c :
  coupons db !! pk = Some c ->
  has_char is_lower (coupon_code c) = true ->
  Coupon_objects_get (upper code) db <> Ok (pk, c).
Proof.
  intros Hc Hlower Hget.
  apply Coupon_objects_get_Ok in Hget. destruct Hget as [_ Hcode].
  rewrite Hcode, upper_no_lower in Hlower. discriminate.
Qed.

Lemma apply_coupon_normalised now method customer_pk text text' db :
  upper (strip text) = upper (strip text') ->
  apply_coupon now method customer_pk (Some text) db
  = apply_coupon now method customer_pk (Some text') db.
Proof. intros H. unfold apply_coupon. simpl. rewrite H. reflexivity. Qed.

Lemma apply_coupon_effect now method customer_pk field db :
  let db' := (apply_coupon now method customer_pk field db).2 in
  db' = db \/
  exists pk c,
    Coupon_objects_get (upper (strip (default "" field))) db = Ok (pk, c) /\
    db' = set_carts (insert customer_pk (Some pk)) db.
Proof.
  unfold apply_coupon, respond, customer_required, bind, current_db, query,
    ret, raise, update, Cart_save, get_cart_or_404, flash.
  simpl.
  repeat (case_match; simplify_eq/=); auto.
  all: right; eauto.
Qed.

(** C10 as stated fails on two inputs.  With the coupons [save] and [SAVE]
    in the table, the text [save] is answered by applying [SAVE], not by
    the invalid-code error; and a blank text is answered by
    "Please enter a coupon code!". *)
Lemma C10_invalid_code_not_on_every_input :
  has_char is_lower "save" = true /\
  twin_coupons.(coupons) !! 0%nat = Some (coupon "save" fixed 100.00%Q 0) /\
  (apply_coupon now0 POST 0 (Some "save") twin_coupons).1
    = flash "view_cart" msg_success (CouponApplied "SAVE" (100.00)%Q) /\
  (apply_coupon now0 POST 0 (Some "save") twin_coupons).1 <> invalid_code /\
  (apply_coupon now0 POST 0 (Some "   ") twin_coupons).1
    = flash "view_cart" msg_error (Text "Please enter a coupon code!") /\
  (apply_coupon now0 POST 0 (Some "   ") twin_coupons).1 <> invalid_code.
Proof.
  repeat split; try (vm_compute; reflexivity); vm_compute; discriminate.
Qed.

(** C10, amended. [apply_coupon] strips white space and upper-cases the
    submitted text before an exact-match lookup, so for ASCII text the
    answer is the same for a text and its lower- or upper-case form.  A
    coupon whose stored code contains one of the letters a to z is never
    returned by the lookup for an ASCII text and never becomes the cart's
    applied coupon; the answer is the invalid-code error whenever the
    normalised text is not empty and is not the stored code of another
    coupon. *)
Theorem C10_apply_coupon now customer_pk db pk c :
  coupons db !! pk = Some c ->
  has_char is_lower (coupon_code c) = true ->
  forall method text,
    ascii_text text = true ->
    apply_coupon now method customer_pk (Some (lower text)) db
      = apply_coupon now method customer_pk (Some text) db /\
    apply_coupon now method customer_pk (Some (upper text)) db
      = apply_coupon now method customer_pk (Some text) db /\
    Coupon_objects_get (upper (strip text)) db <> Ok (pk, c) /\
    (let db' := (apply_coupon now method customer_pk (Some text) db).2 in
     db' = db \/
     exists pk', pk' <> pk /\ db' = set_carts (insert customer_pk (Some pk')) db) /\
    (method = POST ->
     is_Some (customers db !! customer_pk) ->
     is_Some (carts db !! customer_pk) ->
     upper (strip text) <> "" ->
     (forall pk' c', coupons db !! pk' = Some c' ->
                     coupon_code c' <> upper (strip text)) ->
     apply_coupon now method customer_pk (Some text) db = (invalid_code, db)).
Proof.
  intros Hc Hlower method text Hascii.
  split; [apply apply_coupon_normalised, normalise_lower|].
  split; [apply apply_coupon_normalised, normalise_upper|].
  split; [apply (lowercase_code_never_found _ _ _ _ Hc Hlower)|].
  split.
  - destruct (apply_coupon_effect now method customer_pk (Some text) db)
      as [Hsame | (pk' & c' & Hget & Hdb')]; [left; exact Hsame|].
    right. exists pk'. split; [|exact Hdb'].
    intros ->. simpl in Hget.
    pose proof (Coupon_objects_get_Ok _ _ _ _ Hget) as [Hc' _].
    assert (c' = c) by congruence. subst c'.
    exact (lowercase_code_never_found _ _ _ _ Hc Hlower Hget).
  - intros -> [customer Hcustomer] [applied Hcart] Hnonempty Hnone.
    unfold apply_coupon, respond, customer_required, bind, current_db, query,
      get_cart_or_404, ret.
    simpl. rewrite Hcustomer, Hcart.
    destruct (upper (strip text)) as [|ch rest] eqn:Hcode; [congruence|].
    simpl. rewrite (Coupon_objects_get_missing _ _ Hnone). reflexivity.
Qed.

(** The coupon [Save10] is refused under its own code, in any case. *)
Lemma C10_apply_coupon_witness :
  apply_coupon now0 POST 0 (Some "Save10") lowercase_coupon
    = (invalid_code, lowercase_coupon) /\
  apply_coupon now0 POST 0 (Some " save10 ") lowercase_coupon
    = (invalid_code, lowercase_coupon).
Proof.
  pose proof (C10_apply_coupon now0 0%nat lowercase_coupon 0%nat
                (coupon "Save10" fixed 100.00%Q 0) eq_refl eq_refl) as H.
  assert (Hnone : forall pk' c',
            coupons lowercase_coupon !! pk' = Some c' ->
            coupon_code c' <> "SAVE10").
  { intros pk' c' Hc'. simpl in Hc'.
    apply lookup_singleton_Some in Hc'. destruct Hc' as [_ <-].
    discriminate. }
  split.
  - destruct (H POST "Save10" eq_refl) as (_ & _ & _ & _ & Herr).
    apply Herr; [reflexivity | eexists; reflexivity | eexists; reflexivity
                 | discriminate | exact Hnone].
  - destruct (H POST " save10 " eq_refl) as (_ & _ & _ & _ & Herr).
    apply Herr; [reflexivity | eexists; reflexivity | eexists; reflexivity
                 | discriminate | exact Hnone].
Defined.

(** ** Card payment: validation comes first *)

Lemma forallb_truthy_false (l : list string) :
  In EmptyString l -> forallb truthy l = false.
Proof.
  induction l as [|s l IH]; simpl; [tauto|].
  intros [-> | Hin]; [reflexivity|].
  rewrite (IH Hin). apply andb_false_r.
Qed.

Ltac rejected :=
  simpl; repeat split;
  try (intros; discriminate);
  try (intros; eexists; split; [reflexivity | intros; simpl; auto 10]);
  try solve [intros; simpl; auto].

Lemma validate_card_number_outcome number :
  (forall message, validate_card_number number = Ok (true, message) ->
                   message = "Valid") /\
  (forall e, validate_card_number number = Raise e -> e = ValueError).
Proof.
  unfold validate_card_number.
  destruct (negb (isdigit _)); [split; intros ? H; congruence|].
  destruct (_ || _)%bool; [split; intros ? H; congruence|].
  destruct (negb (all_chars _ _)); [split; intros ? H; congruence|].
  destruct (negb (luhn_check _)); split; intros ? H; congruence.
Qed.

(** C8 fails on the code by a slip of [validate_card_number]: its
    digits-only test is [str.isdigit], which accepts the superscript two,
    and its Luhn loop reads every digit with [int], which refuses it.  For
    a card number of thirteen superscript twos the validation neither
    passes nor returns its error: [ValueError] is raised, outside the
    [try] of the view, and the request ends in a server error instead of
    the validation error.  Nothing is written. *)
Lemma C8_digit_that_int_refuses :
  let db := shop one_walden None in
  let form := card_form superscript_number in
  isdigit (strip (card_number form)) = true /\
  validate_card_number (strip (card_number form)) = Raise ValueError /\
  process_card_payment decimal_int 2026 11 now0 POST 0 form db
  = (ServerError ValueError, db) /\
  process_card_payment decimal_int 2026 11 now0 POST 0
    (card_form "4111 1111 1111 1112") db
  = (json_error "Invalid card number (failed Luhn check)", db).
Proof.
  cbv zeta. repeat split; vm_compute; reflexivity.
Qed.

(** X25. On the card path every card-field validation (presence of all
    fields, card number with its Luhn check, expiry not in the past, CVV
    length, holder name of at least 3 characters) runs before any
    mutation: a request for which one of them fails, or for which the
    card-number validation raises, leaves the database as it was (no
    Order, OrderItem, Payment, stock, coupon-usage or cart change) and is
    never answered by success.  For a customer with a cart, when the
    card-number validation returns, the answer is an error message, which
    for a non-empty cart is the message of one of the validations; when it
    raises, the answer is the empty-cart or missing-fields message or a
    server error for the [ValueError]. *)
Theorem card_validation_before_mutation
    py_int current_year current_month now method customer_pk form db :
  In EmptyString (required_fields form)
  \/ validate_card_number (strip (card_number form)) <> Ok (true, "Valid")
  \/ (validate_expiry_date py_int current_year current_month
        (strip (expiry_month form)) (strip (expiry_year form))).1 = false
  \/ (validate_cvv (strip (cvv form))).1 = false
  \/ (String.length (strip (card_holder form)) < 3)%nat ->
  let result := process_card_payment py_int current_year current_month
                  now method customer_pk form db in
  result.2 = db /\
  (forall message order_id, result.1 <> JsonResponse true message order_id) /\
  (method = POST ->
   is_Some (customers db !! customer_pk) ->
   forall applied, carts db !! customer_pk = Some applied ->
   match validate_card_number (strip (card_number form)) with
   | Ok (_, number_message) =>
       exists message,
         result.1 = json_error message /\
         (Cart.cartitem_set db
            {| cart_customer := customer_pk; cart_applied_coupon := applied |} <> [] ->
          In message
            [ "All fields are required";
              number_message;
              (validate_expiry_date py_int current_year current_month
                 (strip (expiry_month form)) (strip (expiry_year form))).2;
              (validate_cvv (strip (cvv form))).2;
              "Card holder name must be at least 3 characters" ])
   | Raise _ =>
       result.1 = json_error "Cart is empty" \/
       result.1 = json_error "All fields are required" \/
       result.1 = ServerError ValueError
   end).
Proof.
  intros Hfail result. subst result.
  destruct (validate_card_number_outcome (strip (card_number form)))
    as [Hvalid Hraise].
  unfold process_card_payment. rewrite respond_customer_required.
  destruct (customers db !! customer_pk) as [customer|];
    [|rejected; intros _ [? ?]; discriminate].
  destruct method; cbn [is_post negb]; [rejected|].
  unfold respond. rewrite bind_query. unfold get_cart_or_404.
  destruct (carts db !! customer_pk) as [applied|] eqn:Hcart; [|rejected].
  rewrite bind_current_db.
  set (cart := {| cart_customer := customer_pk; cart_applied_coupon := applied |}).
  assert (Hcart' : forall applied', Some applied = Some applied' ->
            {| cart_customer := customer_pk; cart_applied_coupon := applied' |}
            = cart).
  { intros applied' [= <-]. reflexivity. }
  destruct (Cart.cartitem_set db cart) as [|item items] eqn:Hitems.
  { simpl. repeat split; try (intros; discriminate).
    intros _ _ applied' Happlied.
    destruct (validate_card_number _) as [[ok number_msg]|e]; [|left; reflexivity].
    eexists. split; [reflexivity|].
    rewrite (Hcart' _ Happlied), Hitems. congruence. }
  fold (required_fields form).
  destruct (forallb truthy (required_fields form)) eqn:Hpresent; cbn [negb].
  2:{ simpl. repeat split; try (intros; discriminate).
      intros _ _ applied' _.
      destruct (validate_card_number _) as [[ok number_msg]|e];
        [|right; left; reflexivity].
      eexists. split; [reflexivity|]. intros _. simpl. auto. }
  rewrite bind_query.
  destruct (validate_card_number (strip (card_number form)))
    as [[[|] number_msg]|e] eqn:Hnumber; cbn [negb].
  3:{ rewrite (Hraise e eq_refl). simpl. repeat split; try (intros; discriminate).
      intros _ _ applied' _. right. right. reflexivity. }
  2:{ rejected. }
  destruct (validate_expiry_date py_int current_year current_month
              (strip (expiry_month form)) (strip (expiry_year form)))
    as [[|] expiry_msg] eqn:Hexpiry; cbn [negb]; [|rejected].
  destruct (validate_cvv (strip (cvv form))) as [[|] cvv_msg] eqn:Hcvv;
    cbn [negb]; [|rejected].
  destruct (Nat.ltb_spec (String.length (strip (card_holder form))) 3)
    as [Hlt|Hge]; [rejected|].
  exfalso.
  destruct Hfail as [Hblank | [Hn | [He | [Hc | Hh]]]].
  - apply forallb_truthy_false in Hblank. congruence.
  - apply Hn. rewrite (Hvalid number_msg eq_refl). reflexivity.
  - discriminate He.
  - discriminate Hc.
  - lia.
Qed.

(** A number that fails the Luhn check is refused and nothing is written;
    the same form with a valid number places the order. *)
Lemma card_validation_before_mutation_witness :
  process_card_payment decimal_int 2026 11 now0 POST 0
    (card_form "4111 1111 1111 1112") (shop one_walden None)
  = (json_error "Invalid card number (failed Luhn check)", shop one_walden None)
  /\ exists db',
      process_card_payment decimal_int 2026 11 now0 POST 0
        (card_form "4111 1111 1111 1111") (shop one_walden None)
      = (JsonResponse true (Text "Payment processed successfully!") (Some 0%nat), db')
      /\ length (orders db') = 1%nat.
Proof.
  split.
  - pose proof (card_validation_before_mutation decimal_int 2026 11 now0 POST
                  0%nat (card_form "4111 1111 1111 1112") (shop one_walden None))
      as H.
    destruct H as (Hdb & _ & _); [right; left; vm_compute; discriminate|].
    apply injective_projections; [vm_compute; reflexivity | exact Hdb].
  - eexists. split; [vm_compute; reflexivity | reflexivity].
Defined.


(** ** The loop that creates the order items *)

Lemma create_order_item_spec order_pk line db :
  create_order_item order_pk line db =
  match books db !! cartitem_book line with
  | Some book =>
      if book_stock book >=? cartitem_quantity line then
        (Ok tt,
         with_stock db
           (<[cartitem_book line := destock book (cartitem_quantity line)]> (books db))
           (order_items db ++ [item_row (length (order_items db)) order_pk line book]))
      else
        (Raise (ValidationError ("Insufficient stock for " +:+ book_title book)), db)
  | None => (Raise (DoesNotExist "Book"), db)
  end.
Proof.
  unfold create_order_item. rewrite bind_query. unfold get_book.
  destruct (books db !! cartitem_book line) as [book|]; [|reflexivity].
  unfold OrderItem.create, OrderItem.save. cbn [item_pk item_quantity].
  destruct (book_stock book >=? cartitem_quantity line); reflexivity.
Qed.

Lemma for_each_app {A} (l1 l2 : list A) (body : A -> M unit) db :
  for_each (l1 ++ l2) body db
  = bind (for_each l1 body) (fun _ => for_each l2 body) db.
Proof.
  revert db. induction l1 as [|x l1 IH]; intros db; simpl; [reflexivity|].
  unfold bind in *.
  destruct (body x db) as [[[]|e] db1]; [apply IH | reflexivity].
Qed.

(** When every line can be reserved the loop returns with the two tables
    that [reserve_lines] computes and nothing else changed. *)
Lemma create_order_items_Ok order_pk lines db stock table :
  reserve_lines order_pk lines (books db) (order_items db) = Some (stock, table) ->
  for_each lines (create_order_item order_pk) db = (Ok tt, with_stock db stock table).
Proof.
  revert db. induction lines as [|line rest IH]; intros db Hres; simpl in *.
  - inversion Hres; subst. destruct db; reflexivity.
  - unfold bind. rewrite create_order_item_spec.
    destruct (books db !! cartitem_book line) as [book|]; [|discriminate].
    destruct (book_stock book >=? cartitem_quantity line); [|discriminate].
    rewrite (IH (with_stock db _ _) Hres). reflexivity.
Qed.

Lemma same_but_stock_refl db : same_but_stock db db.
Proof. repeat split. Qed.

Lemma with_stock_same db stock table : same_but_stock db (with_stock db stock table).
Proof. repeat split. Qed.

(** Whatever its outcome, the loop leaves the other tables alone; it
    returns exactly when every line can be reserved. *)
Lemma create_order_items_frame order_pk lines db r db' :
  for_each lines (create_order_item order_pk) db = (r, db') ->
  same_but_stock db db' /\
  (r = Ok tt <->
   reserve_lines order_pk lines (books db) (order_items db)
   = Some (books db', order_items db')).
Proof.
  revert db. induction lines as [|line rest IH]; intros db Hrun; simpl in *.
  - inversion Hrun; subst. split; [apply same_but_stock_refl|].
    split; reflexivity.
  - unfold bind in Hrun. rewrite create_order_item_spec in Hrun.
    destruct (books db !! cartitem_book line) as [book|];
      [|inversion Hrun; subst; split;
        [apply same_but_stock_refl | split; discriminate]].
    destruct (book_stock book >=? cartitem_quantity line);
      [|inversion Hrun; subst; split;
        [apply same_but_stock_refl | split; discriminate]].
    apply IH in Hrun. destruct Hrun as [Hsame Hiff].
    split; [|exact Hiff].
    unfold same_but_stock in *. simpl in Hsame. exact Hsame.
Qed.

(** ** Settlement, step by step *)

Lemma new_order_fields now customer_pk cart delivery db order ac :
  new_order now customer_pk cart delivery db = Ok (order, ac) ->
  order_customer order = customer_pk /\
  order_status order = Pending /\
  order_applied_coupon order = cart_applied_coupon cart /\
  order_cancellation_reason order = None /\
  order_cancelled_at order = None /\
  Cart_applied_coupon cart db = Ok ac.
Proof.
  unfold new_order. intros H.
  destruct (Cart.shipping_fee db cart); [|discriminate].
  destruct (Cart_applied_coupon cart db); [|discriminate].
  destruct (Cart.coupon_discount now db cart); [|discriminate].
  destruct (Cart.order_value_discount db cart); [|discriminate].
  destruct (Cart.first_time_discount db cart); [|discriminate].
  simpl in H. inversion H; subst. simpl. repeat split.
Qed.

Lemma applied_coupon_instance cart db ac :
  Cart_applied_coupon cart db = Ok ac ->
  match ac with
  | Some (pk, c) => cart_applied_coupon cart = Some pk /\ coupons db !! pk = Some c
  | None => cart_applied_coupon cart = None
  end.
Proof.
  unfold Cart_applied_coupon, get_coupon.
  destruct (cart_applied_coupon cart) as [pk|]; [|intros [= <-]; reflexivity].
  destruct (coupons db !! pk) as [c|] eqn:Hc; [|discriminate].
  intros [= <-]. split; [reflexivity | exact Hc].
Qed.

Lemma insert_last {A} (l : list A) (x y : A) :
  <[length l := y]> (l ++ [x]) = l ++ [y].
Proof.
  induction l as [|a l IH]; simpl; [reflexivity|]. f_equal. exact IH.
Qed.

Lemma existsb_false_Forall {A} (p : A -> bool) (l : list A) :
  Forall (fun x => p x = false) l -> existsb p l = false.
Proof.
  induction 1 as [|x l Hx _ IH]; simpl; [reflexivity|]. rewrite Hx. exact IH.
Qed.

(** Under referential integrity no usage row and no payment row points
    to the key that the next order will get. *)
Lemma next_order_unused db :
  orders_referenced db ->
  (forall pk, existsb (CouponUsage.same_pair pk (length (orders db)))
                (coupon_usages db) = false) /\
  existsb (fun p => bool_decide (payment_order p = length (orders db)))
    (payments db) = false.
Proof.
  intros (_ & Husage & Hpay). split.
  - intros pk. apply existsb_false_Forall.
    eapply Forall_impl; [exact Husage|]. intros u Hu. simpl in Hu.
    unfold CouponUsage.same_pair. apply bool_decide_eq_false. lia.
  - apply existsb_false_Forall.
    eapply Forall_impl; [exact Hpay|]. intros p Hp. simpl in Hp.
    apply bool_decide_eq_false. lia.
Qed.

Lemma update_coupon_usage_spec now customer_pk order_pk ac db :
  update_coupon_usage now customer_pk order_pk ac db =
  match ac with
  | Some (pk, coupon) =>
      let db1 := set_coupons
            (insert pk (with_usage coupon (coupon_current_usage coupon + 1))) db in
      if existsb (CouponUsage.same_pair pk order_pk) (coupon_usages db) then
        (Raise (IntegrityError "unique_together (coupon, order)"), db1)
      else
        (Ok tt,
         set_coupon_usages (fun t =>
           t ++ [{| usage_coupon := pk; usage_customer := customer_pk;
                    usage_order := order_pk; usage_used_at := now |}]) db1)
  | None => (Ok tt, db)
  end.
Proof.
  unfold update_coupon_usage. destruct ac as [[pk coupon]|]; [|reflexivity].
  rewrite bind_update. unfold CouponUsage.create. rewrite bind_current_db.
  cbn [coupon_usages set_coupons].
  destruct (existsb _ _); reflexivity.
Qed.

Lemma Payment_create_spec instance order db :
  Payment.create instance order db =
  if existsb (fun p => bool_decide (payment_order p = payment_order instance))
       (payments db) then
    (Raise (IntegrityError "unique (order)"), db)
  else
    Payment.update_order_status instance order
      (set_payments (fun t => t ++ [instance]) db).
Proof.
  unfold Payment.create. rewrite bind_current_db.
  destruct (existsb _ _); reflexivity.
Qed.

Lemma DB_eq (db1 db2 : DB) :
  customers db1 = customers db2 -> books db1 = books db2 ->
  coupons db1 = coupons db2 -> coupon_usages db1 = coupon_usages db2 ->
  orders db1 = orders db2 -> order_items db1 = order_items db2 ->
  payments db1 = payments db2 -> carts db1 = carts db2 ->
  cart_items db1 = cart_items db2 -> db1 = db2.
Proof. destruct db1, db2. simpl. intros. subst. reflexivity. Qed.

Lemma payment_of_order_items now order_pk order method status txn db db' :
  order_items db' = order_items db ->
  payment_of now order_pk order method status txn db'
  = payment_of now order_pk order method status txn db.
Proof.
  intros H. unfold payment_of, Order.total_amount, Order.subtotal,
    Order.orderitem_set_all, Order.orderitem_set.
  rewrite H. reflexivity.
Qed.

(** A settlement whose lines are all reserved runs up to the payment: when
    [order.total_amount] cannot be read the exception leaves what was
    written so far, and otherwise every step succeeds. *)
Lemma place_order_Ok now customer_pk customer cart lines delivery method status
    txn db order ac stock table :
  new_order now customer_pk cart delivery db = Ok (order, ac) ->
  reserve_lines (length (orders db)) lines (books db) (order_items db)
    = Some (stock, table) ->
  (forall pk, existsb (CouponUsage.same_pair pk (length (orders db)))
                (coupon_usages db) = false) ->
  existsb (fun p => bool_decide (payment_order p = length (orders db)))
    (payments db) = false ->
  place_order now customer_pk customer cart lines delivery method status txn db
  = match payment_of now (length (orders db)) order method status txn
            (with_stock db stock table) with
    | Ok _ =>
        (Ok (length (orders db), order),
         settled now customer_pk customer cart order ac stock table method status
           txn db)
    | Raise e => (Raise e, redeemed now customer_pk customer order ac stock table db)
    end.
Proof.
  intros Hnew Hres Husage Hpay.
  pose proof (new_order_fields _ _ _ _ _ _ _ Hnew) as (_ & Hpending & _).
  unfold place_order. rewrite bind_query, Hnew. cbn [fst snd].
  unfold Order.create. rewrite bind_bind, bind_current_db, bind_bind, bind_update,
    bind_ret.
  unfold bind at 1.
  rewrite (create_order_items_Ok _ _ (set_orders _ db) stock table Hres).
  unfold bind at 1. rewrite update_coupon_usage_spec.
  assert (Hfresh : forall pk,
    existsb (CouponUsage.same_pair pk (length (orders db)))
      (coupon_usages (with_stock (set_orders (fun t => t ++ [order]) db) stock table))
    = false) by exact Husage.
  assert (Hstep : forall db1 : DB,
    payments db1 = payments db ->
    order_items db1 = table ->
    (do payment <- query (payment_of now (length (orders db)) order method status
                            txn);
     run Payment.create payment order;
     run update (set_cart_items
           (filter (fun item => cartitem_cart item <> cart_customer cart)));
     run Cart_save {| cart_customer := cart_customer cart;
                      cart_applied_coupon := None |};
     ret (length (orders db), order)) db1
    = match payment_of now (length (orders db)) order method status txn
              (with_stock db stock table) with
      | Ok payment =>
        (Ok (length (orders db), order),
         set_carts (insert (cart_customer cart) None)
           (set_cart_items
              (filter (fun item => cartitem_cart item <> cart_customer cart))
              (match status with
               | Paid => set_orders
                   (fun t => <[length (orders db)
                                 := Order.with_status order Confirmed]> t)
               | _ => fun d => d
               end
                 (set_payments (fun t => t ++ [payment]) db1))))
      | Raise e => (Raise e, db1)
      end).
  { intros db1 Hp Ht. rewrite bind_query.
    rewrite (payment_of_order_items now _ order method status txn
               (with_stock db stock table) db1) by exact Ht.
    destruct (payment_of now (length (orders db)) order method status txn
                (with_stock db stock table)) as [payment|e] eqn:Hpayment;
      [|reflexivity].
    assert (Hkey : payment_order payment = length (orders db)).
    { revert Hpayment. unfold payment_of.
      destruct (Order.total_amount _ _ _); [|discriminate].
      intros [= <-]. reflexivity. }
    assert (Hstatus : payment_status payment = status).
    { revert Hpayment. unfold payment_of.
      destruct (Order.total_amount _ _ _); [|discriminate].
      intros [= <-]. reflexivity. }
    unfold bind at 1.
    rewrite Payment_create_spec. rewrite Hkey, Hp, Hpay.
    unfold Payment.update_order_status. rewrite Hstatus, Hkey, Hpending.
    destruct status; reflexivity. }
  unfold settled, redeemed, settled_order. rewrite Hpending.
  destruct ac as [[pk coupon]|]; cbv zeta; rewrite ?Hfresh;
    unfold bind at 1, when;
    destruct (customer_is_first_time_buyer customer);
    unfold update at 1, ret at 1;
    (rewrite Hstep; [|reflexivity|reflexivity]);
    (destruct (payment_of now (length (orders db)) order method status txn
                 (with_stock db stock table)) as [payment|e];
     f_equal; apply DB_eq; destruct status;
     cbn [customers books coupons coupon_usages orders order_items payments carts
          cart_items set_carts set_cart_items set_orders set_payments set_customers
          set_coupon_usages set_coupons with_stock];
     rewrite ?insert_last; reflexivity).
Qed.

(** What [reserve_lines] does to the two tables: each book loses the
    quantity that the lines ask of it, and one priced row per line is
    appended for the order. *)
Lemma destock_destock book q1 q2 :
  destock (destock book q1) q2 = destock book (q1 + q2).
Proof. unfold destock. simpl. f_equal. lia. Qed.

Lemma destock_0 book : destock book 0 = book.
Proof. destruct book. unfold destock. simpl. f_equal. lia. Qed.

Lemma reserve_lines_spec order_pk lines stock table stock' table' :
  reserve_lines order_pk lines stock table = Some (stock', table') ->
  (forall k, stock' !! k
             = (fun b => destock b (moved k (cart_lines lines))) <$> stock !! k) /\
  exists rows,
    table' = table ++ rows /\
    order_lines rows = cart_lines lines /\
    Forall (fun row => item_order row = order_pk) rows /\
    Forall priced rows.
Proof.
  revert stock table.
  induction lines as [|line rest IH]; intros stock table Hres; simpl in Hres.
  - inversion Hres; subst. split.
    + intros k. simpl. destruct (stock' !! k) as [b|]; simpl; [|reflexivity].
      rewrite destock_0. reflexivity.
    + exists []. rewrite app_nil_r. repeat split; constructor.
  - destruct (stock !! cartitem_book line) as [book|] eqn:Hbook; [|discriminate].
    destruct (book_stock book >=? cartitem_quantity line); [|discriminate].
    apply IH in Hres. destruct Hres as [Hstock (rows & Htable & Hlines & Hord & Hpr)].
    split.
    + intros k. rewrite Hstock. simpl.
      destruct (decide (cartitem_book line = k)) as [<-|Hne].
      * rewrite lookup_insert_eq, Hbook. simpl. rewrite destock_destock.
        reflexivity.
      * rewrite lookup_insert_ne by exact Hne.
        destruct (stock !! k); reflexivity.
    + exists (item_row (length table) order_pk line book :: rows).
      rewrite Htable, <- app_assoc. simpl. rewrite Hlines.
      repeat split; constructor; auto. reflexivity.
Qed.

Lemma place_order_shortage now customer_pk customer cart delivery method status
    txn db order ac reserved line rest stock table book :
  new_order now customer_pk cart delivery db = Ok (order, ac) ->
  reserve_lines (length (orders db)) reserved (books db) (order_items db)
    = Some (stock, table) ->
  stock !! cartitem_book line = Some book ->
  book_stock book < cartitem_quantity line ->
  place_order now customer_pk customer cart (reserved ++ line :: rest) delivery
    method status txn db
  = (Raise (ValidationError ("Insufficient stock for " +:+ book_title book)),
     with_stock (set_orders (fun t => t ++ [order]) db) stock table).
Proof.
  intros Hnew Hres Hbook Hshort.
  unfold place_order. rewrite bind_query, Hnew. cbn [fst snd].
  unfold Order.create. rewrite bind_bind, bind_current_db, bind_bind, bind_update,
    bind_ret.
  unfold bind at 1. rewrite for_each_app. unfold bind at 1.
  rewrite (create_order_items_Ok _ _ (set_orders _ db) stock table Hres).
  simpl for_each. unfold bind at 1. rewrite create_order_item_spec.
  cbn [books with_stock]. rewrite Hbook.
  destruct (Z.geb_spec (book_stock book) (cartitem_quantity line)); [lia|].
  reflexivity.
Qed.

(** ** The checkout view on the cash path *)

Lemma checkout_cash now customer_pk form delivery db customer applied :
  cash_checkout form delivery ->
  customers db !! customer_pk = Some customer ->
  carts db !! customer_pk = Some applied ->
  let cart := {| cart_customer := customer_pk; cart_applied_coupon := applied |} in
  Cart.cartitem_set db cart <> [] ->
  checkout now POST customer_pk form db =
  match place_order now customer_pk customer cart (Cart.cartitem_set db cart)
          delivery Cash Unpaid false db with
  | (Ok placed, db') =>
      (flash "order_history" msg_success
         (OrderPlaced placed.1 (Order.total_discount placed.2)), db')
  | (Raise e, db') => (flash "checkout" msg_error (ErrorCreatingOrder e), db')
  end.
Proof.
  intros (Hmethod & Hname & Hphone & Haddress & Hnotes & Tname & Tphone & Taddress)
    Hcustomer Hcart cart Hlines.
  unfold checkout. rewrite respond_customer_required, Hcustomer.
  unfold respond. rewrite bind_query. unfold get_cart_or_404. rewrite Hcart.
  fold cart. rewrite bind_current_db.
  destruct (Cart.cartitem_set db cart) as [|l ls] eqn:Hset; [congruence|].
  cbn [is_post]. rewrite Hname, Hphone, Haddress, Tname, Tphone, Taddress, Hmethod.
  cbn [negb andb String.eqb Ascii.eqb Bool.eqb].
  destruct delivery as [dn dp da dnotes]. simpl in Hnotes. subst dnotes.
  unfold try_except, bind. simpl delivery_name. simpl delivery_phone.
  simpl delivery_address.
  destruct (place_order _ _ _ _ _ _ _ _ _ db) as [[placed|e] db'] eqn:Hpo.
  - simpl. reflexivity.
  - destruct e; reflexivity.
Qed.

(** C1 as stated fails.  With five lines of which the third cannot be
    reserved, checkout answers with the stock error, yet the stock of the
    first two books has gone down (10 to 9 and 4 to 3), two order items are
    stored and the order row is there. *)
Lemma C1_partial_settlement_persists :
  let db := shop five_lines None in
  let result := checkout now0 POST 0 cash_form db in
  result.1 = flash "checkout" msg_error
               (ErrorCreatingOrder
                  (ValidationError "Insufficient stock for Ulysses")) /\
  book_stock <$> books db !! 1%nat = Some 10 /\
  book_stock <$> books result.2 !! 1%nat = Some 9 /\
  book_stock <$> books db !! 3%nat = Some 4 /\
  book_stock <$> books result.2 !! 3%nat = Some 3 /\
  length (orders db) = 0%nat /\
  length (orders result.2) = 1%nat /\
  length (order_items result.2) = 2%nat /\
  books result.2 <> books db /\
  orders result.2 <> orders db.
Proof.
  cbv zeta. repeat split; try (vm_compute; reflexivity).
  - intros H. apply (f_equal (fun m => book_stock <$> m !! 1%nat)) in H.
    vm_compute in H. discriminate.
  - intros H. apply (f_equal length) in H. vm_compute in H. discriminate.
Qed.

(** C1, amended.  When reserving stock for a cart line fails because the
    book's stock is less than the requested quantity, settlement stops at
    that line with the stock error: no coupon usage, customer, payment or
    cart change is made and nothing is taken for that line or the lines
    after it.  What was written before stays: the [Order] row, and for each
    earlier line its order item and stock decrement. *)
Theorem C1_settlement_stops_at_first_shortage
    now customer_pk form delivery db customer applied order ac
    reserved line rest stock table book :
  cash_checkout form delivery ->
  customers db !! customer_pk = Some customer ->
  carts db !! customer_pk = Some applied ->
  let cart := {| cart_customer := customer_pk; cart_applied_coupon := applied |} in
  Cart.cartitem_set db cart = reserved ++ line :: rest ->
  new_order now customer_pk cart delivery db = Ok (order, ac) ->
  reserve_lines (length (orders db)) reserved (books db) (order_items db)
    = Some (stock, table) ->
  stock !! cartitem_book line = Some book ->
  book_stock book < cartitem_quantity line ->
  let result := checkout now POST customer_pk form db in
  result.1 = flash "checkout" msg_error
               (ErrorCreatingOrder
                  (ValidationError ("Insufficient stock for " +:+ book_title book))) /\
  orders result.2 = orders db ++ [order] /\
  (forall k, books result.2 !! k
             = (fun b => destock b (moved k (cart_lines reserved))) <$> books db !! k) /\
  (exists rows,
     order_items result.2 = order_items db ++ rows /\
     order_lines rows = cart_lines reserved /\
     Forall (fun row => item_order row = length (orders db)) rows) /\
  coupons result.2 = coupons db /\
  coupon_usages result.2 = coupon_usages db /\
  customers result.2 = customers db /\
  payments result.2 = payments db /\
  carts result.2 = carts db /\
  cart_items result.2 = cart_items db.
Proof.
  intros Hform Hcustomer Hcart cart Hlines Hnew Hres Hbook Hshort result.
  subst result.
  rewrite (checkout_cash now customer_pk form delivery db customer applied
             Hform Hcustomer Hcart).
  2:{ fold cart. rewrite Hlines. destruct reserved; discriminate. }
  fold cart. rewrite Hlines.
  rewrite (place_order_shortage _ _ _ _ _ _ _ _ _ _ _ _ _ _ _ _ _
             Hnew Hres Hbook Hshort).
  cbn [fst snd with_stock set_orders customers books coupons coupon_usages orders
       order_items payments carts cart_items].
  destruct (reserve_lines_spec _ _ _ _ _ _ Hres)
    as [Hstock (rows & Htable & Hrows & Hord & _)].
  repeat split; auto.
  exists rows. repeat split; auto.
Qed.

(** The five-line cart: the first two lines are reserved, the third fails. *)
Lemma C1_settlement_stops_at_first_shortage_witness :
  let result := checkout now0 POST 0 cash_form (shop five_lines None) in
  result.1 = flash "checkout" msg_error
               (ErrorCreatingOrder
                  (ValidationError "Insufficient stock for Ulysses")) /\
  length (orders result.2) = 1%nat /\
  coupons result.2 = coupons (shop five_lines None) /\
  payments result.2 = [] /\
  cart_items result.2 = five_lines.
Proof.
  pose (db := shop five_lines None).
  destruct (new_order now0 0 (cart_of None) cash_delivery db)
    as [[order ac]|e] eqn:Hnew; [|vm_compute in Hnew; discriminate].
  destruct (reserve_lines 0 [line 0 1 1; line 0 3 1] (books db) (order_items db))
    as [[stock table]|] eqn:Hres; [|vm_compute in Hres; discriminate].
  assert (Hbook : stock !! 2%nat = Some (book "Ulysses" 3000.00%Q 1)).
  { vm_compute in Hres. inversion Hres. reflexivity. }
  pose proof (C1_settlement_stops_at_first_shortage now0 0%nat cash_form
                cash_delivery db alice None order ac
                [line 0 1 1; line 0 3 1] (line 0 2 2) [line 0 4 1; line 0 0 1]
                stock table (book "Ulysses" 3000.00%Q 1)) as H.
  destruct H as (Hresp & Horders & _ & _ & Hcoupons & _ & _ & Hpay & _ & Hcart).
  - repeat split; reflexivity.
  - reflexivity.
  - reflexivity.
  - reflexivity.
  - exact Hnew.
  - exact Hres.
  - exact Hbook.
  - simpl. lia.
  - cbv zeta. fold db. rewrite Hresp, Horders, Hcoupons, Hpay, Hcart.
    repeat split; reflexivity.
Defined.

(** ** Cancellation, step by step *)

Lemma restock_restock book q1 q2 :
  restock (restock book q1) q2 = restock book (q1 + q2).
Proof. unfold restock. simpl. f_equal. lia. Qed.

Lemma restock_0 book : restock book 0 = book.
Proof. destruct book. unfold restock. simpl. f_equal. lia. Qed.

Lemma restock_destock book q : restock (destock book q) q = book.
Proof. destruct book. unfold restock, destock. simpl. f_equal. lia. Qed.

(** The loop returns every quantity of the order's items to its book. *)
Lemma restore_stock_loop rows db :
  Forall (fun row => is_Some (books db !! item_book row)) rows ->
  exists stock,
    for_each rows restore_stock db = (Ok tt, set_books (fun _ => stock) db) /\
    forall k, stock !! k
              = (fun b => restock b (moved k (order_lines rows))) <$> books db !! k.
Proof.
  revert db. induction rows as [|row rest IH]; intros db Hall.
  - exists (books db). split; [destruct db; reflexivity|].
    intros k. simpl. destruct (books db !! k); simpl; [|reflexivity].
    rewrite restock_0. reflexivity.
  - inversion Hall as [|? ? [book Hbook] Hrest]; subst.
    destruct (IH (set_books (insert (item_book row)
                               (restock book (item_quantity row))) db))
      as (stock & Hrun & Hstock).
    { eapply Forall_impl; [exact Hrest|]. intros r [b Hb]. simpl.
      destruct (decide (item_book row = item_book r)) as [->|Hne].
      - rewrite lookup_insert_eq. eauto.
      - rewrite lookup_insert_ne by exact Hne. eauto. }
    exists stock. split.
    + simpl. unfold bind at 1. unfold restore_stock at 1.
      rewrite bind_query. unfold get_book. rewrite Hbook.
      unfold update at 1. rewrite Hrun. reflexivity.
    + intros k. rewrite Hstock. simpl.
      destruct (decide (item_book row = k)) as [<-|Hne].
      * rewrite lookup_insert_eq, Hbook. simpl. rewrite restock_restock.
        reflexivity.
      * rewrite lookup_insert_ne by exact Hne.
        destruct (books db !! k); reflexivity.
Qed.

Lemma revert_coupon_usage_spec order_id order db :
  (forall pk, order_applied_coupon order = Some pk ->
     exists coupon, coupons db !! pk = Some coupon
                    /\ 1 <= coupon_current_usage coupon) ->
  revert_coupon_usage order_id order db
  = (Ok tt,
     set_coupon_usages (fun _ => reverted_usages order_id order db)
       (set_coupons (fun _ => reverted_coupons order db) db)).
Proof.
  intros Hfk. unfold revert_coupon_usage, reverted_usages, reverted_coupons.
  destruct (order_applied_coupon order) as [pk|]; [|destruct db; reflexivity].
  destruct (Hfk pk eq_refl) as (coupon & Hcoupon & Hused).
  rewrite bind_query. unfold get_coupon. rewrite Hcoupon.
  cbn [with_usage coupon_current_usage].
  destruct (Z.ltb_spec (coupon_current_usage coupon - 1) 0); [lia|].
  reflexivity.
Qed.

(** The counter of the applied coupon is zero: the save of the decrement is
    refused and nothing of the block is written. *)
Lemma revert_coupon_usage_refused order_id order db pk coupon :
  order_applied_coupon order = Some pk ->
  coupons db !! pk = Some coupon ->
  coupon_current_usage coupon < 1 ->
  revert_coupon_usage order_id order db = (Raise negative_usage, db).
Proof.
  intros Hpk Hcoupon Hzero. unfold revert_coupon_usage. rewrite Hpk.
  rewrite bind_query. unfold get_coupon. rewrite Hcoupon.
  cbn [with_usage coupon_current_usage].
  destruct (Z.ltb_spec (coupon_current_usage coupon - 1) 0); [|lia].
  reflexivity.
Qed.

(** Reading the rows of an order changes their amounts only. *)
Lemma orderitem_rows_read rows items :
  mapR OrderItem.from_db rows = Ok items ->
  order_lines items = order_lines rows /\
  forall P : nat -> Prop,
    Forall (fun row => P (item_book row)) rows ->
    Forall (fun row => P (item_book row)) items.
Proof.
  revert items. induction rows as [|row rows IH]; intros items; simpl.
  - intros [= <-]. split; [reflexivity | auto].
  - unfold OrderItem.from_db at 1.
    destruct (decimal_from_db 8 (item_unit_price row)) as [u|]; [|discriminate].
    destruct (decimal_from_db 8 (item_subtotal row)) as [s|]; [|discriminate].
    cbn [rbind].
    destruct (mapR OrderItem.from_db rows) as [rest|]; [|discriminate].
    cbn [rbind]. intros [= <-]. destruct (IH rest eq_refl) as [IH1 IH2].
    split.
    + simpl. rewrite IH1. reflexivity.
    + intros P HP. inversion HP; subst. constructor; [assumption | auto].
Qed.

(** A cancellable order is cancelled: the stock goes back, the coupon is
    reverted, the order row records the cancellation. *)
Lemma cancel_order_run now customer_pk order_id field db customer order items :
  customers db !! customer_pk = Some customer ->
  get_order_or_404 order_id customer_pk db = Ok order ->
  cancellable (order_status order) = true ->
  Order.orderitem_set_all db order_id = Ok items ->
  Forall (fun row => is_Some (books db !! item_book row))
    (Order.orderitem_set db order_id) ->
  (forall pk, order_applied_coupon order = Some pk ->
     exists coupon, coupons db !! pk = Some coupon
                    /\ 1 <= coupon_current_usage coupon) ->
  exists stock,
    cancel_order now POST customer_pk order_id field db
    = (flash "order_history" msg_success (OrderCancelled order_id),
       cancelled_db now order_id order (stored_reason field) stock db) /\
    forall k, stock !! k
      = (fun b => restock b (moved k (order_lines (Order.orderitem_set db order_id))))
          <$> books db !! k.
Proof.
  intros Hcustomer Horder Hcancellable Hitems Hbooks Hfk.
  destruct (orderitem_rows_read _ _ Hitems) as [Hlines Hread].
  destruct (restore_stock_loop items db
              (Hread (fun book_pk => is_Some (books db !! book_pk)) Hbooks))
    as (stock & Hloop & Hstock).
  exists stock. split; [|rewrite <- Hlines; exact Hstock].
  unfold cancel_order. rewrite respond_customer_required, Hcustomer.
  unfold respond. rewrite bind_query, Horder, Hcancellable.
  cbn [negb is_post]. rewrite bind_query, Hitems.
  unfold bind at 1. rewrite Hloop.
  unfold bind at 1. rewrite revert_coupon_usage_spec.
  - reflexivity.
  - cbn [set_books coupons]. exact Hfk.
Qed.

Lemma cancel_order_refused now method customer_pk order_id field db customer order :
  customers db !! customer_pk = Some customer ->
  get_order_or_404 order_id customer_pk db = Ok order ->
  cancellable (order_status order) = false ->
  cancel_order now method customer_pk order_id field db
  = (flash "order_history" msg_error (CannotCancel (order_status order)), db).
Proof.
  intros Hcustomer Horder Hcancellable.
  unfold cancel_order. rewrite respond_customer_required, Hcustomer.
  unfold respond. rewrite bind_query, Horder, Hcancellable. reflexivity.
Qed.

(** ** All outcomes of a settlement *)

(** On a database with referential integrity a settlement has four
    outcomes: the pricing reads raise and nothing is written; a line cannot
    be reserved and only the order row, order items and stock have changed;
    the total of the order cannot be read for the payment, after the coupon
    and the customer were written; or every step succeeds. *)
Lemma place_order_outcome now customer_pk customer cart lines delivery method
    status txn db :
  orders_referenced db ->
  match new_order now customer_pk cart delivery db with
  | Raise e =>
      place_order now customer_pk customer cart lines delivery method status txn db
      = (Raise e, db)
  | Ok (order, ac) =>
      match reserve_lines (length (orders db)) lines (books db) (order_items db) with
      | Some (stock, table) =>
          place_order now customer_pk customer cart lines delivery method status
            txn db
          = match payment_of now (length (orders db)) order method status txn
                    (with_stock db stock table) with
            | Ok _ =>
                (Ok (length (orders db), order),
                 settled now customer_pk customer cart order ac stock table method
                   status txn db)
            | Raise e =>
                (Raise e,
                 redeemed now customer_pk customer order ac stock table db)
            end
      | None =>
          exists e db',
            place_order now customer_pk customer cart lines delivery method status
              txn db = (Raise e, db') /\
            same_but_stock (set_orders (fun t => t ++ [order]) db) db'
      end
  end.
Proof.
  intros Hwf. destruct (next_order_unused db Hwf) as [Husage Hpay].
  destruct (new_order now customer_pk cart delivery db) as [[order ac]|e] eqn:Hnew.
  - destruct (reserve_lines _ _ _ _) as [[stock table]|] eqn:Hres.
    + apply place_order_Ok; assumption.
    + unfold place_order. rewrite bind_query, Hnew. cbn [fst snd].
      unfold Order.create.
      rewrite bind_bind, bind_current_db, bind_bind, bind_update, bind_ret.
      unfold bind at 1.
      destruct (for_each lines _ _) as [r db'] eqn:Hrun.
      apply create_order_items_frame in Hrun. destruct Hrun as [Hsame Hiff].
      destruct r as [[]|e].
      * destruct Hiff as [Hiff _]. specialize (Hiff eq_refl).
        cbn [books order_items set_orders orders] in Hiff. congruence.
      * exists e, db'. split; [reflexivity | exact Hsame].
  - unfold place_order. rewrite bind_query, Hnew. reflexivity.
Qed.

(** The key of a placed order is the next position of the table. *)
Lemma place_order_key now customer_pk customer cart lines delivery method status
    txn db order_id order db1 :
  orders_referenced db ->
  place_order now customer_pk customer cart lines delivery method status txn db
    = (Ok (order_id, order), db1) ->
  order_id = length (orders db).
Proof.
  intros Hwf Hplaced.
  pose proof (place_order_outcome now customer_pk customer cart lines delivery
                method status txn db Hwf) as Hout.
  destruct (new_order _ _ _ _ db) as [[o ac]|]; [|congruence].
  destruct (reserve_lines _ _ _ _) as [[s t]|];
    [destruct (payment_of _ _ _ _ _ _ _); congruence
    | destruct Hout as (? & ? & ? & _); congruence].
Qed.

(** The response [OrderPlaced] is given on the cash path only, after a
    settlement that returned. *)
Lemma checkout_placed now method customer_pk form db order_id saved db' :
  checkout now method customer_pk form db
  = (flash "order_history" msg_success (OrderPlaced order_id saved), db') ->
  exists customer applied delivery order,
    customers db !! customer_pk = Some customer /\
    carts db !! customer_pk = Some applied /\
    let cart := {| cart_customer := customer_pk; cart_applied_coupon := applied |} in
    Cart.cartitem_set db cart <> [] /\
    place_order now customer_pk customer cart (Cart.cartitem_set db cart) delivery
      Cash Unpaid false db = (Ok (order_id, order), db').
Proof.
  unfold checkout. rewrite respond_customer_required.
  destruct (customers db !! customer_pk) as [customer|] eqn:Hcustomer;
    [|discriminate].
  unfold respond. rewrite bind_query. unfold get_cart_or_404.
  destruct (carts db !! customer_pk) as [applied|] eqn:Hcart; [|discriminate].
  rewrite bind_current_db.
  set (cart := {| cart_customer := customer_pk; cart_applied_coupon := applied |}).
  destruct (Cart.cartitem_set db cart) as [|l ls] eqn:Hset; [discriminate|].
  rewrite <- Hset.
  destruct method; [discriminate|]. cbn [is_post].
  destruct (checkout_delivery_name form) as [name|]; [|discriminate].
  destruct (checkout_delivery_phone form) as [phone|]; [|discriminate].
  destruct (checkout_delivery_address form) as [address|]; [|discriminate].
  destruct (negb _); [discriminate|].
  destruct (String.eqb _ "Cash").
  - unfold try_except, bind.
    destruct (place_order _ _ _ _ _ _ _ _ _ db) as [[[pk order]|e] db1] eqn:Hpo.
    + cbn [ret fst snd]. intros [= -> _ ->].
      exists customer, applied; eexists; exists order.
      split; [reflexivity|]. split; [reflexivity|].
      split; [fold cart; rewrite Hset; discriminate | exact Hpo].
    + cbn [ret]. destruct e; discriminate.
  - destruct (String.eqb _ "Card"); [|discriminate].
    unfold card_payment_form, customer_required. rewrite bind_current_db.
    rewrite Hcustomer, bind_query. unfold get_cart_or_404. rewrite Hcart.
    rewrite bind_current_db. fold cart. rewrite Hset. discriminate.
Qed.

(** ** Cancelling a settled order *)

Lemma filter_none {A} (P : A -> Prop) `{forall x, Decision (P x)} (l : list A) :
  Forall (fun x => ~ P x) l -> filter P l = [].
Proof.
  induction 1 as [|x l Hx _ IH]; [reflexivity|].
  rewrite filter_cons_False by exact Hx. exact IH.
Qed.

Lemma filter_all {A} (P : A -> Prop) `{forall x, Decision (P x)} (l : list A) :
  Forall P l -> filter P l = l.
Proof.
  induction 1 as [|x l Hx _ IH]; [reflexivity|].
  rewrite filter_cons_True by exact Hx. rewrite IH. reflexivity.
Qed.

Lemma settled_order_fields order status :
  order_status order = Pending ->
  cancellable (order_status (settled_order order status)) = true /\
  order_applied_coupon (settled_order order status) = order_applied_coupon order /\
  order_customer (settled_order order status) = order_customer order.
Proof.
  intros Hpending. unfold settled_order. rewrite Hpending.
  destruct status; simpl; rewrite ?Hpending; repeat split.
Qed.

Lemma with_usage_back coupon :
  with_usage (with_usage coupon (coupon_current_usage coupon + 1))
    (coupon_current_usage (with_usage coupon (coupon_current_usage coupon + 1)) - 1)
  = coupon.
Proof. destruct coupon. unfold with_usage. simpl. f_equal. lia. Qed.

Lemma Order_from_db_Ok row read :
  Order.from_db row = Ok read ->
  exists shipping_fee coupon_discount order_value_discount first_time_discount,
    read = Order.with_amounts row shipping_fee coupon_discount order_value_discount
             first_time_discount.
Proof.
  unfold Order.from_db.
  destruct (decimal_from_db 8 (order_shipping_fee row)); [|discriminate].
  destruct (decimal_from_db 8 (order_coupon_discount row)); [|discriminate].
  destruct (decimal_from_db 8 (order_order_value_discount row)); [|discriminate].
  destruct (decimal_from_db 8 (order_first_time_discount row)); [|discriminate].
  intros [= <-]. eauto.
Qed.

Lemma Order_from_db_settled order read status :
  Order.from_db order = Ok read ->
  Order.from_db (settled_order order status) = Ok (settled_order read status).
Proof.
  intros Hread. destruct (Order_from_db_Ok _ _ Hread) as (a & b & c & d & ->).
  unfold settled_order. cbn [Order.with_amounts order_status].
  destruct status; try exact Hread;
    destruct (order_status order) eqn:Hstatus; try exact Hread.
  revert Hread. unfold Order.from_db.
  cbn [Order.with_status order_shipping_fee order_coupon_discount
       order_order_value_discount order_first_time_discount].
  destruct (decimal_from_db 8 (order_shipping_fee order)); [|discriminate].
  destruct (decimal_from_db 8 (order_coupon_discount order)); [|discriminate].
  destruct (decimal_from_db 8 (order_order_value_discount order)); [|discriminate].
  destruct (decimal_from_db 8 (order_first_time_discount order)); [|discriminate].
  cbn [rbind]. unfold Order.with_amounts, Order.with_status. cbn.
  intros [= -> -> -> ->]. reflexivity.
Qed.

Lemma payment_of_items now order_pk order method status txn db payment :
  payment_of now order_pk order method status txn db = Ok payment ->
  exists items, Order.orderitem_set_all db order_pk = Ok items.
Proof.
  unfold payment_of, Order.total_amount, Order.subtotal.
  destruct (Order.orderitem_set_all db order_pk) as [items|]; [eauto|discriminate].
Qed.

(** Cancelling the order that a settlement has just placed puts the stock
    of every book, the usage counter of the coupon and the usage rows back
    to what they were before the settlement, when the amounts of the order
    row can be read back and the counter was not negative. *)
Lemma cancel_after_settlement now customer_pk customer cart lines delivery method
    status txn db order_id order db1 now' field read :
  orders_referenced db ->
  customers db !! customer_pk = Some customer ->
  usage_nonneg (coupons db) ->
  place_order now customer_pk customer cart lines delivery method status txn db
    = (Ok (order_id, order), db1) ->
  get_order_or_404 order_id customer_pk db1 = Ok read ->
  exists db2,
    cancel_order now' POST customer_pk order_id field db1
      = (flash "order_history" msg_success (OrderCancelled order_id), db2) /\
    books db2 = books db /\
    coupons db2 = coupons db /\
    coupon_usages db2 = coupon_usages db /\
    orders db2 = orders db ++
      [Order.cancelled read (stored_reason field) now'].
Proof.
  intros Hwf Hcustomer Hcounter Hplaced Hget.
  pose proof (place_order_outcome now customer_pk customer cart lines delivery
                method status txn db Hwf) as Hout.
  destruct (new_order now customer_pk cart delivery db) as [[order0 ac]|e] eqn:Hnew;
    [|congruence].
  destruct (reserve_lines _ _ _ _) as [[stock table]|] eqn:Hres;
    [|destruct Hout as (e & db' & Hraise & _); congruence].
  destruct (payment_of now (length (orders db)) order0 method status txn
              (with_stock db stock table)) as [payment|e] eqn:Hpayment;
    [|congruence].
  rewrite Hout in Hplaced. inversion Hplaced; subst order_id order0 db1.
  clear Hplaced Hout.
  destruct (payment_of_items _ _ _ _ _ _ _ _ Hpayment) as [items Hitems_all].
  destruct (new_order_fields _ _ _ _ _ _ _ Hnew)
    as (Hcust & Hpending & Happlied & _ & _ & Hac).
  apply applied_coupon_instance in Hac.
  destruct (settled_order_fields order status Hpending) as (Hcanc & Happ' & Hcust').
  destruct (reserve_lines_spec _ _ _ _ _ _ Hres)
    as [Hstock (rows & Htable & Hrows & Hord & _)].
  destruct Hwf as (Hitems & Husages & _).
  set (db1 := settled now customer_pk customer cart order ac stock table method
                status txn db).
  assert (Hset : Order.orderitem_set db1 (length (orders db)) = rows).
  { unfold Order.orderitem_set. simpl. rewrite Htable, filter_app.
    rewrite filter_none, filter_all; [reflexivity | exact Hord |].
    eapply Forall_impl; [exact Hitems|]. intros row Hrow. simpl in Hrow. lia. }
  assert (Hread : Order.from_db (settled_order order status) = Ok read).
  { revert Hget. unfold get_order_or_404. cbn [db1 settled orders].
    rewrite lookup_app_r, Nat.sub_diag by reflexivity. cbn [lookup list_lookup].
    rewrite Hcust', Hcust.
    destruct (decide (customer_pk = customer_pk)); [|congruence].
    exact (fun H => H). }
  destruct (Order_from_db_Ok _ _ Hread) as (fee & cd & ovd & ftd & Hshape).
  assert (Hsame : order_status read = order_status (settled_order order status)
                  /\ order_applied_coupon read = order_applied_coupon order).
  { rewrite Hshape. cbn [Order.with_amounts order_status order_applied_coupon].
    split; [reflexivity | exact Happ']. }
  destruct Hsame as [Hstatus_read Happlied_read].
  destruct (cancel_order_run now' customer_pk (length (orders db)) field db1
              (if customer_is_first_time_buyer customer
               then first_purchase_done customer else customer)
              read items) as (stock2 & Hrun & Hstock2).
  - simpl. destruct (customer_is_first_time_buyer customer);
      [apply lookup_insert_eq | exact Hcustomer].
  - exact Hget.
  - rewrite Hstatus_read. exact Hcanc.
  - exact Hitems_all.
  - rewrite Hset. simpl.
    assert (Hin : forall k q, In (k, q) (order_lines rows) -> is_Some (stock !! k)).
    { rewrite Hrows. clear -Hres. revert Hres. generalize (order_items db).
      generalize (books db).
      induction lines as [|line rest IH]; intros bs tb Hres k q Hin; [destruct Hin|].
      simpl in Hres.
      destruct (bs !! cartitem_book line) as [book|] eqn:Hbook; [|discriminate].
      destruct (book_stock book >=? cartitem_quantity line); [|discriminate].
      destruct Hin as [Heq | Hin]; [|exact (IH _ _ Hres k q Hin)].
      inversion Heq; subst k q.
      destruct (reserve_lines_spec _ _ _ _ _ _ Hres) as [Hlook _].
      rewrite Hlook, lookup_insert_eq. simpl. eauto. }
    apply Forall_forall. intros row Hrow.
    apply (Hin (item_book row) (item_quantity row)).
    unfold order_lines. apply in_map_iff. exists row. split; [reflexivity|].
    apply list_elem_of_In. exact Hrow.
  - intros pk Hpk. rewrite Happlied_read, Happlied in Hpk. simpl.
    destruct ac as [[pk' coupon]|]; [|congruence].
    destruct Hac as [Hpk' Hcoupon]. assert (pk' = pk) by congruence. subst pk'.
    rewrite lookup_insert_eq. eexists. split; [reflexivity|].
    cbn [with_usage coupon_current_usage].
    pose proof (Hcounter pk coupon Hcoupon). lia.
  - eexists. split; [exact Hrun|].
    unfold cancelled_db. cbn [books coupons coupon_usages orders].
    repeat split.
    + apply map_eq. intros k. rewrite Hstock2, Hset, Hrows. simpl.
      rewrite Hstock. destruct (books db !! k) as [b|]; simpl; [|reflexivity].
      rewrite restock_destock. reflexivity.
    + unfold reverted_coupons. rewrite Happlied_read, Happlied. simpl.
      destruct ac as [[pk coupon]|].
      * destruct Hac as [-> Hcoupon]. rewrite lookup_insert_eq.
        rewrite with_usage_back, insert_insert_eq. apply insert_id. exact Hcoupon.
      * rewrite Hac. reflexivity.
    + unfold reverted_usages. rewrite Happlied_read, Happlied. simpl.
      destruct ac as [[pk coupon]|].
      * destruct Hac as [-> _]. rewrite filter_app, filter_all.
        -- rewrite filter_cons_False; [apply app_nil_r|]. simpl. tauto.
        -- eapply Forall_impl; [exact Husages|]. intros u Hu. simpl in Hu. lia.
      * rewrite Hac. reflexivity.
    + simpl. apply insert_last.
Qed.

(** A card payment answers with success only after a settlement that
    returned. *)
Lemma process_card_payment_placed py_int current_year current_month now method
    customer_pk form db message order_id db' :
  process_card_payment py_int current_year current_month now method customer_pk
    form db = (JsonResponse true message (Some order_id), db') ->
  exists customer applied delivery order,
    customers db !! customer_pk = Some customer /\
    carts db !! customer_pk = Some applied /\
    let cart := {| cart_customer := customer_pk; cart_applied_coupon := applied |} in
    place_order now customer_pk customer cart (Cart.cartitem_set db cart) delivery
      Card Paid true db = (Ok (order_id, order), db').
Proof.
  unfold process_card_payment. rewrite respond_customer_required.
  destruct (customers db !! customer_pk) as [customer|] eqn:Hcustomer;
    [|discriminate].
  destruct method; cbn [is_post negb]; [discriminate|].
  unfold respond. rewrite bind_query. unfold get_cart_or_404.
  destruct (carts db !! customer_pk) as [applied|] eqn:Hcart; [|discriminate].
  rewrite bind_current_db.
  set (cart := {| cart_customer := customer_pk; cart_applied_coupon := applied |}).
  destruct (Cart.cartitem_set db cart) as [|l ls] eqn:Hset; [discriminate|].
  destruct (negb (forallb _ _)); [discriminate|].
  rewrite bind_query.
  destruct (validate_card_number _) as [[[|] ?]|e]; cbn [negb];
    [|discriminate|destruct e; discriminate].
  destruct (validate_expiry_date _ _ _ _ _) as [[|] ?]; cbn [negb]; [|discriminate].
  destruct (validate_cvv _) as [[|] ?]; cbn [negb]; [|discriminate].
  destruct (_ <? 3)%nat; [discriminate|].
  unfold try_except, bind.
  destruct (place_order _ _ _ _ _ _ _ _ _ db) as [[[pk order]|e] db1] eqn:Hpo.
  - cbn [ret fst snd]. intros [= _ -> ->].
    exists customer, applied; eexists; exists order.
    split; [reflexivity|]. split; [reflexivity|].
    fold cart. rewrite Hset. exact Hpo.
  - cbn [ret]. destruct e; discriminate.
Qed.

(** C3 as stated fails for the order row that a settlement leaves behind
    when it stops at a stock shortage: the row is [Pending] and carries the
    applied coupon, whose counter the settlement never incremented;
    cancelling it succeeds and takes the counter from 3 to 2. *)
Lemma C3_cancel_lowers_usage_never_counted :
  let db0 := shop [line 0 2 2] (Some 0%nat) in
  let db1 := (checkout now0 POST 0 cash_form db0).2 in
  let result := cancel_order now0 POST 0 0 None db1 in
  order_status <$> orders db1 !! 0%nat = Some Pending /\
  order_applied_coupon <$> orders db1 !! 0%nat = Some (Some 0%nat) /\
  result.1 = flash "order_history" msg_success (OrderCancelled 0) /\
  coupon_current_usage <$> coupons db0 !! 0%nat = Some 3 /\
  coupon_current_usage <$> coupons db1 !! 0%nat = Some 3 /\
  coupon_current_usage <$> coupons result.2 !! 0%nat = Some 2.
Proof.
  cbv zeta. repeat split; vm_compute; reflexivity.
Qed.

(** A cancellation whose coupon counter is zero: the stock has been
    restored when the save of the counter is refused, and the request ends
    there. *)
Lemma cancel_order_negative now customer_pk order_id field db customer order items
    pk coupon :
  customers db !! customer_pk = Some customer ->
  get_order_or_404 order_id customer_pk db = Ok order ->
  cancellable (order_status order) = true ->
  Order.orderitem_set_all db order_id = Ok items ->
  Forall (fun row => is_Some (books db !! item_book row))
    (Order.orderitem_set db order_id) ->
  order_applied_coupon order = Some pk ->
  coupons db !! pk = Some coupon ->
  coupon_current_usage coupon < 1 ->
  exists stock,
    cancel_order now POST customer_pk order_id field db
    = (ServerError negative_usage, set_books (fun _ => stock) db) /\
    forall k, stock !! k
      = (fun b => restock b (moved k (order_lines (Order.orderitem_set db order_id))))
          <$> books db !! k.
Proof.
  intros Hcustomer Horder Hcancellable Hitems Hbooks Hpk Hcoupon Hzero.
  destruct (orderitem_rows_read _ _ Hitems) as [Hlines Hread].
  destruct (restore_stock_loop items db
              (Hread (fun book_pk => is_Some (books db !! book_pk)) Hbooks))
    as (stock & Hloop & Hstock).
  exists stock. split; [|rewrite <- Hlines; exact Hstock].
  unfold cancel_order. rewrite respond_customer_required, Hcustomer.
  unfold respond. rewrite bind_query, Horder, Hcancellable.
  cbn [negb is_post]. rewrite bind_query, Hitems.
  unfold bind at 1. rewrite Hloop.
  unfold bind at 1.
  rewrite (revert_coupon_usage_refused order_id order _ pk coupon Hpk);
    [reflexivity | exact Hcoupon | exact Hzero].
Qed.

(** C3, amended.  Cancellation is refused ([CannotCancel]) for every order
    whose status is not [Pending] or [Confirmed], and nothing changes.  For
    a [Pending] or [Confirmed] order whose rows can be read back it restores
    the stock: every line item's quantity is added back to its book's
    stock.  Then, when the order has no coupon or the counter of its coupon
    is at least one, [current_usage] is decremented by one, the usage rows
    of the order are deleted, and the order becomes [Cancelled] with its
    [cancellation_reason] (the submitted text, stripped) and
    [cancelled_at] recorded; when the counter of the coupon is zero the
    save of the decrement is refused, the request ends with that error and
    the order stays as it was, the stock having been restored.  When the
    order is the one that a settlement has just placed (cash or card), no
    coupon counter was negative before and the order row can be read back,
    the stock of every book, the coupon counters and the usage rows are
    back to their values before that settlement. *)
Theorem C3_cancellation :
  (forall now method customer_pk order_id field db customer order,
     customers db !! customer_pk = Some customer ->
     get_order_or_404 order_id customer_pk db = Ok order ->
     (order_status order <> Pending -> order_status order <> Confirmed ->
      cancel_order now method customer_pk order_id field db
      = (flash "order_history" msg_error (CannotCancel (order_status order)), db)) /\
     (order_status order = Pending \/ order_status order = Confirmed ->
      forall items,
      Order.orderitem_set_all db order_id = Ok items ->
      Forall (fun row => is_Some (books db !! item_book row))
        (Order.orderitem_set db order_id) ->
      ((forall pk, order_applied_coupon order = Some pk ->
          exists coupon, coupons db !! pk = Some coupon
                         /\ 1 <= coupon_current_usage coupon) ->
       exists db',
         cancel_order now POST customer_pk order_id field db
         = (flash "order_history" msg_success (OrderCancelled order_id), db') /\
         (forall k, books db' !! k
            = (fun b => restock b
                 (moved k (order_lines (Order.orderitem_set db order_id))))
              <$> books db !! k) /\
         coupons db' = reverted_coupons order db /\
         coupon_usages db' = reverted_usages order_id order db /\
         exists order',
           orders db' !! order_id = Some order' /\
           order_status order' = Cancelled /\
           order_cancellation_reason order' = stored_reason field /\
           order_cancelled_at order' = Some now) /\
      (forall pk coupon,
         order_applied_coupon order = Some pk ->
         coupons db !! pk = Some coupon ->
         coupon_current_usage coupon < 1 ->
         exists db',
           cancel_order now POST customer_pk order_id field db
           = (ServerError negative_usage, db') /\
           (forall k, books db' !! k
              = (fun b => restock b
                   (moved k (order_lines (Order.orderitem_set db order_id))))
                <$> books db !! k) /\
           coupons db' = coupons db /\
           coupon_usages db' = coupon_usages db /\
           orders db' = orders db))) /\
  (forall now customer_pk form db order_id saved db1 now' field read,
     orders_referenced db ->
     usage_nonneg (coupons db) ->
     checkout now POST customer_pk form db
       = (flash "order_history" msg_success (OrderPlaced order_id saved), db1) ->
     get_order_or_404 order_id customer_pk db1 = Ok read ->
     exists db2 order',
       cancel_order now' POST customer_pk order_id field db1
         = (flash "order_history" msg_success (OrderCancelled order_id), db2) /\
       books db2 = books db /\
       coupons db2 = coupons db /\
       coupon_usages db2 = coupon_usages db /\
       orders db2 !! order_id = Some order' /\
       order_status order' = Cancelled /\
       order_cancellation_reason order' = stored_reason field /\
       order_cancelled_at order' = Some now') /\
  (forall py_int current_year current_month now customer_pk form db message
          order_id db1 now' field read,
     orders_referenced db ->
     usage_nonneg (coupons db) ->
     process_card_payment py_int current_year current_month now POST customer_pk
       form db = (JsonResponse true message (Some order_id), db1) ->
     get_order_or_404 order_id customer_pk db1 = Ok read ->
     exists db2 order',
       cancel_order now' POST customer_pk order_id field db1
         = (flash "order_history" msg_success (OrderCancelled order_id), db2) /\
       books db2 = books db /\
       coupons db2 = coupons db /\
       coupon_usages db2 = coupon_usages db /\
       orders db2 !! order_id = Some order' /\
       order_status order' = Cancelled /\
       order_cancellation_reason order' = stored_reason field /\
       order_cancelled_at order' = Some now').
Proof.
  split; [|split].
  - intros now method customer_pk order_id field db customer order Hcustomer Horder.
    split.
    + intros Hp Hc. apply (cancel_order_refused _ _ _ _ _ _ customer); auto.
      destruct (order_status order); try reflexivity; congruence.
    + intros Hstatus items Hitems Hbooks.
      assert (Hcancellable : cancellable (order_status order) = true).
      { destruct Hstatus as [-> | ->]; reflexivity. }
      split.
      * intros Hfk.
        destruct (cancel_order_run now customer_pk order_id field db customer order
                    items Hcustomer Horder Hcancellable Hitems Hbooks Hfk)
          as (stock & Hrun & Hstock).
        eexists. split; [exact Hrun|].
        cbn [cancelled_db books coupons coupon_usages orders].
        repeat split; auto.
        exists (Order.cancelled order (stored_reason field) now).
        repeat split. apply list_lookup_insert_eq.
        unfold get_order_or_404 in Horder.
        destruct (orders db !! order_id) eqn:Hlook; [|discriminate].
        apply lookup_lt_Some in Hlook. exact Hlook.
      * intros pk coupon Hpk Hcoupon Hzero.
        destruct (cancel_order_negative now customer_pk order_id field db customer
                    order items pk coupon Hcustomer Horder Hcancellable Hitems
                    Hbooks Hpk Hcoupon Hzero) as (stock & Hrun & Hstock).
        eexists. split; [exact Hrun|].
        cbn [set_books books coupons coupon_usages orders].
        repeat split; auto.
  - intros now customer_pk form db order_id saved db1 now' field read Hwf Hnonneg
      Hplaced Hget.
    apply checkout_placed in Hplaced.
    destruct Hplaced as (customer & applied & delivery & order & Hcustomer & _ & _ & Hpo).
    destruct (cancel_after_settlement _ _ _ _ _ _ _ _ _ _ _ _ _ now' field read
                Hwf Hcustomer Hnonneg Hpo Hget) as (db2 & Hrun & Hb & Hc & Hu & Ho).
    exists db2, (Order.cancelled read (stored_reason field) now').
    split; [exact Hrun|]. repeat split; auto.
    rewrite Ho, (place_order_key _ _ _ _ _ _ _ _ _ _ _ _ _ Hwf Hpo).
    rewrite lookup_app_r, Nat.sub_diag by reflexivity. reflexivity.
  - intros py_int current_year current_month now customer_pk form db message
      order_id db1 now' field read Hwf Hnonneg Hplaced Hget.
    apply process_card_payment_placed in Hplaced.
    destruct Hplaced as (customer & applied & delivery & order & Hcustomer & _ & Hpo).
    destruct (cancel_after_settlement _ _ _ _ _ _ _ _ _ _ _ _ _ now' field read
                Hwf Hcustomer Hnonneg Hpo Hget) as (db2 & Hrun & Hb & Hc & Hu & Ho).
    exists db2, (Order.cancelled read (stored_reason field) now').
    split; [exact Hrun|]. repeat split; auto.
    rewrite Ho, (place_order_key _ _ _ _ _ _ _ _ _ _ _ _ _ Hwf Hpo).
    rewrite lookup_app_r, Nat.sub_diag by reflexivity. reflexivity.
Qed.

Lemma shop_usage_nonneg lines applied : usage_nonneg (coupons (shop lines applied)).
Proof.
  intros pk c Hc. simpl in Hc.
  repeat (apply lookup_insert_Some in Hc;
          destruct Hc as [[_ <-] | [_ Hc]]; [simpl; lia|]).
  rewrite lookup_empty in Hc. discriminate.
Qed.

(** The round trip on the eight-item cart with the fixed coupon applied:
    the order is placed, cancelled, and stock and coupon are as before. *)
Lemma C3_cancellation_witness :
  let db := shop eight_items (Some 0%nat) in
  let placed := checkout now0 POST 0 cash_form db in
  let cancelled := cancel_order (now0 + 60) POST 0 0 (Some "changed my mind")
                     placed.2 in
  cancelled.1 = flash "order_history" msg_success (OrderCancelled 0) /\
  books placed.2 <> books db /\
  books cancelled.2 = books db /\
  coupons cancelled.2 = coupons db /\
  coupon_usages cancelled.2 = coupon_usages db /\
  order_status <$> orders cancelled.2 !! 0%nat = Some Cancelled.
Proof.
  cbv zeta.
  destruct (checkout now0 POST 0 cash_form (shop eight_items (Some 0%nat)))
    as [response db1] eqn:Hplaced.
  pose proof Hplaced as Hvalue. vm_compute in Hvalue.
  apply pair_equal_spec in Hvalue. destruct Hvalue as [Hresponse Hdb1].
  assert (Hanswer : exists saved,
            response = flash "order_history" msg_success (OrderPlaced 0 saved)).
  { rewrite <- Hresponse. eexists. reflexivity. }
  destruct Hanswer as [saved Hanswer]. rewrite Hanswer in Hplaced.
  assert (Hget : exists read, get_order_or_404 0 0 db1 = Ok read).
  { rewrite <- Hdb1. vm_compute. eexists. reflexivity. }
  destruct Hget as [read Hget].
  assert (Hwf : orders_referenced (shop eight_items (Some 0%nat))).
  { repeat split; constructor. }
  destruct C3_cancellation as (_ & Hround & _).
  destruct (Hround now0 0%nat cash_form (shop eight_items (Some 0%nat)) 0%nat
              saved db1 (now0 + 60) (Some "changed my mind") read Hwf
              (shop_usage_nonneg _ _) Hplaced Hget)
    as (db2 & order' & Hrun & Hbooks & Hcoupons & Husages & Horder & Hstatus & _).
  cbn [fst snd]. rewrite Hrun. cbn [fst snd]. rewrite Horder. simpl.
  rewrite Hstatus. repeat split; auto.
  intros Heq. apply (f_equal (fun m => book_stock <$> m !! 1%nat)) in Heq.
  rewrite <- Hdb1 in Heq. vm_compute in Heq. discriminate.
Defined.

(** ** Coupon usage under settlement *)

(** One settlement, whatever its outcome, either leaves the coupon tables
    alone or increments the counter of the applied coupon once, with at
    most one new usage row, inserted only when the table has no row for
    the same coupon and order. *)
Lemma place_order_usage now customer_pk customer cart lines delivery method status
    txn db r db' :
  place_order now customer_pk customer cart lines delivery method status txn db
    = (r, db') ->
  (coupons db' = coupons db /\ coupon_usages db' = coupon_usages db) \/
  (exists pk coupon,
     cart_applied_coupon cart = Some pk /\
     coupons db !! pk = Some coupon /\
     coupons db'
       = <[pk := with_usage coupon (coupon_current_usage coupon + 1)]> (coupons db) /\
     (coupon_usages db' = coupon_usages db \/
      (existsb (CouponUsage.same_pair pk (length (orders db))) (coupon_usages db)
         = false /\
       coupon_usages db' = coupon_usages db ++
         [{| usage_coupon := pk; usage_customer := customer_pk;
             usage_order := length (orders db); usage_used_at := now |}]))).
Proof.
  unfold place_order. rewrite bind_query.
  destruct (new_order now customer_pk cart delivery db) as [[order ac]|e] eqn:Hnew.
  2:{ intros [= <- <-]. left. split; reflexivity. }
  cbn [fst snd]. unfold Order.create.
  rewrite bind_bind, bind_current_db, bind_bind, bind_update, bind_ret.
  unfold bind at 1.
  destruct (for_each lines _ _) as [r1 db1] eqn:Hloop.
  apply create_order_items_frame in Hloop.
  destruct Hloop as [(_ & Hcoupons & Husages & Horders & _) _].
  cbn [coupons coupon_usages orders set_orders] in Hcoupons, Husages, Horders.
  destruct r1 as [[]|e].
  2:{ intros [= <- <-]. left. split; assumption. }
  assert (Htail : forall dbx r db',
    (run when (customer_is_first_time_buyer customer)
           (update (set_customers (insert customer_pk (first_purchase_done customer))));
     do payment <- query (payment_of now (length (orders db)) order method status
                            txn);
     run Payment.create payment order;
     run update (set_cart_items
           (filter (fun item => cartitem_cart item <> cart_customer cart)));
     run Cart_save {| cart_customer := cart_customer cart;
                      cart_applied_coupon := None |};
     ret (length (orders db), order)) dbx = (r, db') ->
    coupons db' = coupons dbx /\ coupon_usages db' = coupon_usages dbx).
  { intros dbx r' dbx'. unfold when, bind at 1.
    destruct (customer_is_first_time_buyer customer);
      unfold update at 1, ret at 1; rewrite bind_query;
      (destruct (payment_of _ _ _ _ _ _ _) as [payment|e];
       [|intros [= <- <-]; split; reflexivity]);
      unfold bind at 1; rewrite Payment_create_spec;
      destruct (existsb _ _);
      try (intros [= <- <-]; split; reflexivity);
      unfold Payment.update_order_status;
      destruct (payment_status _); destruct (order_status order);
      intros [= <- <-]; split; reflexivity. }
  unfold bind at 1. rewrite update_coupon_usage_spec.
  pose proof (new_order_fields _ _ _ _ _ _ _ Hnew) as (_ & _ & _ & _ & _ & Hac).
  apply applied_coupon_instance in Hac.
  destruct ac as [[pk coupon]|].
  - destruct Hac as [Hpk Hcoupon]. cbv zeta. rewrite Husages.
    destruct (existsb _ (coupon_usages db)) eqn:Hdup.
    + intros [= <- <-]. right. exists pk, coupon.
      cbn [coupons coupon_usages set_coupons]. rewrite Hcoupons, Husages.
      split; [exact Hpk|]. split; [exact Hcoupon|]. split; [reflexivity|].
      left. reflexivity.
    + intros Hrest. apply Htail in Hrest. destruct Hrest as [Hc Hu].
      cbn [coupons coupon_usages set_coupons set_coupon_usages] in Hc, Hu.
      right. exists pk, coupon. rewrite Hc, Hu, Hcoupons, Husages.
      split; [exact Hpk|]. split; [exact Hcoupon|]. split; [reflexivity|].
      right. split; [exact Hdup | reflexivity].
  - intros Hrest. apply Htail in Hrest. destruct Hrest as [Hc Hu].
    left. rewrite Hc, Hu. split; assumption.
Qed.

(** What the two settlement views do to the database: nothing, or what
    the settlement they run does. *)
Lemma checkout_effect now method customer_pk form db :
  (checkout now method customer_pk form db).2 = db \/
  exists customer applied delivery,
    customers db !! customer_pk = Some customer /\
    carts db !! customer_pk = Some applied /\
    let cart := {| cart_customer := customer_pk; cart_applied_coupon := applied |} in
    checkout now method customer_pk form db =
    match place_order now customer_pk customer cart (Cart.cartitem_set db cart)
            delivery Cash Unpaid false db with
    | (Ok placed, db') =>
        (flash "order_history" msg_success
           (OrderPlaced placed.1 (Order.total_discount placed.2)), db')
    | (Raise e, db') => (flash "checkout" msg_error (ErrorCreatingOrder e), db')
    end.
Proof.
  unfold checkout. rewrite respond_customer_required.
  destruct (customers db !! customer_pk) as [customer|] eqn:Hcustomer;
    [|left; reflexivity].
  unfold respond. rewrite bind_query. unfold get_cart_or_404.
  destruct (carts db !! customer_pk) as [applied|] eqn:Hcart; [|left; reflexivity].
  rewrite bind_current_db.
  set (cart := {| cart_customer := customer_pk; cart_applied_coupon := applied |}).
  destruct (Cart.cartitem_set db cart) as [|l ls] eqn:Hset; [left; reflexivity|].
  rewrite <- Hset.
  destruct method; [left; reflexivity|]. cbn [is_post].
  destruct (checkout_delivery_name form) as [name|]; [|left; reflexivity].
  destruct (checkout_delivery_phone form) as [phone|]; [|left; reflexivity].
  destruct (checkout_delivery_address form) as [address|]; [|left; reflexivity].
  destruct (negb _); [left; reflexivity|].
  destruct (String.eqb _ "Cash").
  - right. exists customer, applied. eexists.
    split; [reflexivity|]. split; [reflexivity|].
    unfold try_except, bind.
    destruct (place_order _ _ _ _ _ _ _ _ _ db) as [[placed|e] db1] eqn:Hpo.
    + fold cart. rewrite Hpo. reflexivity.
    + fold cart. rewrite Hpo. destruct e; reflexivity.
  - left. destruct (String.eqb _ "Card"); [|reflexivity].
    unfold card_payment_form, customer_required. rewrite bind_current_db.
    rewrite Hcustomer, bind_query. unfold get_cart_or_404. rewrite Hcart.
    rewrite bind_current_db. fold cart. rewrite Hset. reflexivity.
Qed.

Lemma process_card_payment_effect py_int current_year current_month now method
    customer_pk form db :
  (process_card_payment py_int current_year current_month now method customer_pk
     form db).2 = db \/
  exists customer applied delivery,
    customers db !! customer_pk = Some customer /\
    carts db !! customer_pk = Some applied /\
    let cart := {| cart_customer := customer_pk; cart_applied_coupon := applied |} in
    (process_card_payment py_int current_year current_month now method customer_pk
       form db).2
    = (place_order now customer_pk customer cart (Cart.cartitem_set db cart)
         delivery Card Paid true db).2.
Proof.
  unfold process_card_payment. rewrite respond_customer_required.
  destruct (customers db !! customer_pk) as [customer|] eqn:Hcustomer;
    [|left; reflexivity].
  destruct method; cbn [is_post negb]; [left; reflexivity|].
  unfold respond. rewrite bind_query. unfold get_cart_or_404.
  destruct (carts db !! customer_pk) as [applied|] eqn:Hcart; [|left; reflexivity].
  rewrite bind_current_db.
  set (cart := {| cart_customer := customer_pk; cart_applied_coupon := applied |}).
  destruct (Cart.cartitem_set db cart) as [|l ls] eqn:Hset; [left; reflexivity|].
  rewrite <- Hset.
  destruct (negb (forallb _ _)); [left; reflexivity|].
  rewrite bind_query.
  destruct (validate_card_number _) as [[[|] ?]|e]; cbn [negb];
    [|left; reflexivity|destruct e; left; reflexivity].
  destruct (validate_expiry_date _ _ _ _ _) as [[|] ?]; cbn [negb];
    [|left; reflexivity].
  destruct (validate_cvv _) as [[|] ?]; cbn [negb]; [|left; reflexivity].
  destruct (_ <? 3)%nat; [left; reflexivity|].
  right. exists customer, applied.
  exists {| delivery_name := strip (card_delivery_name form);
            delivery_phone := strip (card_delivery_phone form);
            delivery_address := strip (card_delivery_address form);
            delivery_notes :=
              if truthy (strip (card_delivery_notes form))
              then Some (strip (card_delivery_notes form)) else None |}.
  split; [reflexivity|]. split; [reflexivity|].
  unfold try_except, bind. fold cart.
  destruct (place_order _ _ _ _ _ _ _ _ _ db) as [[placed|e] db1] eqn:Hpo.
  - reflexivity.
  - destruct e; reflexivity.
Qed.

Lemma restore_stock_frame rows db r db' :
  for_each rows restore_stock db = (r, db') ->
  coupons db' = coupons db /\ coupon_usages db' = coupon_usages db.
Proof.
  revert db. induction rows as [|row rest IH]; intros db; simpl.
  - intros [= <- <-]. split; reflexivity.
  - unfold bind at 1. unfold restore_stock at 1. rewrite bind_query.
    unfold get_book. destruct (books db !! item_book row) as [book|].
    + unfold update at 1. intros Hrest. apply IH in Hrest. exact Hrest.
    + intros [= <- <-]. split; reflexivity.
Qed.

Lemma cancel_order_usages now method customer_pk order_id field db :
  let db' := (cancel_order now method customer_pk order_id field db).2 in
  coupon_usages db' = coupon_usages db \/
  coupon_usages db' = filter (fun u => usage_order u <> order_id) (coupon_usages db).
Proof.
  cbv zeta.
  destruct (cancel_order now method customer_pk order_id field db)
    as [response db'] eqn:Hrun.
  cbn [snd]. revert Hrun.
  unfold cancel_order. rewrite respond_customer_required.
  destruct (customers db !! customer_pk) as [customer|];
    [|intros [= _ <-]; left; reflexivity].
  unfold respond. rewrite bind_query.
  destruct (get_order_or_404 order_id customer_pk db) as [order|e];
    [|destruct e; intros [= _ <-]; left; reflexivity].
  destruct (negb _); [intros [= _ <-]; left; reflexivity|].
  destruct method; [intros [= _ <-]; left; reflexivity|]. cbn [is_post].
  rewrite bind_query.
  destruct (Order.orderitem_set_all db order_id) as [items|e];
    [|destruct e; intros [= _ <-]; left; reflexivity].
  unfold bind at 1.
  destruct (for_each _ restore_stock db) as [r1 db1] eqn:Hloop.
  apply restore_stock_frame in Hloop. destruct Hloop as [_ Husages].
  destruct r1 as [[]|e]; [|destruct e; intros [= _ <-]; left; exact Husages].
  unfold bind at 1, revert_coupon_usage.
  destruct (order_applied_coupon order) as [pk|].
  - rewrite bind_query. unfold get_coupon.
    destruct (coupons db1 !! pk) as [coupon|];
      [|intros [= _ <-]; left; exact Husages].
    cbv zeta. destruct (_ <? 0).
    + intros [= _ <-]. left. exact Husages.
    + intros [= _ <-]. right. cbn. rewrite Husages. reflexivity.
  - intros [= _ <-]. left. cbn. exact Husages.
Qed.

(** ** Uniqueness of usage rows and the bound on the counter *)

Lemma same_pair_absent pk order (usages : list CouponUsage) :
  existsb (CouponUsage.same_pair pk order) usages = false ->
  ~ In (pk, order) (map (fun u => (usage_coupon u, usage_order u)) usages).
Proof.
  induction usages as [|u rest IH]; simpl; [tauto|].
  intros H. apply orb_false_iff in H. destruct H as [Hu Hrest].
  intros [Heq | Hin]; [|exact (IH Hrest Hin)].
  unfold CouponUsage.same_pair in Hu. apply bool_decide_eq_false in Hu.
  inversion Heq. tauto.
Qed.

Lemma place_order_keeps_usage_unique now customer_pk customer cart lines delivery
    method status txn db :
  NoDup (usage_pairs db) ->
  NoDup (usage_pairs
           (place_order now customer_pk customer cart lines delivery method status
              txn db).2).
Proof.
  intros Hnodup.
  destruct (place_order _ _ _ _ _ _ _ _ _ db) as [r db'] eqn:Hpo.
  apply place_order_usage in Hpo. cbn [snd]. unfold usage_pairs in *.
  destruct Hpo as [[_ ->] | (pk & c & _ & _ & _ & [-> | [Hdup ->]])]; auto.
  rewrite map_app. simpl. apply NoDup_app. split; [exact Hnodup|].
  split; [|apply NoDup_singleton].
  intros pair Hin Hin'. apply list_elem_of_In in Hin.
  apply list_elem_of_singleton in Hin'. subst pair.
  exact (same_pair_absent _ _ _ Hdup Hin).
Qed.

Lemma usage_bound_refl m : usage_bound m m.
Proof. intros pk c Hc. exists c. split; [exact Hc | lia]. Qed.

Lemma usage_bound_insert m pk coupon :
  m !! pk = Some coupon ->
  usage_bound m (<[pk := with_usage coupon (coupon_current_usage coupon + 1)]> m).
Proof.
  intros Hcoupon pk' c Hc.
  destruct (decide (pk = pk')) as [<-|Hne].
  - rewrite lookup_insert_eq. eexists. split; [reflexivity|].
    assert (c = coupon) by congruence. subst c. simpl. lia.
  - rewrite lookup_insert_ne by exact Hne. exists c. split; [exact Hc | lia].
Qed.

Lemma place_order_usage_bound now customer_pk customer cart lines delivery method
    status txn db :
  usage_bound (coupons db)
    (coupons (place_order now customer_pk customer cart lines delivery method status
                txn db).2).
Proof.
  destruct (place_order _ _ _ _ _ _ _ _ _ db) as [r db'] eqn:Hpo.
  apply place_order_usage in Hpo. cbn [snd].
  destruct Hpo as [[-> _] | (pk & c & _ & Hc & -> & _)].
  - apply usage_bound_refl.
  - apply usage_bound_insert. exact Hc.
Qed.

Lemma checkout_usage_bound now method customer_pk form db :
  usage_bound (coupons db) (coupons (checkout now method customer_pk form db).2).
Proof.
  destruct (checkout_effect now method customer_pk form db)
    as [-> | (customer & applied & delivery & _ & _ & ->)];
    [apply usage_bound_refl|].
  pose proof (place_order_usage_bound now customer_pk customer
                {| cart_customer := customer_pk; cart_applied_coupon := applied |}
                (Cart.cartitem_set db
                   {| cart_customer := customer_pk; cart_applied_coupon := applied |})
                delivery Cash Unpaid false db) as H.
  destruct (place_order _ _ _ _ _ _ _ _ _ db) as [[placed|e] db']; exact H.
Qed.

(** After a settlement that succeeded the cart is empty, and a second
    checkout changes nothing. *)
Lemma checkout_after_settlement now' method' form' now customer_pk customer
    applied order ac stock table method status txn db :
  customers db !! customer_pk = Some customer ->
  let cart := {| cart_customer := customer_pk; cart_applied_coupon := applied |} in
  let db1 := settled now customer_pk customer cart order ac stock table method
               status txn db in
  checkout now' method' customer_pk form' db1 = (cart_is_empty, db1).
Proof.
  intros Hcustomer cart db1.
  unfold checkout. rewrite respond_customer_required.
  assert (Hc : is_Some (customers db1 !! customer_pk)).
  { subst db1. cbn [settled customers].
    destruct (customer_is_first_time_buyer customer);
      [rewrite lookup_insert_eq | rewrite Hcustomer]; eauto. }
  destruct Hc as [customer' ->].
  unfold respond. rewrite bind_query. unfold get_cart_or_404.
  assert (Hcart : carts db1 !! customer_pk = Some None).
  { subst db1. cbn [settled carts cart_customer cart]. apply lookup_insert_eq. }
  rewrite Hcart, bind_current_db.
  assert (Hempty : Cart.cartitem_set db1
            {| cart_customer := customer_pk; cart_applied_coupon := None |} = []).
  { unfold Cart.cartitem_set. subst db1. cbn [settled cart_items cart_customer cart].
    apply filter_none. apply Forall_forall. intros item Hin.
    apply list_elem_of_filter in Hin. tauto. }
  rewrite Hempty. reflexivity.
Qed.

(** The rows that a settlement stores for lines that fit can be read
    back. *)
Lemma reserve_lines_readable db order_pk lines :
  forall stock table stock' table',
  (forall k, book_price <$> stock !! k = book_price <$> books db !! k) ->
  reserve_lines order_pk lines stock table = Some (stock', table') ->
  lines_fit db lines ->
  exists rows items,
    table' = table ++ rows /\ mapR OrderItem.from_db rows = Ok items.
Proof.
  induction lines as [|line rest IH];
    intros stock table stock' table' Hprice Hres Hfit; simpl in Hres.
  - inversion Hres; subst. exists [], []. rewrite app_nil_r. split; reflexivity.
  - destruct (stock !! cartitem_book line) as [book|] eqn:Hbook; [|discriminate].
    destruct (book_stock book >=? cartitem_quantity line); [|discriminate].
    inversion Hfit as [|? ? [_ Hline] Hrest]; subst.
    apply IH in Hres; [|
      intros k; rewrite <- Hprice;
      destruct (decide (cartitem_book line = k)) as [<-|Hne];
      [rewrite lookup_insert_eq, Hbook; reflexivity
      |rewrite lookup_insert_ne by exact Hne; reflexivity] | exact Hrest].
    destruct Hres as (rows & items & -> & Hrows).
    pose proof (Hprice (cartitem_book line)) as Hp. rewrite Hbook in Hp.
    destruct (books db !! cartitem_book line) as [book0|] eqn:Hbook0;
      [|discriminate].
    simpl in Hp. injection Hp as Hp.
    destruct (Hline book0 eq_refl) as [[u Hu] [s Hs]].
    eexists (item_row (length table) order_pk line book :: rows), _.
    rewrite <- app_assoc. split; [reflexivity|].
    simpl. unfold OrderItem.from_db at 1.
    cbn [item_row item_unit_price item_subtotal].
    rewrite Hp, Hu, Hs. cbn [rbind]. rewrite Hrows. reflexivity.
Qed.

Lemma new_order_items db stock table rows :
  orders_referenced db ->
  table = order_items db ++ rows ->
  Forall (fun row => item_order row = length (orders db)) rows ->
  Order.orderitem_set (with_stock db stock table) (length (orders db)) = rows.
Proof.
  intros (Hitems & _ & _) -> Hord. unfold Order.orderitem_set.
  cbn [with_stock order_items]. rewrite filter_app.
  rewrite filter_none, filter_all; [reflexivity | exact Hord |].
  eapply Forall_impl; [exact Hitems|]. intros row Hrow. simpl in Hrow. lia.
Qed.

(** The payment of a settlement whose lines fit can be created. *)
Lemma payment_of_defined now order method status txn db lines stock table :
  orders_referenced db ->
  reserve_lines (length (orders db)) lines (books db) (order_items db)
    = Some (stock, table) ->
  lines_fit db lines ->
  exists payment,
    payment_of now (length (orders db)) order method status txn
      (with_stock db stock table) = Ok payment.
Proof.
  intros Hwf Hres Hfit.
  destruct (reserve_lines_readable db _ _ _ _ _ _ (fun k => eq_refl) Hres Hfit)
    as (rows & items & Htable & Hread).
  destruct (reserve_lines_spec _ _ _ _ _ _ Hres) as [_ (rows' & Heq & _ & Hord & _)].
  rewrite Htable in Heq. apply app_inv_head in Heq. subst rows'.
  unfold payment_of, Order.total_amount, Order.subtotal, Order.orderitem_set_all.
  rewrite (new_order_items db stock table rows Hwf Htable Hord), Hread.
  cbn [rbind]. eauto.
Qed.

(** C2 as stated fails on a retry.  The cart holds two copies of a book of
    600000.00 with the coupon FLAT1000 applied; the subtotal of the order
    item, 1200000.00, does not fit its column of eight digits.  The
    settlement stores the order and its item, counts the coupon (3 to 4)
    and then fails when [order.total_amount] reads the item back for the
    payment; the cart and its coupon are kept.  The same request again
    counts the coupon a second time (4 to 5): two usage rows, no payment. *)
Lemma C2_retry_counts_twice :
  let db := atlas_shop in
  let first := checkout now0 POST 0 cash_form db in
  let second := checkout (now0 + 5) POST 0 cash_form first.2 in
  first.1 = flash "checkout" msg_error (ErrorCreatingOrder InvalidOperation) /\
  carts first.2 !! 0%nat = Some (Some 0%nat) /\
  cart_items first.2 = cart_items db /\
  second.1 = flash "checkout" msg_error (ErrorCreatingOrder InvalidOperation) /\
  coupon_current_usage <$> coupons db !! 0%nat = Some 3 /\
  coupon_current_usage <$> coupons first.2 !! 0%nat = Some 4 /\
  coupon_current_usage <$> coupons second.2 !! 0%nat = Some 5 /\
  usage_pairs second.2 = [(0%nat, 0%nat); (0%nat, 1%nat)] /\
  payments second.2 = [].
Proof.
  cbv zeta. repeat split; vm_compute; reflexivity.
Qed.

(** C2, amended.  At most one [CouponUsage] row exists per (coupon, order)
    pair: the uniqueness constraint rejects a second insertion for a pair,
    and settlement (cash or card) and cancellation keep the rows distinct.
    On a database with referential integrity, one run of the cash
    settlement raises no coupon counter by more than one; after a
    successful first run the cart is empty and a second run changes
    nothing, the counter of the applied coupon being exactly one more than
    before; and two runs in a row raise no counter by more than one when
    the order items of the cart's lines fit their columns, the case in
    which the payment cannot fail after the coupon was counted. *)
Theorem C2_coupon_usage_once :
  (forall now coupon customer order db,
     existsb (CouponUsage.same_pair coupon order) (coupon_usages db) = true ->
     CouponUsage.create now coupon customer order db = (Raise unique_usage, db)) /\
  (forall now method customer_pk form db,
     NoDup (usage_pairs db) ->
     NoDup (usage_pairs (checkout now method customer_pk form db).2)) /\
  (forall py_int current_year current_month now method customer_pk form db,
     NoDup (usage_pairs db) ->
     NoDup (usage_pairs
              (process_card_payment py_int current_year current_month now method
                 customer_pk form db).2)) /\
  (forall now method customer_pk order_id field db,
     NoDup (usage_pairs db) ->
     NoDup (usage_pairs (cancel_order now method customer_pk order_id field db).2)) /\
  (forall now now' customer_pk form db,
     orders_referenced db ->
     let first := checkout now POST customer_pk form db in
     let second := checkout now' POST customer_pk form first.2 in
     usage_bound (coupons db) (coupons first.2) /\
     usage_bound (coupons first.2) (coupons second.2) /\
     (forall order_id saved,
        first.1 = flash "order_history" msg_success (OrderPlaced order_id saved) ->
        second = (cart_is_empty, first.2) /\
        forall pk c,
          carts db !! customer_pk = Some (Some pk) ->
          coupons db !! pk = Some c ->
          coupon_current_usage <$> coupons second.2 !! pk
            = Some (coupon_current_usage c + 1)) /\
     (forall applied,
        carts db !! customer_pk = Some applied ->
        lines_fit db
          (Cart.cartitem_set db
             {| cart_customer := customer_pk; cart_applied_coupon := applied |}) ->
        usage_bound (coupons db) (coupons second.2))).
Proof.
  split; [|split; [|split; [|split]]].
  - intros now coupon customer order db Hdup.
    unfold CouponUsage.create. rewrite bind_current_db, Hdup. reflexivity.
  - intros now method customer_pk form db Hnodup.
    destruct (checkout_effect now method customer_pk form db)
      as [-> | (customer & applied & delivery & _ & _ & ->)]; [exact Hnodup|].
    pose proof (place_order_keeps_usage_unique now customer_pk customer
                  {| cart_customer := customer_pk; cart_applied_coupon := applied |}
                  (Cart.cartitem_set db
                     {| cart_customer := customer_pk;
                        cart_applied_coupon := applied |})
                  delivery Cash Unpaid false db Hnodup) as H.
    destruct (place_order _ _ _ _ _ _ _ _ _ db) as [[placed|e] db']; exact H.
  - intros py_int current_year current_month now method customer_pk form db Hnodup.
    destruct (process_card_payment_effect py_int current_year current_month now
                method customer_pk form db)
      as [-> | (customer & applied & delivery & _ & _ & ->)]; [exact Hnodup|].
    apply place_order_keeps_usage_unique. exact Hnodup.
  - intros now method customer_pk order_id field db Hnodup.
    unfold usage_pairs in *.
    destruct (cancel_order_usages now method customer_pk order_id field db)
      as [-> | ->]; [exact Hnodup|].
    clear -Hnodup. induction (coupon_usages db) as [|u rest IH]; [constructor|].
    simpl in Hnodup. apply NoDup_cons in Hnodup. destruct Hnodup as [Hnotin Hrest].
    destruct (decide (usage_order u <> order_id)) as [Hkeep|Hdrop].
    + rewrite filter_cons_True by exact Hkeep. simpl. apply NoDup_cons.
      split; [|exact (IH Hrest)].
      intros Hin. apply Hnotin.
      apply list_elem_of_fmap in Hin. destruct Hin as (u' & Heq & Hin).
      apply list_elem_of_filter in Hin. destruct Hin as [_ Hin].
      apply list_elem_of_fmap. exists u'. split; assumption.
    + rewrite filter_cons_False by exact Hdrop. exact (IH Hrest).
  - intros now now' customer_pk form db Hwf first second.
    subst second first.
    split; [apply checkout_usage_bound|]. split; [apply checkout_usage_bound|].
    destruct (checkout_effect now POST customer_pk form db)
      as [Hsame | (customer & applied & delivery & Hcustomer & Hcart & Hrun)].
    { split.
      - intros order_id saved Hplaced.
        destruct (checkout now POST customer_pk form db) as [r1 db1] eqn:Hfirst.
        simpl in Hsame, Hplaced. subst db1 r1.
        apply checkout_placed in Hfirst.
        destruct Hfirst as (customer & applied & delivery & order & Hcustomer & Hcart
                            & _ & Hpo).
        pose proof (place_order_key _ _ _ _ _ _ _ _ _ _ _ _ _ Hwf Hpo) as Hkey.
        exfalso.
        pose proof (place_order_outcome now customer_pk customer
                      {| cart_customer := customer_pk;
                         cart_applied_coupon := applied |}
                      (Cart.cartitem_set db
                         {| cart_customer := customer_pk;
                            cart_applied_coupon := applied |})
                      delivery Cash Unpaid false db Hwf) as Hout.
        destruct (new_order _ _ _ _ db) as [[o ac]|]; [|congruence].
        destruct (reserve_lines _ _ _ _) as [[s t]|];
          [|destruct Hout as (? & ? & ? & _); congruence].
        destruct (payment_of _ _ _ _ _ _ _) as [payment|]; [|congruence].
        rewrite Hout in Hpo. inversion Hpo as [[Hk Ho Hdb]].
        apply (f_equal (fun d => length (orders d))) in Hdb.
        cbn [settled orders] in Hdb. rewrite length_app in Hdb. simpl in Hdb. lia.
      - intros applied _ _.
        destruct (checkout now POST customer_pk form db) as [r1 db1].
        simpl in Hsame. subst db1. cbn [snd]. apply checkout_usage_bound. }
    cbv zeta in Hrun. rewrite Hrun.
    pose proof (place_order_outcome now customer_pk customer
                  {| cart_customer := customer_pk; cart_applied_coupon := applied |}
                  (Cart.cartitem_set db
                     {| cart_customer := customer_pk;
                        cart_applied_coupon := applied |})
                  delivery Cash Unpaid false db Hwf) as Hout.
    destruct (new_order _ _ _ _ db) as [[order ac]|e] eqn:Hnew.
    + destruct (reserve_lines _ _ _ _) as [[stock table]|] eqn:Hres.
      * destruct (payment_of now (length (orders db)) order Cash Unpaid false
                    (with_stock db stock table)) as [payment|e] eqn:Hpayment.
        -- rewrite Hout. cbn [fst snd].
           rewrite (checkout_after_settlement now' POST form now customer_pk
                      customer applied order ac stock table Cash Unpaid false db
                      Hcustomer).
           cbn [snd].
           pose proof (new_order_fields _ _ _ _ _ _ _ Hnew)
             as (_ & _ & _ & _ & _ & Hac).
           apply applied_coupon_instance in Hac.
           split.
           ++ intros order_id saved _. split; [reflexivity|].
              intros pk c Hpk Hc. cbn [settled coupons].
              assert (applied = Some pk) by congruence. subst applied.
              destruct ac as [[pk' c']|]; simpl in Hac; [|discriminate].
              destruct Hac as [Hpk' Hc']. inversion Hpk'; subst pk'.
              assert (c' = c) by congruence. subst c'.
              rewrite lookup_insert_eq. reflexivity.
           ++ intros applied' _ _. cbn [settled coupons].
              destruct ac as [[pk c]|];
                [apply usage_bound_insert; tauto | apply usage_bound_refl].
        -- rewrite Hout. cbn [fst snd]. split.
           ++ intros order_id saved Hplaced. discriminate.
           ++ intros applied' Hcart' Hfit. exfalso.
              assert (applied' = applied) by congruence. subst applied'.
              destruct (payment_of_defined now order Cash Unpaid false db _ _ _
                          Hwf Hres Hfit) as [payment Hok].
              congruence.
      * destruct Hout as (e & db' & Hraise & Hsame). rewrite Hraise. cbn [fst snd].
        destruct Hsame as (_ & Hcoupons & _).
        cbn [coupons set_orders] in Hcoupons.
        split.
        -- intros order_id saved Hplaced. discriminate.
        -- intros applied' _ _. rewrite <- Hcoupons. apply checkout_usage_bound.
    + rewrite Hout. cbn [fst snd]. split.
      * intros order_id saved Hplaced. discriminate.
      * intros applied' _ _. apply checkout_usage_bound.
Qed.

Lemma shop_lines_fit lines applied :
  Forall (fun line => (cartitem_quantity line <= 100)%Z
                      /\ (0 <= cartitem_quantity line)%Z) lines ->
  lines_fit (shop lines applied) lines.
Proof.
  intros Hall. eapply Forall_impl; [exact Hall|].
  intros line [Hhigh Hlow]. split; [exact Hlow|]. intros b Hb. simpl in Hb.
  assert (Hq : exists q, cartitem_quantity line = q /\ 0 <= q <= 100) by eauto.
  destruct Hq as (q & -> & Hq).
  assert (Hcases : forall n, 0 <= n <= 100 ->
            forall P : Z -> Prop,
            (forall k, In k (map Z.of_nat (seq 0 101)) -> P k) -> P n).
  { intros n Hn P HP. apply HP. apply in_map_iff. exists (Z.to_nat n).
    split; [lia|]. apply in_seq. lia. }
  repeat (apply lookup_insert_Some in Hb;
          destruct Hb as [[_ <-] | [_ Hb]];
          [apply (Hcases q Hq); intros k Hk; simpl in Hk;
           repeat (destruct Hk as [<- | Hk];
                   [split; eexists; vm_compute; reflexivity|]);
           destruct Hk|]).
  rewrite lookup_empty in Hb. discriminate.
Qed.

(** Two checkouts in a row of the eight-item cart with the fixed coupon:
    the second finds the cart empty and the counter went from 3 to 4. *)
Lemma C2_coupon_usage_once_witness :
  let db := shop eight_items (Some 0%nat) in
  let first := checkout now0 POST 0 cash_form db in
  let second := checkout (now0 + 5) POST 0 cash_form first.2 in
  second = (cart_is_empty, first.2) /\
  coupon_current_usage <$> coupons db !! 0%nat = Some 3 /\
  coupon_current_usage <$> coupons second.2 !! 0%nat = Some 4 /\
  usage_pairs second.2 = [(0%nat, 0%nat)] /\
  usage_bound (coupons db) (coupons second.2).
Proof.
  cbv zeta.
  destruct C2_coupon_usage_once as (_ & _ & _ & _ & Hretry).
  assert (Hwf : orders_referenced (shop eight_items (Some 0%nat))).
  { repeat split; constructor. }
  destruct (Hretry now0 (now0 + 5) 0%nat cash_form (shop eight_items (Some 0%nat))
              Hwf) as (_ & _ & Hplaced & Hbound).
  assert (Hfirst : exists saved,
            (checkout now0 POST 0 cash_form (shop eight_items (Some 0%nat))).1
            = flash "order_history" msg_success (OrderPlaced 0 saved)).
  { eexists. vm_compute. reflexivity. }
  destruct Hfirst as [saved Hfirst].
  destruct (Hplaced 0%nat saved Hfirst) as [Hsecond Hcount].
  split; [exact Hsecond|]. split; [reflexivity|].
  split; [|split].
  - apply (Hcount 0%nat (coupon "FLAT1000" fixed 1000.00%Q 3)); reflexivity.
  - rewrite Hsecond. vm_compute. reflexivity.
  - apply (Hbound (Some 0%nat)); [reflexivity|].
    apply (shop_lines_fit eight_items (Some 0%nat)).
    repeat constructor; simpl; lia.
Defined.

(** * Further properties of the code *)

(** ** [Coupon.is_valid] *)

(** X1. A coupon is valid exactly when it is active, its usage count is
    below [max_usage] and the clock has not passed [expiry_date]; the
    checks run in that order and the first that fails gives the reason. *)
Theorem Coupon_is_valid_reasons now c :
  ((Coupon.is_valid now c).1 = true <->
   coupon_is_active c = true /\ coupon_current_usage c < coupon_max_usage c /\
   now <= coupon_expiry_date c) /\
  (coupon_is_active c = false ->
   Coupon.is_valid now c = (false, "This coupon is inactive")) /\
  (coupon_is_active c = true -> coupon_max_usage c <= coupon_current_usage c ->
   Coupon.is_valid now c = (false, "Coupon usage limit reached")) /\
  (coupon_is_active c = true -> coupon_current_usage c < coupon_max_usage c ->
   coupon_expiry_date c < now ->
   Coupon.is_valid now c = (false, "This coupon has expired")).
Proof.
  unfold Coupon.is_valid.
  destruct (coupon_is_active c); cbn [negb];
    destruct (Z.geb_spec (coupon_current_usage c) (coupon_max_usage c));
    destruct (Z.gtb_spec now (coupon_expiry_date c)); simpl;
    repeat split; intros; try reflexivity; try discriminate; try lia;
    repeat match goal with H : _ /\ _ |- _ => destruct H end;
    try discriminate; try lia.
Qed.

(** An exhausted coupon is refused for its usage limit even when it has
    also expired. *)
Lemma Coupon_is_valid_reasons_witness :
  Coupon.is_valid 3000000000 (coupon "FLAT1000" fixed 1000.00%Q 100)
  = (false, "Coupon usage limit reached").
Proof.
  apply (Coupon_is_valid_reasons 3000000000
           (coupon "FLAT1000" fixed 1000.00%Q 100)); [reflexivity | simpl; lia].
Defined.

(** ** The Luhn check *)

Lemma luhn_total_acc l i total : luhn_total l i total = total + luhn_total l i 0.
Proof.
  revert i total. induction l as [|d l IH]; intros i total; simpl; [lia|].
  rewrite IH. rewrite (IH (S i) (0 + _)). lia.
Qed.

Lemma luhn_total_app l1 l2 i total :
  luhn_total (l1 ++ l2) i total
  = luhn_total l2 (i + length l1) (luhn_total l1 i total).
Proof.
  revert i total. induction l1 as [|d l1 IH]; intros i total; simpl.
  - rewrite Nat.add_0_r. reflexivity.
  - rewrite IH. f_equal. lia.
Qed.

Lemma rev_chars_acc s acc : rev_chars s acc = rev_chars s [] ++ acc.
Proof.
  revert acc. induction s as [|c s IH]; intros acc; simpl; [reflexivity|].
  rewrite IH. rewrite (IH [c]). rewrite <- app_assoc. reflexivity.
Qed.

Lemma rev_chars_append s1 s2 acc :
  rev_chars (String.append s1 s2) acc = rev_chars s2 (rev_chars s1 acc).
Proof.
  revert acc. induction s1 as [|c s1 IH]; intros acc; simpl; [reflexivity|].
  apply IH.
Qed.

Lemma digit_range c : is_digit c = true -> 0 <= int_of_digit c <= 9.
Proof.
  unfold is_digit, int_of_digit. intros H.
  apply andb_true_iff in H. destruct H as [H1 H2].
  apply Nat.leb_le in H1. apply Nat.leb_le in H2. lia.
Qed.

Lemma int_of_digit_inj c c' :
  int_of_digit c = int_of_digit c' -> c = c'.
Proof.
  unfold int_of_digit, code_of. intros H.
  assert (Hn : nat_of_ascii c = nat_of_ascii c') by lia.
  rewrite <- (ascii_nat_embedding c), <- (ascii_nat_embedding c'), Hn.
  reflexivity.
Qed.

Lemma luhn_weight_differs i d d' :
  is_digit d = true -> is_digit d' = true -> d <> d' ->
  (luhn_weight i d - luhn_weight i d') mod 10 <> 0.
Proof.
  intros Hd Hd' Hne.
  pose proof (digit_range d Hd) as Hr. pose proof (digit_range d' Hd') as Hr'.
  assert (Hv : int_of_digit d <> int_of_digit d').
  { intros Heq. apply Hne. apply int_of_digit_inj. exact Heq. }
  unfold luhn_weight. simpl.
  destruct (Nat.odd i);
    repeat match goal with
    | |- context [(?a >? ?b)] => destruct (Z.gtb_spec a b)
    end;
    intros Hmod; apply Z.mod_divide in Hmod; try lia;
    destruct Hmod as [k Hk]; lia.
Qed.

(** X2. The Luhn check detects every single-digit error: if a number
    passes, the number obtained by replacing one of its digits by another
    digit fails. *)
Theorem luhn_check_single_digit_error s1 d d' s2 :
  is_digit d = true -> is_digit d' = true -> d <> d' ->
  luhn_check (String.append s1 (String d s2)) = true ->
  luhn_check (String.append s1 (String d' s2)) = false.
Proof.
  intros Hd Hd' Hne. unfold luhn_check.
  rewrite !rev_chars_append. simpl rev_chars.
  rewrite (rev_chars_acc s2 (d :: _)), (rev_chars_acc s2 (d' :: _)).
  rewrite !luhn_total_app. simpl luhn_total.

  set (i := length (rev_chars s2 [])).
  set (A := luhn_total (rev_chars s2 []) 0 0).
  rewrite (luhn_total_acc (rev_chars s1 []) (S i) (A + _)).
  rewrite (luhn_total_acc (rev_chars s1 []) (S i) (A + _)).
  set (B := luhn_total (rev_chars s1 []) (S i) 0).
  pose proof (luhn_weight_differs i d d' Hd Hd' Hne) as Hw.
  unfold luhn_weight in Hw. simpl in Hw.
  intros Hok. apply Z.eqb_eq in Hok. apply Z.eqb_neq. intros Hok'.
  apply Hw. apply Z.mod_divide in Hok; [|lia]. apply Z.mod_divide in Hok'; [|lia].
  apply Z.mod_divide; [lia|].
  destruct Hok as [k Hk]. destruct Hok' as [k' Hk'].
  exists (k - k'). lia.
Qed.

(** The test number 4111 1111 1111 1111 with its last digit changed. *)
Lemma luhn_check_single_digit_error_witness :
  luhn_check "4111111111111111" = true /\
  luhn_check "4111111111111117" = false.
Proof.
  split; [reflexivity|].
  apply (luhn_check_single_digit_error "411111111111111" "1" "7" "");
    [reflexivity | reflexivity | discriminate | reflexivity].
Defined.

(** ** Card number, expiry date *)

Lemma remove_spaces_append s1 s2 :
  remove_spaces (String.append s1 s2)
  = String.append (remove_spaces s1) (remove_spaces s2).
Proof.
  induction s1 as [|c s1 IH]; simpl; [reflexivity|].
  destruct (Ascii.eqb c " "); simpl; rewrite IH; reflexivity.
Qed.

Lemma all_chars_digits_no_space s :
  all_chars is_digit s = true -> remove_spaces s = s.
Proof.
  induction s as [|c s IH]; simpl; [reflexivity|].
  intros H. apply andb_true_iff in H. destruct H as [Hc Hs].
  destruct (Ascii.eqb_spec c " ") as [->|_]; [discriminate|].
  rewrite (IH Hs). reflexivity.
Qed.

(** X3. [validate_card_number] ignores spaces wherever they stand, and a
    number it accepts consists, spaces removed, of 13 to 19 decimal digits
    (the digits 0 to 9: a superscript digit makes the validation raise)
    that pass the Luhn check. *)
Theorem validate_card_number_spaces s1 s2 :
  validate_card_number (String.append s1 (String " " s2))
    = validate_card_number (String.append s1 s2) /\
  (forall message,
     validate_card_number (String.append s1 s2) = Ok (true, message) ->
     let digits := remove_spaces (String.append s1 s2) in
     all_chars is_digit digits = true /\
     (13 <= String.length digits <= 19)%nat /\
     luhn_check digits = true /\
     validate_card_number digits = Ok (true, "Valid")).
Proof.
  split.
  - unfold validate_card_number. rewrite !remove_spaces_append. reflexivity.
  - intros message Hok digits. unfold validate_card_number in *.
    fold digits in Hok.
    destruct (isdigit digits) eqn:Hd; [|discriminate Hok]. cbn [negb] in Hok.
    destruct (Nat.ltb_spec (String.length digits) 13) as [|H13];
      [discriminate Hok|].
    destruct (Nat.ltb_spec 19 (String.length digits)) as [|H19];
      [discriminate Hok|].
    cbn [orb] in Hok.
    destruct (all_chars is_digit digits) eqn:Hall; [|discriminate Hok].
    cbn [negb] in Hok.
    destruct (luhn_check digits) eqn:Hluhn; [|discriminate Hok].
    rewrite (all_chars_digits_no_space _ Hall), Hd. cbn [negb].
    destruct (Nat.ltb_spec (String.length digits) 13); [lia|].
    destruct (Nat.ltb_spec 19 (String.length digits)); [lia|].
    cbn [orb]. rewrite Hall, Hluhn. repeat split; auto; lia.
Qed.

(** The grouped and the plain form of the test number are both accepted. *)
Lemma validate_card_number_spaces_witness :
  validate_card_number "4111 1111 1111 1111" = Ok (true, "Valid") /\
  validate_card_number "41111111 11111111" = Ok (true, "Valid") /\
  all_chars is_digit "4111111111111111" = true.
Proof.
  destruct (validate_card_number_spaces "4111" "111111111111") as [H1 _].
  destruct (validate_card_number_spaces "41111111" "11111111") as [H2 Hdigits].
  split; [reflexivity|]. split; [exact (eq_trans H2 eq_refl)|].
  exact (proj1 (Hdigits "Valid" eq_refl)).
Defined.

(** X4. For texts that [int] accepts, [validate_expiry_date] accepts
    exactly the months 1 to 12 of a year that, once a year below 100 is
    moved into the current century, is the current year with a month not
    before the current one, or a later year.  Text that [int] rejects is an
    invalid format. *)
Theorem validate_expiry_date_accepts py_int current_year current_month
    month year m y :
  py_int month = Some m -> py_int year = Some y ->
  let full_year := if y <? 100 then current_year / 100 * 100 + y else y in
  ((validate_expiry_date py_int current_year current_month month year).1 = true <->
   1 <= m <= 12 /\
   (current_year < full_year \/
    (full_year = current_year /\ current_month <= m))) /\
  (forall text,
     py_int text = None ->
     validate_expiry_date py_int current_year current_month text year
       = (false, "Invalid expiry format") /\
     validate_expiry_date py_int current_year current_month month text
       = (false, "Invalid expiry format")).
Proof.
  intros Hm Hy full_year. split.
  - unfold validate_expiry_date. rewrite Hm, Hy. fold full_year.
    destruct (Z.ltb_spec m 1); destruct (Z.gtb_spec m 12); simpl;
      try (split; [discriminate | lia]).
    destruct (Z.ltb_spec full_year current_year); simpl;
      [split; [discriminate | lia]|].
    destruct (Z.eqb_spec full_year current_year);
      destruct (Z.ltb_spec m current_month); simpl;
      split; intros; try discriminate; try reflexivity; lia.
  - intros text Htext. unfold validate_expiry_date. rewrite Htext, Hm.
    split; [reflexivity|]. reflexivity.
Qed.

(** In November 2026 the card 11/26 is accepted and 10/26 has expired. *)
Lemma validate_expiry_date_accepts_witness :
  (validate_expiry_date decimal_int 2026 11 "11" "26").1 = true /\
  (validate_expiry_date decimal_int 2026 11 "10" "26").1 <> true.
Proof.
  destruct (validate_expiry_date_accepts decimal_int 2026 11 "11" "26" 11 26
              eq_refl eq_refl) as [H11 _].
  destruct (validate_expiry_date_accepts decimal_int 2026 11 "10" "26" 10 26
              eq_refl eq_refl) as [H10 _].
  split.
  - apply H11. split; [lia|]. right. split; [reflexivity | lia].
  - intros H. apply H10 in H.
    destruct H as [_ [H | [_ H]]]; [vm_compute in H; discriminate | lia].
Defined.

(** ** Stock through settlement *)

Lemma same_catalog_refl bs : same_catalog bs bs.
Proof. intros k. split; reflexivity. Qed.

Lemma same_catalog_trans bs1 bs2 bs3 :
  same_catalog bs1 bs2 -> same_catalog bs2 bs3 -> same_catalog bs1 bs3.
Proof.
  intros H12 H23 k. destruct (H12 k) as [Ht Hp]. destruct (H23 k) as [Ht' Hp'].
  split; congruence.
Qed.

Lemma create_order_items_stock order_pk lines db r db' :
  for_each lines (create_order_item order_pk) db = (r, db') ->
  same_catalog (books db) (books db') /\
  (stock_nonneg (books db) -> stock_nonneg (books db')).
Proof.
  revert db. induction lines as [|line rest IH]; intros db; simpl.
  - intros [= <- <-]. split; [apply same_catalog_refl | auto].
  - unfold bind. rewrite create_order_item_spec.
    destruct (books db !! cartitem_book line) as [book|] eqn:Hbook.
    2:{ intros [= <- <-]. split; [apply same_catalog_refl | auto]. }
    destruct (Z.geb_spec (book_stock book) (cartitem_quantity line)).
    2:{ intros [= <- <-]. split; [apply same_catalog_refl | auto]. }
    intros Hrest. apply IH in Hrest. cbn [books with_stock] in Hrest.
    destruct Hrest as [Hcat Hnn]. split.
    + eapply same_catalog_trans; [|exact Hcat].
      intros k. destruct (decide (cartitem_book line = k)) as [<-|Hne].
      * rewrite lookup_insert_eq, Hbook. split; reflexivity.
      * rewrite lookup_insert_ne by exact Hne. split; reflexivity.
    + intros Hdb. apply Hnn. intros k b.
      destruct (decide (cartitem_book line = k)) as [<-|Hne].
      * rewrite lookup_insert_eq. intros [= <-]. simpl. lia.
      * rewrite lookup_insert_ne by exact Hne. apply Hdb.
Qed.

(** The books after a settlement are those that its loop over the cart
    lines left. *)
Lemma place_order_books now customer_pk customer cart lines delivery method status
    txn db r db' :
  place_order now customer_pk customer cart lines delivery method status txn db
    = (r, db') ->
  same_catalog (books db) (books db') /\
  (stock_nonneg (books db) -> stock_nonneg (books db')).
Proof.
  unfold place_order. rewrite bind_query.
  destruct (new_order now customer_pk cart delivery db) as [[order ac]|e].
  2:{ intros [= <- <-]. split; [apply same_catalog_refl | auto]. }
  cbn [fst snd]. unfold Order.create.
  rewrite bind_bind, bind_current_db, bind_bind, bind_update, bind_ret.
  unfold bind at 1.
  destruct (for_each lines _ _) as [r1 db1] eqn:Hloop.
  apply create_order_items_stock in Hloop. cbn [books set_orders] in Hloop.
  destruct r1 as [[]|e]; [|intros [= <- <-]; exact Hloop].
  assert (Htail : forall dbx r db',
    (run when (customer_is_first_time_buyer customer)
           (update (set_customers (insert customer_pk (first_purchase_done customer))));
     do payment <- query (payment_of now (length (orders db)) order method status
                            txn);
     run Payment.create payment order;
     run update (set_cart_items
           (filter (fun item => cartitem_cart item <> cart_customer cart)));
     run Cart_save {| cart_customer := cart_customer cart;
                      cart_applied_coupon := None |};
     ret (length (orders db), order)) dbx = (r, db') ->
    books db' = books dbx).
  { intros dbx r' dbx'. unfold when, bind at 1.
    destruct (customer_is_first_time_buyer customer);
      unfold update at 1, ret at 1; rewrite bind_query;
      (destruct (payment_of _ _ _ _ _ _ _) as [payment|e];
       [|intros [= <- <-]; split; reflexivity]);
      unfold bind at 1; rewrite Payment_create_spec;
      destruct (existsb _ _);
      try (intros [= <- <-]; reflexivity);
      unfold Payment.update_order_status;
      destruct (payment_status _); destruct (order_status order);
      intros [= <- <-]; reflexivity. }
  unfold bind at 1. rewrite update_coupon_usage_spec.
  destruct ac as [[pk coupon]|].
  - cbv zeta. destruct (existsb _ _).
    + intros [= <- <-]. exact Hloop.
    + intros Hrest. apply Htail in Hrest. rewrite Hrest. exact Hloop.
  - intros Hrest. apply Htail in Hrest. rewrite Hrest. exact Hloop.
Qed.

(** X6. Whatever its outcome, a settlement (cash or card) never makes the
    stock of a book negative and never adds, removes, renames or re-prices
    a book. *)
Theorem settlement_keeps_stock_nonneg :
  (forall now method customer_pk form db,
     let db' := (checkout now method customer_pk form db).2 in
     same_catalog (books db) (books db') /\
     (stock_nonneg (books db) -> stock_nonneg (books db'))) /\
  (forall py_int current_year current_month now method customer_pk form db,
     let db' := (process_card_payment py_int current_year current_month now method
                   customer_pk form db).2 in
     same_catalog (books db) (books db') /\
     (stock_nonneg (books db) -> stock_nonneg (books db'))).
Proof.
  split.
  - intros now method customer_pk form db. cbv zeta.
    destruct (checkout_effect now method customer_pk form db)
      as [-> | (customer & applied & delivery & _ & _ & ->)];
      [split; [apply same_catalog_refl | auto]|].
    destruct (place_order _ _ _ _ _ _ _ _ _ db) as [[placed|e] db'] eqn:Hpo;
      apply place_order_books in Hpo; exact Hpo.
  - intros py_int current_year current_month now method customer_pk form db.
    cbv zeta.
    destruct (process_card_payment_effect py_int current_year current_month now
                method customer_pk form db)
      as [-> | (customer & applied & delivery & _ & _ & ->)];
      [split; [apply same_catalog_refl | auto]|].
    destruct (place_order _ _ _ _ _ _ _ _ _ db) as [r db'] eqn:Hpo.
    apply place_order_books in Hpo. exact Hpo.
Qed.

(** The five-line cart that stops at its third line: no stock is negative
    afterwards. *)
Lemma settlement_keeps_stock_nonneg_witness :
  stock_nonneg (books (checkout now0 POST 0 cash_form (shop five_lines None)).2).
Proof.
  destruct settlement_keeps_stock_nonneg as [Hcash _].
  apply (Hcash now0 POST 0%nat cash_form (shop five_lines None)).
  intros k b Hb. simpl in Hb.
  repeat (apply lookup_insert_Some in Hb;
          destruct Hb as [[_ <-] | [_ Hb]]; [simpl; lia|]).
  rewrite lookup_empty in Hb. discriminate.
Defined.

(** ** A settlement that succeeds *)

Lemma new_order_reads now customer_pk cart delivery db order ac :
  new_order now customer_pk cart delivery db = Ok (order, ac) ->
  Cart.shipping_fee db cart = Ok (order_shipping_fee order) /\
  Cart.coupon_discount now db cart = Ok (order_coupon_discount order) /\
  Cart.order_value_discount db cart = Ok (order_order_value_discount order) /\
  Cart.first_time_discount db cart = Ok (order_first_time_discount order).
Proof.
  unfold new_order. intros H.
  destruct (Cart.shipping_fee db cart); [|discriminate].
  destruct (Cart_applied_coupon cart db); [|discriminate].
  destruct (Cart.coupon_discount now db cart); [|discriminate].
  destruct (Cart.order_value_discount db cart); [|discriminate].
  destruct (Cart.first_time_discount db cart); [|discriminate].
  simpl in H. inversion H; subst. simpl. repeat split.
Qed.

Lemma mapR_Ok_Forall {A B} (f : A -> Result B) (l : list A) :
  Forall (fun x => exists y, f x = Ok y) l -> exists ys, mapR f l = Ok ys.
Proof.
  induction 1 as [|x l [y Hy] _ [ys IH]]; simpl; [eauto|].
  rewrite Hy, IH. simpl. eauto.
Qed.

(** The pricing reads succeed when the books of the cart lines, the
    customer of the cart and the applied coupon exist. *)
Lemma new_order_defined now customer_pk cart delivery db :
  Forall (fun line => is_Some (books db !! cartitem_book line))
    (Cart.cartitem_set db cart) ->
  is_Some (customers db !! cart_customer cart) ->
  (forall pk, cart_applied_coupon cart = Some pk -> is_Some (coupons db !! pk)) ->
  exists order ac, new_order now customer_pk cart delivery db = Ok (order, ac).
Proof.
  intros Hbooks [customer Hcustomer] Hcoupon.
  assert (Hsub : exists S, Cart.subtotal db cart = Ok S).
  { unfold Cart.subtotal.
    destruct (mapR_Ok_Forall (CartItem.subtotal db) (Cart.cartitem_set db cart))
      as [ys Hys].
    - eapply Forall_impl; [exact Hbooks|]. intros line [b Hb]. simpl.
      unfold CartItem.subtotal, get_book. rewrite Hb. simpl. eauto.
    - rewrite Hys. simpl. eauto. }
  destruct Hsub as [S HS].
  unfold new_order.
  rewrite (shipping_fee_of_subtotal _ _ _ HS). cbn [rbind].
  assert (Hac : exists ac, Cart_applied_coupon cart db = Ok ac
                  /\ exists cd, Cart.coupon_discount now db cart = Ok cd).
  { unfold Cart_applied_coupon, Cart.coupon_discount, get_coupon.
    destruct (cart_applied_coupon cart) as [pk|]; [|eauto].
    destruct (Hcoupon pk eq_refl) as [c ->]. simpl.
    eexists. split; [reflexivity|].
    destruct (Coupon.is_valid now c) as [[|] msg]; [|eauto].
    rewrite HS. simpl. destruct (Qge_bool _ _); eauto. }
  destruct Hac as (ac & -> & cd & ->). cbn [rbind].
  rewrite (order_value_discount_of_subtotal _ _ _ HS). cbn [rbind].
  unfold Cart.first_time_discount, get_customer. rewrite Hcustomer. cbn [rbind].
  destruct (customer_is_first_time_buyer customer); [rewrite HS|]; simpl; eauto.
Qed.

(** Lines on distinct books can all be reserved when each book has the
    stock that its line asks for. *)
Lemma reserve_lines_defined order_pk lines stock table :
  NoDup (map cartitem_book lines) ->
  Forall (fun line => exists b, stock !! cartitem_book line = Some b
                                /\ cartitem_quantity line <= book_stock b) lines ->
  exists stock' table', reserve_lines order_pk lines stock table = Some (stock', table').
Proof.
  revert stock table. induction lines as [|line rest IH]; intros stock table Hnd Hall.
  - simpl. eauto.
  - simpl in Hnd. apply NoDup_cons in Hnd. destruct Hnd as [Hnotin Hnd].
    inversion Hall as [|? ? (b & Hb & Hq) Hrest]; subst.
    simpl. rewrite Hb.
    destruct (Z.geb_spec (book_stock b) (cartitem_quantity line)); [|lia].
    apply IH; [exact Hnd|].
    apply Forall_forall. intros l Hl.
    rewrite Forall_forall in Hrest. destruct (Hrest l Hl) as (b' & Hb' & Hq').
    exists b'. split; [|exact Hq'].
    rewrite lookup_insert_ne; [exact Hb'|].
    intros Heq. apply Hnotin. rewrite Heq.
    apply list_elem_of_fmap. exists l. split; [reflexivity | exact Hl].
Qed.

(** The subtotals of the rows that a settlement stores are those of the
    cart lines. *)
Lemma reserve_lines_subtotals db order_pk lines :
  forall stock table stock' table',
  (forall k, book_price <$> stock !! k = book_price <$> books db !! k) ->
  reserve_lines order_pk lines stock table = Some (stock', table') ->
  exists rows,
    table' = table ++ rows /\
    mapR (CartItem.subtotal db) lines = Ok (map item_subtotal rows).
Proof.
  induction lines as [|line rest IH]; intros stock table stock' table' Hprice Hres;
    simpl in Hres.
  - inversion Hres; subst. exists []. rewrite app_nil_r. split; reflexivity.
  - destruct (stock !! cartitem_book line) as [book|] eqn:Hbook; [|discriminate].
    destruct (book_stock book >=? cartitem_quantity line); [|discriminate].
    apply IH in Hres.
    + destruct Hres as (rows & -> & Hrows).
      exists (item_row (length table) order_pk line book :: rows).
      rewrite <- app_assoc. split; [reflexivity|].
      simpl. unfold CartItem.subtotal at 1, get_book.
      pose proof (Hprice (cartitem_book line)) as Hp. rewrite Hbook in Hp.
      destruct (books db !! cartitem_book line) as [book0|]; [|discriminate].
      simpl in Hp. inversion Hp as [Hp']. simpl. rewrite Hrows. simpl.
      rewrite Hp'. reflexivity.
    + intros k. rewrite <- Hprice.
      destruct (decide (cartitem_book line = k)) as [<-|Hne].
      * rewrite lookup_insert_eq, Hbook. reflexivity.
      * rewrite lookup_insert_ne by exact Hne. reflexivity.
Qed.

Lemma payment_of_fields now order_pk order method status txn db payment :
  payment_of now order_pk order method status txn db = Ok payment ->
  payment_order payment = order_pk /\
  payment_method payment = method /\
  payment_status payment = status /\
  payment_transaction_id payment = (if txn then Some (order_pk, now) else None).
Proof.
  unfold payment_of. destruct (Order.total_amount db order_pk order); [|discriminate].
  intros [= <-]. repeat split.
Qed.

(** A settlement of a cart in stock comes to the creation of the payment. *)
Lemma place_order_in_stock now customer_pk customer cart delivery method status
    txn db :
  customers db !! customer_pk = Some customer ->
  cart_customer cart = customer_pk ->
  cart_in_stock db cart ->
  orders_referenced db ->
  exists order ac stock table,
    new_order now customer_pk cart delivery db = Ok (order, ac) /\
    reserve_lines (length (orders db)) (Cart.cartitem_set db cart) (books db)
      (order_items db) = Some (stock, table) /\
    place_order now customer_pk customer cart (Cart.cartitem_set db cart) delivery
      method status txn db
    = match payment_of now (length (orders db)) order method status txn
              (with_stock db stock table) with
      | Ok _ =>
          (Ok (length (orders db), order),
           settled now customer_pk customer cart order ac stock table method
             status txn db)
      | Raise e =>
          (Raise e, redeemed now customer_pk customer order ac stock table db)
      end.
Proof.
  intros Hcustomer Hcart (Hne & Hnd & Hall & Hcoupon) Hwf.
  destruct (new_order_defined now customer_pk cart delivery db)
    as (order & ac & Hnew).
  { eapply Forall_impl; [exact Hall|]. intros line (b & Hb & _). eauto. }
  { rewrite Hcart. eauto. }
  { exact Hcoupon. }
  destruct (reserve_lines_defined (length (orders db)) _ (books db) (order_items db)
              Hnd Hall) as (stock & table & Hres).
  exists order, ac, stock, table.
  split; [exact Hnew|]. split; [exact Hres|].
  pose proof (place_order_outcome now customer_pk customer cart
                (Cart.cartitem_set db cart) delivery method status txn db Hwf)
    as Hout.
  rewrite Hnew, Hres in Hout. exact Hout.
Qed.

(** A settlement of a cart in stock whose order items fit their columns
    runs to its end. *)
Lemma place_order_succeeds now customer_pk customer cart delivery method status
    txn db :
  customers db !! customer_pk = Some customer ->
  cart_customer cart = customer_pk ->
  cart_in_stock db cart ->
  lines_fit db (Cart.cartitem_set db cart) ->
  orders_referenced db ->
  exists order ac stock table payment,
    new_order now customer_pk cart delivery db = Ok (order, ac) /\
    reserve_lines (length (orders db)) (Cart.cartitem_set db cart) (books db)
      (order_items db) = Some (stock, table) /\
    payment_of now (length (orders db)) order method status txn
      (with_stock db stock table) = Ok payment /\
    place_order now customer_pk customer cart (Cart.cartitem_set db cart) delivery
      method status txn db
    = (Ok (length (orders db), order),
       settled now customer_pk customer cart order ac stock table method status
         txn db).
Proof.
  intros Hcustomer Hcart Hstock Hfit Hwf.
  destruct (place_order_in_stock now customer_pk customer cart delivery method
              status txn db Hcustomer Hcart Hstock Hwf)
    as (order & ac & stock & table & Hnew & Hres & Hout).
  destruct (payment_of_defined now order method status txn db _ _ _ Hwf Hres Hfit)
    as [payment Hpayment].
  exists order, ac, stock, table, payment.
  split; [exact Hnew|]. split; [exact Hres|]. split; [exact Hpayment|].
  rewrite Hpayment in Hout. exact Hout.
Qed.

Lemma process_card_payment_valid py_int current_year current_month now customer_pk
    form db customer applied :
  card_form_valid py_int current_year current_month form ->
  customers db !! customer_pk = Some customer ->
  carts db !! customer_pk = Some applied ->
  let cart := {| cart_customer := customer_pk; cart_applied_coupon := applied |} in
  Cart.cartitem_set db cart <> [] ->
  process_card_payment py_int current_year current_month now POST customer_pk
    form db =
  match place_order now customer_pk customer cart (Cart.cartitem_set db cart)
          (card_delivery form) Card Paid true db with
  | (Ok placed, db') =>
      (JsonResponse true (Text "Payment processed successfully!") (Some placed.1),
       db')
  | (Raise e, db') => (JsonResponse false (ErrorProcessingPayment e) None, db')
  end.
Proof.
  intros (Hpresent & Hnumber & Hexpiry & Hcvv & Hholder) Hcustomer Hcart cart Hlines.
  unfold process_card_payment. rewrite respond_customer_required, Hcustomer.
  cbn [is_post negb]. unfold respond. rewrite bind_query. unfold get_cart_or_404.
  rewrite Hcart. fold cart. rewrite bind_current_db.
  destruct (Cart.cartitem_set db cart) as [|l ls] eqn:Hset; [congruence|].
  fold (required_fields form). rewrite Hpresent. cbn [negb].
  rewrite bind_query, Hnumber. cbn [negb].
  destruct (validate_expiry_date _ _ _ _ _) as [ok2 m2]. simpl in Hexpiry.
  subst ok2. cbn [negb].
  destruct (validate_cvv _) as [ok3 m3]. simpl in Hcvv. subst ok3. cbn [negb].
  destruct (Nat.ltb_spec (String.length (strip (card_holder form))) 3); [lia|].
  unfold try_except, bind. fold (card_delivery form).
  destruct (place_order _ _ _ _ _ _ _ _ _ db) as [[placed|e] db'].
  - reflexivity.
  - destruct e; reflexivity.
Qed.

(** X7. Checkout on the cash path succeeds whenever every cart line is on
    a distinct book that has the stock asked for, the applied coupon
    exists, and the unit price and subtotal of every line fit the columns
    of the order item (so that the order's items can be read back when the
    payment is created): an order is written as [Pending] with an [Unpaid]
    cash payment without transaction id, every book loses exactly the
    quantity of its line, the cart is left empty with no coupon, and the
    customer is no longer a first-time buyer.  Nothing is said here about
    the amounts of the order and of the payment. *)
Theorem checkout_places_order now customer_pk form delivery db customer applied :
  cash_checkout form delivery ->
  customers db !! customer_pk = Some customer ->
  carts db !! customer_pk = Some applied ->
  let cart := {| cart_customer := customer_pk; cart_applied_coupon := applied |} in
  cart_in_stock db cart ->
  lines_fit db (Cart.cartitem_set db cart) ->
  orders_referenced db ->
  let result := checkout now POST customer_pk form db in
  let order_id := length (orders db) in
  exists order payment,
    result.1 = flash "order_history" msg_success
                 (OrderPlaced order_id (Order.total_discount order)) /\
    orders result.2 = orders db ++ [order] /\
    order_status order = Pending /\
    order_customer order = customer_pk /\
    order_applied_coupon order = applied /\
    payments result.2 = payments db ++ [payment] /\
    payment_order payment = order_id /\
    payment_method payment = Cash /\
    payment_status payment = Unpaid /\
    payment_transaction_id payment = None /\
    carts result.2 !! customer_pk = Some None /\
    Cart.cartitem_set result.2
      {| cart_customer := customer_pk; cart_applied_coupon := None |} = [] /\
    customer_is_first_time_buyer <$> customers result.2 !! customer_pk = Some false /\
    (forall k, books result.2 !! k
       = (fun b => destock b (moved k (cart_lines (Cart.cartitem_set db cart))))
           <$> books db !! k).
Proof.
  intros Hform Hcustomer Hcart cart Hstock Hfit Hwf result order_id.
  subst result order_id.
  destruct (place_order_succeeds now customer_pk customer cart delivery Cash Unpaid
              false db Hcustomer eq_refl Hstock Hfit Hwf)
    as (order & ac & stock & table & payment & Hnew & Hres & Hpayment & Hpo).
  rewrite (checkout_cash now customer_pk form delivery db customer applied
             Hform Hcustomer Hcart (proj1 Hstock)).
  fold cart. rewrite Hpo. cbn [fst snd].
  destruct (new_order_fields _ _ _ _ _ _ _ Hnew) as (Hc & Hp & Ha & _).
  destruct (reserve_lines_spec _ _ _ _ _ _ Hres) as [Hbooks _].
  destruct (payment_of_fields _ _ _ _ _ _ _ _ Hpayment) as (Ho & Hm & Hs & Ht).
  exists order, payment.
  cbn [settled customers books coupons coupon_usages orders order_items payments
       carts cart_items settled_order].
  rewrite Hpayment, Hp.
  split; [reflexivity|]. split; [reflexivity|]. split; [reflexivity|].
  split; [exact Hc|]. split; [exact Ha|]. split; [reflexivity|].
  split; [exact Ho|]. split; [exact Hm|]. split; [exact Hs|].
  split; [exact Ht|].
  split; [apply lookup_insert_eq|].
  split.
  { unfold Cart.cartitem_set. cbn [cart_items cart_customer cart].
    apply filter_none. apply Forall_forall. intros item Hin.
    apply list_elem_of_filter in Hin. tauto. }
  split; [|exact Hbooks].
  destruct (customer_is_first_time_buyer customer) eqn:Hflag.
  - rewrite lookup_insert_eq. reflexivity.
  - rewrite Hcustomer. simpl. rewrite Hflag. reflexivity.
Qed.

(** X8. A card payment whose form passes every validation, for a cart in
    stock whose lines fit the columns of the order item, succeeds: the
    answer carries the new order's key, the order is written as
    [Confirmed] (the payment's [post_save] receiver moves it from
    [Pending]), and its payment is a [Paid] card payment with a
    transaction id made of the order key and the time.  Nothing is said
    here about the amounts of the order and of the payment. *)
Theorem process_card_payment_confirms_order py_int current_year current_month now
    customer_pk form db customer applied :
  card_form_valid py_int current_year current_month form ->
  customers db !! customer_pk = Some customer ->
  carts db !! customer_pk = Some applied ->
  let cart := {| cart_customer := customer_pk; cart_applied_coupon := applied |} in
  cart_in_stock db cart ->
  lines_fit db (Cart.cartitem_set db cart) ->
  orders_referenced db ->
  let result := process_card_payment py_int current_year current_month now POST
                  customer_pk form db in
  let order_id := length (orders db) in
  exists order payment,
    result.1 = JsonResponse true (Text "Payment processed successfully!")
                 (Some order_id) /\
    orders result.2 = orders db ++ [order] /\
    order_status order = Confirmed /\
    order_customer order = customer_pk /\
    payments result.2 = payments db ++ [payment] /\
    payment_order payment = order_id /\
    payment_method payment = Card /\
    payment_status payment = Paid /\
    payment_transaction_id payment = Some (order_id, now) /\
    Cart.cartitem_set result.2
      {| cart_customer := customer_pk; cart_applied_coupon := None |} = [].
Proof.
  intros Hform Hcustomer Hcart cart Hstock Hfit Hwf result order_id.
  subst result order_id.
  destruct (place_order_succeeds now customer_pk customer cart (card_delivery form)
              Card Paid true db Hcustomer eq_refl Hstock Hfit Hwf)
    as (order & ac & stock & table & payment & Hnew & Hres & Hpayment & Hpo).
  rewrite (process_card_payment_valid py_int current_year current_month now
             customer_pk form db customer applied Hform Hcustomer Hcart
             (proj1 Hstock)).
  fold cart. rewrite Hpo. cbn [fst snd].
  destruct (new_order_fields _ _ _ _ _ _ _ Hnew) as (Hc & Hp & Ha & _).
  destruct (payment_of_fields _ _ _ _ _ _ _ _ Hpayment) as (Ho & Hm & Hs & Ht).
  exists (Order.with_status order Confirmed), payment.
  cbn [settled customers books coupons coupon_usages orders order_items payments
       carts cart_items settled_order].
  rewrite Hpayment, Hp.
  split; [reflexivity|]. split; [reflexivity|]. split; [reflexivity|].
  split; [exact Hc|]. split; [reflexivity|].
  split; [exact Ho|]. split; [exact Hm|]. split; [exact Hs|].
  split; [exact Ht|].
  unfold Cart.cartitem_set. cbn [cart_items cart_customer cart].
  apply filter_none. apply Forall_forall. intros item Hin.
  apply list_elem_of_filter in Hin. tauto.
Qed.

Lemma shop_cart_in_stock :
  cart_in_stock (shop one_walden (Some 0%nat)) (cart_of (Some 0%nat)).
Proof.
  unfold cart_in_stock.
  replace (Cart.cartitem_set (shop one_walden (Some 0%nat)) (cart_of (Some 0%nat)))
    with one_walden by (vm_compute; reflexivity).
  split; [discriminate|]. split.
  { simpl. apply NoDup_singleton. }
  split.
  { repeat constructor. exists (book "Walden" 600.00%Q 4).
    split; [vm_compute; reflexivity | simpl; lia]. }
  intros pk Hpk. inversion Hpk; subst. vm_compute. eauto.
Qed.

Lemma shop_orders_referenced lines applied : orders_referenced (shop lines applied).
Proof. repeat split; constructor. Qed.

Lemma shop_walden_fits :
  lines_fit (shop one_walden (Some 0%nat))
    (Cart.cartitem_set (shop one_walden (Some 0%nat)) (cart_of (Some 0%nat))).
Proof.
  replace (Cart.cartitem_set (shop one_walden (Some 0%nat)) (cart_of (Some 0%nat)))
    with one_walden by (vm_compute; reflexivity).
  apply shop_lines_fit. repeat constructor; simpl; lia.
Qed.

(** A cart with one copy of "Walden" and the coupon FLAT1000: the order is
    stored as pending and the cart is left empty. *)
Lemma checkout_places_order_witness :
  exists order,
    orders (checkout now0 POST 0 cash_form (shop one_walden (Some 0%nat))).2 = [order]
    /\ order_status order = Pending.
Proof.
  destruct (checkout_places_order now0 0%nat cash_form cash_delivery
              (shop one_walden (Some 0%nat)) alice (Some 0%nat))
    as (order & payment & _ & Horders & Hstatus & _).
  - repeat split.
  - reflexivity.
  - reflexivity.
  - exact shop_cart_in_stock.
  - exact shop_walden_fits.
  - apply shop_orders_referenced.
  - exists order. split; [exact Horders | exact Hstatus].
Defined.

(** The same cart paid by card in November 2026: the order is confirmed. *)
Lemma process_card_payment_confirms_order_witness :
  exists order,
    orders (process_card_payment decimal_int 2026 11 now0 POST 0
              (card_form "4111 1111 1111 1111")
              (shop one_walden (Some 0%nat))).2 = [order]
    /\ order_status order = Confirmed.
Proof.
  destruct (process_card_payment_confirms_order decimal_int 2026 11 now0 0%nat
              (card_form "4111 1111 1111 1111")
              (shop one_walden (Some 0%nat)) alice (Some 0%nat))
    as (order & payment & _ & Horders & Hstatus & _).
  - repeat split; try (vm_compute; reflexivity). simpl. vm_compute. lia.
  - reflexivity.
  - reflexivity.
  - exact shop_cart_in_stock.
  - exact shop_walden_fits.
  - apply shop_orders_referenced.
  - exists order. split; [exact Horders | exact Hstatus].
Defined.

(** ** Further properties of cancellation *)

Lemma restore_stock_tables rows db r db' :
  for_each rows restore_stock db = (r, db') ->
  customers db' = customers db /\ orders db' = orders db /\
  order_items db' = order_items db /\ payments db' = payments db /\
  carts db' = carts db /\ cart_items db' = cart_items db.
Proof.
  revert db. induction rows as [|row rest IH]; intros db; simpl.
  - intros [= <- <-]. repeat split.
  - unfold bind at 1. unfold restore_stock at 1. rewrite bind_query.
    unfold get_book. destruct (books db !! item_book row) as [book|].
    + unfold update at 1. intros Hrest. apply IH in Hrest. exact Hrest.
    + intros [= <- <-]. repeat split.
Qed.

Lemma get_order_or_404_Ok order_id customer_pk db order :
  get_order_or_404 order_id customer_pk db = Ok order <->
  exists row, orders db !! order_id = Some row /\
              order_customer row = customer_pk /\
              Order.from_db row = Ok order.
Proof.
  unfold get_order_or_404. destruct (orders db !! order_id) as [o|].
  - destruct (decide (order_customer o = customer_pk)) as [Heq|Hne]; split.
    + intros Hread. eauto.
    + intros (row & [= <-] & _ & Hread). exact Hread.
    + discriminate.
    + intros (row & [= <-] & Heq & _). contradiction.
  - split; [discriminate | intros (row & [=] & _)].
Qed.








(** X10. A customer can cancel only an order of their own: when the key
    names no order, or an order of another customer, the answer is a 404
    for every method and nothing is written. *)
Theorem cancel_order_of_another_customer now method customer_pk order_id field db
    customer :
  customers db !! customer_pk = Some customer ->
  (forall order, orders db !! order_id = Some order ->
                 order_customer order <> customer_pk) ->
  cancel_order now method customer_pk order_id field db = (Http404, db).
Proof.
  intros Hcustomer Hother.
  unfold cancel_order. rewrite respond_customer_required, Hcustomer.
  unfold respond. rewrite bind_query. unfold get_order_or_404.
  destruct (orders db !! order_id) as [order|] eqn:Hlookup; [|reflexivity].
  destruct (decide (order_customer order = customer_pk)) as [Heq|Hne];
    [|reflexivity].
  exfalso. exact (Hother order eq_refl Heq).
Qed.

(** No path of a cancellation writes to the customers. *)
Lemma cancel_order_customers now method customer_pk order_id field db :
  customers (cancel_order now method customer_pk order_id field db).2 = customers db.
Proof.
  destruct (cancel_order now method customer_pk order_id field db)
    as [response db'] eqn:Hrun.
  cbn [snd]. revert Hrun.
  unfold cancel_order. rewrite respond_customer_required.
  destruct (customers db !! customer_pk) as [customer|];
    [|intros [= _ <-]; reflexivity].
  unfold respond. rewrite bind_query.
  destruct (get_order_or_404 order_id customer_pk db) as [order|e];
    [|destruct e; intros [= _ <-]; reflexivity].
  destruct (negb _); [intros [= _ <-]; reflexivity|].
  destruct method; [intros [= _ <-]; reflexivity|]. cbn [is_post].
  rewrite bind_query.
  destruct (Order.orderitem_set_all db order_id) as [items|e];
    [|destruct e; intros [= _ <-]; reflexivity].
  unfold bind at 1.
  destruct (for_each _ restore_stock db) as [r1 db1] eqn:Hloop.
  apply restore_stock_tables in Hloop. destruct Hloop as (Hc & _).
  destruct r1 as [[]|e]; [|destruct e; intros [= _ <-]; exact Hc].
  unfold bind at 1, revert_coupon_usage.
  destruct (order_applied_coupon order) as [pk|].
  - rewrite bind_query. unfold get_coupon.
    destruct (coupons db1 !! pk) as [coupon|]; [|intros [= _ <-]; exact Hc].
    cbv zeta. destruct (_ <? 0); intros [= _ <-]; exact Hc.
  - intros [= _ <-]. exact Hc.
Qed.

(** X11. Whatever the request and whatever its outcome (refused, not
    found, succeeded, or stopped by an exception half-way),
    [cancel_order] writes only to books, coupons, coupon usages and the
    order row: the customers (so a first-time flag is never given back),
    the payments (a paid order keeps its [Paid] payment), the order items,
    the carts and their lines are unchanged, and no order is added or
    removed. *)
Theorem cancel_order_frame now method customer_pk order_id field db :
  let db' := (cancel_order now method customer_pk order_id field db).2 in
  customers db' = customers db /\
  payments db' = payments db /\
  order_items db' = order_items db /\
  carts db' = carts db /\
  cart_items db' = cart_items db /\
  length (orders db') = length (orders db) /\
  forall k, k <> order_id -> orders db' !! k = orders db !! k.
Proof.
  cbv zeta.
  destruct (cancel_order now method customer_pk order_id field db)
    as [response db'] eqn:Hrun.
  cbn [snd]. revert Hrun.
  unfold cancel_order. rewrite respond_customer_required.
  destruct (customers db !! customer_pk) as [customer|];
    [|intros [= _ <-]; repeat split].
  unfold respond. rewrite bind_query.
  destruct (get_order_or_404 order_id customer_pk db) as [order|e];
    [|destruct e; intros [= _ <-]; repeat split].
  destruct (negb _); [intros [= _ <-]; repeat split|].
  destruct method; [intros [= _ <-]; repeat split|]. cbn [is_post].
  rewrite bind_query.
  destruct (Order.orderitem_set_all db order_id) as [items|e];
    [|destruct e; intros [= _ <-]; repeat split].
  unfold bind at 1.
  destruct (for_each _ restore_stock db) as [r1 db1] eqn:Hloop.
  apply restore_stock_tables in Hloop.
  destruct Hloop as (Hc & Ho & Hoi & Hp & Hca & Hci).
  destruct r1 as [[]|e].
  2:{ destruct e; intros [= _ <-]; rewrite Hc, Ho, Hoi, Hp, Hca, Hci;
      repeat split. }
  unfold bind at 1, revert_coupon_usage.
  destruct (order_applied_coupon order) as [pk|].
  - rewrite bind_query. unfold get_coupon.
    destruct (coupons db1 !! pk) as [coupon|].
    + cbv zeta. destruct (_ <? 0).
      * intros [= _ <-]. rewrite Hc, Ho, Hoi, Hp, Hca, Hci. repeat split.
      * intros [= _ <-]. cbn. rewrite Hc, Ho, Hoi, Hp, Hca, Hci.
        repeat split; [apply length_insert|].
        intros k Hk. apply list_lookup_insert_ne. congruence.
    + intros [= _ <-]. rewrite Hc, Ho, Hoi, Hp, Hca, Hci. repeat split.
  - intros [= _ <-]. cbn. rewrite Hc, Ho, Hoi, Hp, Hca, Hci.
    repeat split; [apply length_insert|].
    intros k Hk. apply list_lookup_insert_ne. congruence.
Qed.


(** A second customer asks to cancel the order that customer 0 placed. *)
Lemma cancel_order_of_another_customer_witness :
  let db := set_customers (insert 1%nat alice)
              (checkout now0 POST 0 cash_form (shop one_walden None)).2 in
  order_customer <$> orders db !! 0%nat = Some 0%nat /\
  cancel_order now0 POST 1 0 None db = (Http404, db).
Proof.
  cbv zeta. split; [vm_compute; reflexivity|].
  apply (cancel_order_of_another_customer now0 POST 1%nat 0%nat None _ alice).
  - vm_compute. reflexivity.
  - intros order Horder. vm_compute in Horder. inversion Horder. simpl. lia.
Defined.

(** ** Coupons and the first-time discount across a settlement *)

(** X12. A cash settlement of a cart in stock whose lines fit the columns
    of the order item, with a coupon applied to the cart, always counts
    the coupon: its [current_usage] is one more and a usage row for the
    new order is added, and the order refers to the coupon.  When
    [is_valid] fails at that time the order is written with a coupon
    discount of zero; the coupon is counted all the same. *)
Theorem settlement_counts_applied_coupon now customer_pk form delivery db customer
    pk coupon :
  cash_checkout form delivery ->
  customers db !! customer_pk = Some customer ->
  carts db !! customer_pk = Some (Some pk) ->
  coupons db !! pk = Some coupon ->
  let cart := {| cart_customer := customer_pk; cart_applied_coupon := Some pk |} in
  cart_in_stock db cart ->
  lines_fit db (Cart.cartitem_set db cart) ->
  orders_referenced db ->
  let result := checkout now POST customer_pk form db in
  exists order,
    orders result.2 = orders db ++ [order] /\
    order_applied_coupon order = Some pk /\
    ((Coupon.is_valid now coupon).1 = false ->
     order_coupon_discount order = 0.00%Q) /\
    coupons result.2
      = <[pk := with_usage coupon (coupon_current_usage coupon + 1)]> (coupons db) /\
    coupon_usages result.2
      = coupon_usages db ++
        [{| usage_coupon := pk; usage_customer := customer_pk;
            usage_order := length (orders db); usage_used_at := now |}].
Proof.
  intros Hform Hcustomer Hcart Hcoupon cart Hstock Hfit Hwf result. subst result.
  destruct (place_order_succeeds now customer_pk customer cart delivery Cash Unpaid
              false db Hcustomer eq_refl Hstock Hfit Hwf)
    as (order & ac & stock & table & payment & Hnew & Hres & Hpayment & Hpo).
  rewrite (checkout_cash now customer_pk form delivery db customer (Some pk)
             Hform Hcustomer Hcart (proj1 Hstock)).
  fold cart. rewrite Hpo. cbn [fst snd].
  destruct (new_order_fields _ _ _ _ _ _ _ Hnew) as (Hc & Hp & Ha & _ & _ & Hac).
  destruct (new_order_reads _ _ _ _ _ _ _ Hnew) as (_ & Hcd & _ & _).
  apply applied_coupon_instance in Hac.
  destruct ac as [[pk' coupon']|]; [|discriminate].
  destruct Hac as [[= <-] Hcoupon']. rewrite Hcoupon in Hcoupon'.
  injection Hcoupon' as <-.
  exists order.
  cbn [settled customers books coupons coupon_usages orders order_items payments
       carts cart_items settled_order].
  split; [reflexivity|]. split; [exact Ha|].
  split; [|split; reflexivity].
  intros Hinvalid. revert Hcd. unfold Cart.coupon_discount.
  cbn [cart cart_applied_coupon]. unfold get_coupon. rewrite Hcoupon.
  cbn [rbind]. destruct (Coupon.is_valid now coupon) as [ok msg].
  simpl in Hinvalid. subst ok. intros [= <-]. reflexivity.
Qed.

(** X13. The first-time discount is granted once: after a cash settlement
    has succeeded, the customer's first-time discount is zero for every
    cart, and it stays zero when an order is then cancelled. *)
Theorem first_time_discount_once now customer_pk form delivery db customer applied :
  cash_checkout form delivery ->
  customers db !! customer_pk = Some customer ->
  carts db !! customer_pk = Some applied ->
  cart_in_stock db {| cart_customer := customer_pk; cart_applied_coupon := applied |} ->
  orders_referenced db ->
  let db1 := (checkout now POST customer_pk form db).2 in
  forall now' method order_id field cart',
    cart_customer cart' = customer_pk ->
    let db2 := (cancel_order now' method customer_pk order_id field db1).2 in
    Cart.first_time_discount db1 cart' = Ok 0.00%Q /\
    Cart.first_time_discount db2 cart' = Ok 0.00%Q.
Proof.
  intros Hform Hcustomer Hcart Hstock Hwf db1 now' method order_id field cart'
    Hcart' db2.
  assert (Hflag : exists c, customers db1 !! customer_pk = Some c /\
                            customer_is_first_time_buyer c = false).
  { subst db1.
    destruct (place_order_in_stock now customer_pk customer
                {| cart_customer := customer_pk; cart_applied_coupon := applied |}
                delivery Cash Unpaid false db Hcustomer eq_refl Hstock Hwf)
      as (order & ac & stock & table & _ & _ & Hpo).
    rewrite (checkout_cash now customer_pk form delivery db customer applied
               Hform Hcustomer Hcart (proj1 Hstock)).
    rewrite Hpo.
    destruct (payment_of _ _ _ _ _ _ _) as [payment|e];
      cbn [fst snd settled redeemed customers];
      (destruct (customer_is_first_time_buyer customer) eqn:Hfirst;
       [exists (first_purchase_done customer);
        split; [apply lookup_insert_eq | reflexivity]
       |exists customer; split; [exact Hcustomer | exact Hfirst]]). }
  destruct Hflag as (c & Hc & Hfalse).
  assert (Hsame : customers db2 = customers db1).
  { subst db2. apply cancel_order_customers. }
  unfold Cart.first_time_discount, get_customer.
  rewrite Hsame, Hcart', Hc. cbn [rbind]. rewrite Hfalse. split; reflexivity.
Qed.

(** X14. A GET request never writes: [apply_coupon], [cancel_order],
    [checkout] and [process_card_payment] leave every table as it was. *)
Theorem GET_requests_do_not_write py_int current_year current_month now
    customer_pk db :
  (forall field, (apply_coupon now GET customer_pk field db).2 = db) /\
  (forall order_id field, (cancel_order now GET customer_pk order_id field db).2 = db) /\
  (forall form, (checkout now GET customer_pk form db).2 = db) /\
  (forall form, (process_card_payment py_int current_year current_month now GET
                   customer_pk form db).2 = db).
Proof.
  repeat split; intros.
  - unfold apply_coupon. rewrite respond_customer_required.
    destruct (customers db !! customer_pk); reflexivity.
  - unfold cancel_order. rewrite respond_customer_required.
    destruct (customers db !! customer_pk); [|reflexivity].
    unfold respond. rewrite bind_query.
    destruct (get_order_or_404 order_id customer_pk db) as [order|e];
      [|destruct e; reflexivity].
    destruct (negb _); reflexivity.
  - unfold checkout. rewrite respond_customer_required.
    destruct (customers db !! customer_pk); [|reflexivity].
    unfold respond. rewrite bind_query.
    destruct (get_cart_or_404 customer_pk db) as [cart|e];
      [|destruct e; reflexivity].
    rewrite bind_current_db.
    destruct (Cart.cartitem_set db cart); reflexivity.
  - unfold process_card_payment. rewrite respond_customer_required.
    destruct (customers db !! customer_pk); reflexivity.
Qed.

(** X15. [checkout] with a payment method other than cash settles nothing:
    for [Card] it only shows the card form and for anything else it
    reports an invalid method; no order is created and no table changes. *)
Theorem checkout_without_cash_does_not_write now method customer_pk form db :
  default "Cash" (checkout_payment_method form) <> "Cash" ->
  (checkout now method customer_pk form db).2 = db.
Proof.
  intros Hmethod.
  unfold checkout. rewrite respond_customer_required.
  destruct (customers db !! customer_pk) as [customer|] eqn:Hcustomer;
    [|reflexivity].
  unfold respond. rewrite bind_query.
  destruct (get_cart_or_404 customer_pk db) as [cart|e] eqn:Hcart;
    [|destruct e; reflexivity].
  rewrite bind_current_db.
  destruct (Cart.cartitem_set db cart) as [|l ls] eqn:Hlines; [reflexivity|].
  destruct method; [reflexivity|]. cbn [is_post].
  destruct (checkout_delivery_name form); [|reflexivity].
  destruct (checkout_delivery_phone form); [|reflexivity].
  destruct (checkout_delivery_address form); [|reflexivity].
  destruct (negb _); [reflexivity|].
  destruct (String.eqb_spec (default "Cash" (checkout_payment_method form)) "Cash");
    [contradiction|].
  destruct (String.eqb _ "Card"); [|reflexivity].
  unfold card_payment_form, customer_required.
  rewrite bind_current_db, Hcustomer, bind_query, Hcart, bind_current_db, Hlines.
  reflexivity.
Qed.

(** The coupon FLAT1000 has expired when the cart is checked out: the
    order gets no coupon discount and the counter goes from 3 to 4. *)
Lemma settlement_counts_applied_coupon_witness :
  let result := checkout 2000000001 POST 0 cash_form (shop one_walden (Some 0%nat)) in
  (Coupon.is_valid 2000000001 (coupon "FLAT1000" fixed 1000.00%Q 3)).1 = false /\
  exists order,
    orders result.2 = [order] /\
    order_coupon_discount order = 0.00%Q /\
    coupon_current_usage <$> coupons result.2 !! 0%nat = Some 4.
Proof.
  cbv zeta. split; [reflexivity|].
  destruct (settlement_counts_applied_coupon 2000000001 0%nat cash_form cash_delivery
              (shop one_walden (Some 0%nat)) alice 0%nat
              (coupon "FLAT1000" fixed 1000.00%Q 3))
    as (order & Horders & _ & Hzero & Hcoupons & _).
  - repeat split.
  - reflexivity.
  - reflexivity.
  - reflexivity.
  - exact shop_cart_in_stock.
  - exact shop_walden_fits.
  - apply shop_orders_referenced.
  - exists order. split; [exact Horders|]. split; [apply Hzero; reflexivity|].
    rewrite Hcoupons, lookup_insert_eq. reflexivity.
Defined.

(** After the first order the discount is zero, also once that order is
    cancelled. *)
Lemma first_time_discount_once_witness :
  let db := shop one_walden (Some 0%nat) in
  let db1 := (checkout now0 POST 0 cash_form db).2 in
  let db2 := (cancel_order (now0 + 60) POST 0 0 None db1).2 in
  customer_is_first_time_buyer <$> customers db !! 0%nat = Some true /\
  Cart.first_time_discount db1 (cart_of None) = Ok 0.00%Q /\
  Cart.first_time_discount db2 (cart_of None) = Ok 0.00%Q.
Proof.
  cbv zeta. split; [reflexivity|].
  apply (first_time_discount_once now0 0%nat cash_form cash_delivery
           (shop one_walden (Some 0%nat)) alice (Some 0%nat)).
  - repeat split.
  - reflexivity.
  - reflexivity.
  - exact shop_cart_in_stock.
  - apply shop_orders_referenced.
  - reflexivity.
Defined.

(** A checkout that asks for card payment leaves the shop as it was. *)
Lemma checkout_without_cash_does_not_write_witness :
  let form := {| checkout_payment_method := Some "Card";
                 checkout_delivery_name := Some "A Khan";
                 checkout_delivery_phone := Some "0300";
                 checkout_delivery_address := Some "12 Mall Road";
                 checkout_delivery_notes := None |} in
  (checkout now0 POST 0 form (shop one_walden None)).2 = shop one_walden None.
Proof.
  cbv zeta. apply checkout_without_cash_does_not_write. simpl. discriminate.
Defined.

(** ** The cart views *)

Lemma CartItem_filter_elem cart book_id db pk item :
  (pk, item) ∈ CartItem_filter cart book_id db ->
  cart_items db !! pk = Some item /\ cart_key item = (cart_customer cart, book_id).
Proof.
  unfold CartItem_filter. intros Hin. apply list_elem_of_filter in Hin.
  destruct Hin as [[Hcart Hbook] Hin]. simpl in Hcart, Hbook.
  apply elem_of_lookup_imap in Hin. destruct Hin as (i & y & [= -> ->] & Hy).
  split; [exact Hy|]. unfold cart_key. rewrite Hcart, Hbook. reflexivity.
Qed.

Lemma CartItem_filter_nil cart book_id db :
  CartItem_filter cart book_id db = [] ->
  (cart_customer cart, book_id) ∉ map cart_key (cart_items db).
Proof.
  intros Hnil Hin. apply list_elem_of_fmap in Hin.
  destruct Hin as (item & Hkey & Hin).
  apply list_elem_of_lookup in Hin. destruct Hin as [i Hi].
  assert (Hmem : (i, item) ∈ CartItem_filter cart book_id db).
  { unfold CartItem_filter. apply list_elem_of_filter. split.
    - unfold cart_key in Hkey. injection Hkey as -> ->. split; reflexivity.
    - apply elem_of_lookup_imap. exists i, item. split; [reflexivity | exact Hi]. }
  rewrite Hnil in Hmem. inversion Hmem.
Qed.

Lemma Cart_get_or_create_run customer_pk db :
  exists cart db1,
    Cart_get_or_create customer_pk db = (Ok cart, db1) /\
    cart_customer cart = customer_pk /\
    carts db1 !! customer_pk = Some (cart_applied_coupon cart) /\
    (db1 = db \/ carts db !! customer_pk = None) /\
    books db1 = books db /\ cart_items db1 = cart_items db.
Proof.
  unfold Cart_get_or_create. rewrite bind_current_db.
  destruct (carts db !! customer_pk) as [applied|] eqn:Hcart.
  - eexists _, db. split; [reflexivity|]. simpl. rewrite Hcart. auto 6.
  - eexists _, _. split; [reflexivity|]. simpl. rewrite lookup_insert_eq. auto 6.
Qed.

Lemma CartItem_get_or_create_run cart book_id db :
  match CartItem_get_or_create cart book_id db with
  | (Ok (pk, item, true), db') =>
      ((cart_customer cart, book_id) ∉ map cart_key (cart_items db)) /\
      item = {| cartitem_cart := cart_customer cart; cartitem_book := book_id;
                cartitem_quantity := 1 |} /\
      db' = set_cart_items (fun rows => rows ++ [item]) db
  | (Ok (pk, item, false), db') =>
      db' = db /\ cart_items db !! pk = Some item /\
      cart_key item = (cart_customer cart, book_id)
  | (Raise e, db') => db' = db
  end.
Proof.
  unfold CartItem_get_or_create. rewrite bind_current_db.
  destruct (CartItem_filter cart book_id db) as [|[pk item] rest] eqn:Hrows.
  - cbn. split; [apply CartItem_filter_nil; exact Hrows|]. split; reflexivity.
  - destruct rest as [|more rest].
    + cbn. split; [reflexivity|]. apply (CartItem_filter_elem cart book_id db).
      rewrite Hrows. apply list_elem_of_here.
    + reflexivity.
Qed.

(** The writes of [add_to_cart]: none to the books; the cart lines are
    unchanged, or get one new line of quantity one for a pair that had
    none, or the line of the pair gets one more copy while it is below the
    stock. *)
Lemma add_to_cart_effect customer_pk book_id db :
  let db' := (add_to_cart customer_pk book_id db).2 in
  books db' = books db /\
  (cart_items db' = cart_items db \/
   (((customer_pk, book_id) ∉ map cart_key (cart_items db)) /\
    cart_items db' = cart_items db ++
      [{| cartitem_cart := customer_pk; cartitem_book := book_id;
          cartitem_quantity := 1 |}]) \/
   (exists pk item b,
      cart_items db !! pk = Some item /\
      cart_key item = (customer_pk, book_id) /\
      books db !! book_id = Some b /\
      cartitem_quantity item < book_stock b /\
      cart_items db'
        = <[pk := with_quantity item (cartitem_quantity item + 1)]> (cart_items db))).
Proof.
  cbv zeta.
  destruct (add_to_cart customer_pk book_id db) as [response db'] eqn:Hrun.
  cbn [snd]. revert Hrun.
  unfold add_to_cart. rewrite respond_customer_required.
  destruct (customers db !! customer_pk) as [customer|];
    [|intros [= _ <-]; auto].
  unfold respond. rewrite bind_query. unfold get_book_or_404.
  destruct (books db !! book_id) as [b|] eqn:Hbook; [|intros [= _ <-]; auto].
  unfold bind at 1.
  destruct (Cart_get_or_create_run customer_pk db)
    as (cart & db1 & -> & Hcart & _ & _ & Hbooks & Hitems).
  unfold bind at 1.
  pose proof (CartItem_get_or_create_run cart book_id db1) as Hgot.
  destruct (CartItem_get_or_create cart book_id db1) as [[[[pk item] created]|e] db2].
  - destruct created.
    + destruct Hgot as (Hfresh & -> & ->). cbn. intros [= _ <-]. cbn.
      rewrite Hbooks, Hitems. rewrite Hcart, Hitems in Hfresh.
      split; [reflexivity|]. right. left. rewrite Hcart. auto.
    + destruct Hgot as (-> & Hrow & Hkey). cbn [negb].
      destruct (Z.ltb_spec (cartitem_quantity item) (book_stock b)) as [Hlt|Hge].
      * cbn. intros [= _ <-]. cbn. rewrite Hbooks, Hitems.
        split; [reflexivity|]. right. right.
        exists pk, item, b. rewrite <- Hitems, <- Hcart. auto 6.
      * cbn. intros [= _ <-]. rewrite Hbooks, Hitems. auto.
  - subst db2. destruct e; cbn; intros [= _ <-]; rewrite Hbooks, Hitems; auto.
Qed.

(** The writes of [update_cart_item]: the line of the customer is
    unchanged, gets one more copy while it is below the stock of its book,
    or one copy less while it has more than one. *)
Lemma update_cart_item_effect method customer_pk item_id action db :
  let db' := (update_cart_item method customer_pk item_id action db).2 in
  db' = db \/
  exists item quantity,
    cart_items db !! item_id = Some item /\
    cartitem_cart item = customer_pk /\
    db' = set_cart_items (<[item_id := with_quantity item quantity]>) db /\
    ((quantity = cartitem_quantity item + 1 /\ action = Some "increase" /\
      exists b, books db !! cartitem_book item = Some b /\
                cartitem_quantity item < book_stock b) \/
     (quantity = cartitem_quantity item - 1 /\ action = Some "decrease" /\
      1 < cartitem_quantity item)).
Proof.
  cbv zeta.
  destruct (update_cart_item method customer_pk item_id action db)
    as [response db'] eqn:Hrun.
  cbn [snd]. revert Hrun.
  unfold update_cart_item. rewrite respond_customer_required.
  destruct (customers db !! customer_pk) as [customer|];
    [|intros [= _ <-]; auto].
  unfold respond. rewrite bind_query. unfold get_cart_item_or_404.
  destruct (cart_items db !! item_id) as [item|] eqn:Hrow;
    [|intros [= _ <-]; auto].
  destruct (carts db !! cartitem_cart item); [|intros [= _ <-]; auto].
  destruct (decide (cartitem_cart item = customer_pk)) as [Howner|];
    [|intros [= _ <-]; auto].
  destruct method; [intros [= _ <-]; auto|]. cbn [is_post].
  destruct (decide (action = Some "increase")) as [Hinc|_].
  - rewrite bind_query. unfold get_book.
    destruct (books db !! cartitem_book item) as [b|] eqn:Hbook;
      [|intros [= _ <-]; auto].
    destruct (Z.ltb_spec (cartitem_quantity item) (book_stock b)) as [Hlt|Hge];
      [|intros [= _ <-]; auto].
    cbn. intros [= _ <-].
    right. exists item, (cartitem_quantity item + 1). eauto 10.
  - destruct (decide (action = Some "decrease")) as [Hdec|_];
      [|intros [= _ <-]; auto].
    destruct (Z.ltb_spec 1 (cartitem_quantity item)) as [Hlt|Hge];
      [|intros [= _ <-]; auto].
    cbn. intros [= _ <-].
    right. exists item, (cartitem_quantity item - 1). eauto 10.
Qed.

(** The write of [remove_from_cart]: none, or the deletion of a line of
    the customer. *)
Lemma remove_from_cart_effect customer_pk item_id db :
  let db' := (remove_from_cart customer_pk item_id db).2 in
  db' = db \/
  exists item,
    cart_items db !! item_id = Some item /\
    cartitem_cart item = customer_pk /\
    db' = set_cart_items (delete item_id) db.
Proof.
  cbv zeta.
  destruct (remove_from_cart customer_pk item_id db) as [response db'] eqn:Hrun.
  cbn [snd]. revert Hrun.
  unfold remove_from_cart. rewrite respond_customer_required.
  destruct (customers db !! customer_pk) as [customer|];
    [|intros [= _ <-]; auto].
  unfold respond. rewrite bind_query. unfold get_cart_item_or_404.
  destruct (cart_items db !! item_id) as [item|] eqn:Hrow;
    [|intros [= _ <-]; auto].
  destruct (carts db !! cartitem_cart item); [|intros [= _ <-]; auto].
  destruct (decide (cartitem_cart item = customer_pk)) as [Howner|];
    [|intros [= _ <-]; auto].
  rewrite bind_query. unfold get_book.
  destruct (books db !! cartitem_book item) as [b|]; [|intros [= _ <-]; auto].
  cbn. intros [= _ <-]. right. exists item. auto.
Qed.

Lemma map_cart_key_insert rows pk item quantity :
  rows !! pk = Some item ->
  map cart_key (<[pk := with_quantity item quantity]> rows) = map cart_key rows.
Proof.
  intros Hrow.
  change (map cart_key) with (fmap (M := list) cart_key).
  rewrite list_fmap_insert. apply list_insert_id.
  rewrite list_lookup_fmap, Hrow. reflexivity.
Qed.

Lemma NoDup_delete {A} (l : list A) i : NoDup l -> NoDup (delete i l).
Proof.
  intros Hnd. exact (sublist_NoDup _ _ Hnd (sublist_delete l i)).
Qed.

Lemma map_cart_key_delete rows (i : nat) :
  map cart_key (delete i rows) = delete i (map cart_key rows).
Proof.
  revert i. induction rows as [|row rows IH]; intros [|i]; simpl; try reflexivity.
  f_equal. apply IH.
Qed.

Lemma Forall_delete_row {A} (P : A -> Prop) (l : list A) (i : nat) :
  Forall P l -> Forall P (delete i l).
Proof.
  intros Hall. revert i.
  induction Hall as [|x l Hx Hl IH]; intros [|i]; simpl; auto.
Qed.

(** X16. The three views that edit the cart lines keep them well formed:
    at most one line per cart and book, every quantity at least one, and
    no quantity above the stock of its book (or above one, the quantity of
    a new line, when the book has less). *)
Theorem cart_views_keep_invariant db :
  cart_invariant db ->
  (forall customer_pk book_id,
     cart_invariant (add_to_cart customer_pk book_id db).2) /\
  (forall method customer_pk item_id action,
     cart_invariant (update_cart_item method customer_pk item_id action db).2) /\
  (forall customer_pk item_id,
     cart_invariant (remove_from_cart customer_pk item_id db).2).
Proof.
  intros [Hunique Hbounds]. repeat split.
  - unfold unique_lines.
    destruct (add_to_cart_effect customer_pk book_id db)
      as [_ [-> | [[Hfresh ->] | (pk & item & b & Hrow & _ & _ & _ & ->)]]].
    + exact Hunique.
    + rewrite map_app. simpl.
      apply NoDup_app. split; [exact Hunique|]. split; [|apply NoDup_singleton].
      intros key Hin Hnew. apply list_elem_of_singleton in Hnew. subst key.
      exact (Hfresh Hin).
    + rewrite map_cart_key_insert by exact Hrow. exact Hunique.
  - destruct (add_to_cart_effect customer_pk book_id db)
      as [Hbooks [-> | [[Hfresh ->] | (pk & item & b & Hrow & Hkey & Hb & Hlt & ->)]]].
    + eapply Forall_impl; [exact Hbounds|]. intros item [H1 H2].
      split; [exact H1|]. rewrite Hbooks. exact H2.
    + apply Forall_app. split.
      * eapply Forall_impl; [exact Hbounds|]. intros item [H1 H2].
        split; [exact H1|]. rewrite Hbooks. exact H2.
      * repeat constructor; simpl; lia.
    + apply Forall_insert.
      * eapply Forall_impl; [exact Hbounds|]. intros item' [H1 H2].
        split; [exact H1|]. rewrite Hbooks. exact H2.
      * pose proof (proj1 (Forall_lookup _ _) Hbounds pk item Hrow) as [H1 _].
        split; simpl; [lia|]. rewrite Hbooks. intros b' Hb'.
        unfold cart_key in Hkey. injection Hkey as _ Hbook.
        rewrite Hbook, Hb in Hb'. injection Hb' as <-. lia.
  - unfold unique_lines.
    destruct (update_cart_item_effect method customer_pk item_id action db)
      as [-> | (item & quantity & Hrow & _ & -> & _)]; [exact Hunique|].
    cbn [set_cart_items cart_items].
    rewrite map_cart_key_insert by exact Hrow. exact Hunique.
  - destruct (update_cart_item_effect method customer_pk item_id action db)
      as [-> | (item & quantity & Hrow & _ & -> & Hcase)]; [exact Hbounds|].
    cbn [set_cart_items cart_items]. apply Forall_insert.
    + eapply Forall_impl; [exact Hbounds|]. intros item' H. exact H.
    + pose proof (proj1 (Forall_lookup _ _) Hbounds item_id item Hrow) as [H1 H2].
      destruct Hcase as [(-> & _ & b & Hb & Hlt) | (-> & _ & Hgt)].
      * split; simpl; [lia|]. cbn [set_cart_items books]. intros b' Hb'.
        rewrite Hb in Hb'. injection Hb' as <-. lia.
      * split; simpl; [lia|]. cbn [set_cart_items books]. intros b' Hb'.
        specialize (H2 b' Hb'). lia.
  - unfold unique_lines.
    destruct (remove_from_cart_effect customer_pk item_id db)
      as [-> | (item & _ & _ & ->)]; [exact Hunique|].
    cbn [set_cart_items cart_items].
    rewrite map_cart_key_delete. apply NoDup_delete. exact Hunique.
  - destruct (remove_from_cart_effect customer_pk item_id db)
      as [-> | (item & _ & _ & ->)]; [exact Hbounds|].
    cbn [set_cart_items cart_items]. apply Forall_delete_row.
    eapply Forall_impl; [exact Hbounds|]. intros item' H. exact H.
Qed.

Lemma get_cart_item_or_404_Ok item_id customer_pk db item :
  get_cart_item_or_404 item_id customer_pk db = Ok item <->
  cart_items db !! item_id = Some item /\ cartitem_cart item = customer_pk /\
  is_Some (carts db !! customer_pk).
Proof.
  unfold get_cart_item_or_404.
  destruct (cart_items db !! item_id) as [row|].
  - destruct (carts db !! cartitem_cart row) as [applied|] eqn:Hcart.
    + destruct (decide (cartitem_cart row = customer_pk)) as [Heq|Hne]; split.
      * intros [= <-]. rewrite <- Heq, Hcart. eauto.
      * intros ([= <-] & _ & _). reflexivity.
      * discriminate.
      * intros ([= <-] & Heq & _). contradiction.
    + split; [discriminate|]. intros ([= <-] & Heq & [applied Happlied]).
      rewrite Heq in Hcart. congruence.
  - split; [discriminate | intros ([=] & _)].
Qed.

(** X17. The lines of a cart can be edited only by its customer: when the
    key names no line, or a line of another customer's cart,
    [update_cart_item] and [remove_from_cart] answer 404 and write
    nothing. *)
Theorem cart_line_of_another_customer customer_pk item_id db customer :
  customers db !! customer_pk = Some customer ->
  (forall item, cart_items db !! item_id = Some item ->
                cartitem_cart item <> customer_pk) ->
  (forall method action,
     update_cart_item method customer_pk item_id action db = (Http404, db)) /\
  remove_from_cart customer_pk item_id db = (Http404, db).
Proof.
  intros Hcustomer Hother.
  assert (Hget : get_cart_item_or_404 item_id customer_pk db = Raise Http404_).
  { unfold get_cart_item_or_404.
    destruct (cart_items db !! item_id) as [item|] eqn:Hrow; [|reflexivity].
    destruct (carts db !! cartitem_cart item); [|reflexivity].
    destruct (decide (cartitem_cart item = customer_pk)) as [Heq|]; [|reflexivity].
    exfalso. exact (Hother item eq_refl Heq). }
  split; [intros method action|].
  - unfold update_cart_item. rewrite respond_customer_required, Hcustomer.
    unfold respond. rewrite bind_query, Hget. reflexivity.
  - unfold remove_from_cart. rewrite respond_customer_required, Hcustomer.
    unfold respond. rewrite bind_query, Hget. reflexivity.
Qed.

(** X18. Increasing a line that is below the stock of its book and then
    decreasing it gives back the database as it was: the line has one more
    copy in between, and the decrease is never refused. *)
Theorem update_cart_item_increase_decrease customer_pk item_id db customer item b :
  customers db !! customer_pk = Some customer ->
  get_cart_item_or_404 item_id customer_pk db = Ok item ->
  books db !! cartitem_book item = Some b ->
  1 <= cartitem_quantity item < book_stock b ->
  let increased := update_cart_item POST customer_pk item_id (Some "increase") db in
  let decreased :=
    update_cart_item POST customer_pk item_id (Some "decrease") increased.2 in
  increased.1 = flash "view_cart" msg_success (Text "Quantity updated!") /\
  cart_items increased.2 !! item_id
    = Some (with_quantity item (cartitem_quantity item + 1)) /\
  decreased = (flash "view_cart" msg_success (Text "Quantity updated!"), db).
Proof.
  intros Hcustomer Hget Hbook [Hlow Hhigh] increased decreased.
  pose proof Hget as Hitem. apply get_cart_item_or_404_Ok in Hitem.
  destruct Hitem as (Hrow & Howner & Hcart).
  assert (Hinc : increased
                 = (flash "view_cart" msg_success (Text "Quantity updated!"),
                    set_cart_items
                      (<[item_id := with_quantity item (cartitem_quantity item + 1)]>)
                      db)).
  { subst increased. unfold update_cart_item.
    rewrite respond_customer_required, Hcustomer.
    unfold respond. rewrite bind_query, Hget. cbn [is_post].
    destruct (decide (Some "increase" = Some "increase")); [|congruence].
    rewrite bind_query. unfold get_book. rewrite Hbook.
    destruct (Z.ltb_spec (cartitem_quantity item) (book_stock b)); [|lia].
    reflexivity. }
  subst decreased. rewrite Hinc. cbn [fst snd set_cart_items cart_items].
  split; [reflexivity|].
  assert (Hlt : (item_id < length (cart_items db))%nat)
    by (eapply lookup_lt_Some; exact Hrow).
  split; [apply list_lookup_insert_eq; exact Hlt|].
  unfold update_cart_item. rewrite respond_customer_required.
  cbn [set_cart_items customers]. rewrite Hcustomer.
  unfold respond. rewrite bind_query.
  assert (Hget' : get_cart_item_or_404 item_id customer_pk
                    (set_cart_items
                       (<[item_id := with_quantity item (cartitem_quantity item + 1)]>)
                       db)
                  = Ok (with_quantity item (cartitem_quantity item + 1))).
  { apply get_cart_item_or_404_Ok. cbn [set_cart_items cart_items carts].
    split; [apply list_lookup_insert_eq; exact Hlt|]. split; [exact Howner|].
    exact Hcart. }
  rewrite Hget'. cbn [is_post].
  destruct (decide (Some "decrease" = Some "increase")); [discriminate|].
  destruct (decide (Some "decrease" = Some "decrease")); [|congruence].
  cbn [with_quantity cartitem_quantity].
  destruct (Z.ltb_spec 1 (cartitem_quantity item + 1)); [|lia].
  cbn. f_equal. apply DB_eq; try reflexivity.
  cbn [set_cart_items cart_items with_quantity cartitem_cart cartitem_book
       cartitem_quantity].
  rewrite list_insert_insert_eq.
  replace (cartitem_quantity item + 1 - 1) with (cartitem_quantity item) by lia.
  apply list_insert_id. rewrite Hrow. f_equal. destruct item; reflexivity.
Qed.

Lemma py_sum_int_acc (xs : list Z) (a : Z) :
  fold_left Z.add xs a = a + py_sum_int xs.
Proof.
  unfold py_sum_int. revert a.
  induction xs as [|x xs IH]; intros a; cbn [fold_left]; [lia|].
  rewrite (IH (a + x)), (IH (0 + x)). lia.
Qed.

Lemma py_sum_int_cons (x : Z) (xs : list Z) :
  py_sum_int (x :: xs) = x + py_sum_int xs.
Proof. unfold py_sum_int at 1. simpl. apply py_sum_int_acc. Qed.

Lemma delete_line_quantities cart rows (i : nat) item :
  rows !! i = Some item ->
  let lines := fun rows =>
    filter (fun item => cartitem_cart item = cart_customer cart) rows in
  (cartitem_cart item <> cart_customer cart ->
   lines (delete i rows) = lines rows) /\
  (cartitem_cart item = cart_customer cart ->
   py_sum_int (map cartitem_quantity (lines (delete i rows)))
   = py_sum_int (map cartitem_quantity (lines rows)) - cartitem_quantity item).
Proof.
  cbv zeta. revert i. induction rows as [|row rows IH]; intros [|i] Hrow;
    try discriminate.
  - simpl in Hrow. injection Hrow as ->.
    change (delete 0%nat (item :: rows)) with rows. split.
    + intros Hne. rewrite filter_cons_False by exact Hne. reflexivity.
    + intros Heq. rewrite filter_cons_True by exact Heq.
      cbn [map]. rewrite py_sum_int_cons. lia.
  - simpl in Hrow. destruct (IH i Hrow) as [IH1 IH2].
    change (delete (S i) (row :: rows)) with (row :: delete i rows).
    destruct (decide (cartitem_cart row = cart_customer cart)) as [Hin|Hout].
    + rewrite !filter_cons_True by exact Hin. split.
      * intros Hne. f_equal. exact (IH1 Hne).
      * intros Heq. cbn [map]. rewrite !py_sum_int_cons, (IH2 Heq). lia.
    + rewrite !filter_cons_False by exact Hout. split; assumption.
Qed.

(** X19. [remove_from_cart] of a line of the customer's own cart deletes
    that line and nothing else: the cart's item count drops by the line's
    quantity, the carts of the other customers keep their lines, and the
    stock of every book is as before (a cart line holds no stock). *)
Theorem remove_from_cart_removes_line customer_pk item_id db customer item b :
  customers db !! customer_pk = Some customer ->
  get_cart_item_or_404 item_id customer_pk db = Ok item ->
  books db !! cartitem_book item = Some b ->
  let result := remove_from_cart customer_pk item_id db in
  result.1 = flash "view_cart" msg_success
               (Text ("'" ++ book_title b ++ "' removed from cart!")) /\
  (forall cart, cart_customer cart = customer_pk ->
     Cart.total_items result.2 cart
     = Cart.total_items db cart - cartitem_quantity item) /\
  (forall cart, cart_customer cart <> customer_pk ->
     Cart.cartitem_set result.2 cart = Cart.cartitem_set db cart) /\
  length (cart_items result.2) = (length (cart_items db) - 1)%nat /\
  books result.2 = books db.
Proof.
  intros Hcustomer Hget Hbook result.
  pose proof Hget as Hitem. apply get_cart_item_or_404_Ok in Hitem.
  destruct Hitem as (Hrow & Howner & _).
  assert (Hrun : result
                 = (flash "view_cart" msg_success
                      (Text ("'" ++ book_title b ++ "' removed from cart!")),
                    set_cart_items (delete item_id) db)).
  { subst result. unfold remove_from_cart.
    rewrite respond_customer_required, Hcustomer.
    unfold respond. rewrite bind_query, Hget, bind_query. unfold get_book.
    rewrite Hbook. reflexivity. }
  rewrite Hrun. cbn [fst snd]. split; [reflexivity|].
  split; [|split; [|split; [|reflexivity]]].
  - intros cart Hcart. unfold Cart.total_items, Cart.cartitem_set.
    cbn [set_cart_items cart_items].
    apply (delete_line_quantities cart _ _ _ Hrow). congruence.
  - intros cart Hcart. unfold Cart.cartitem_set. cbn [set_cart_items cart_items].
    apply (delete_line_quantities cart _ _ _ Hrow). congruence.
  - cbn [set_cart_items cart_items]. rewrite length_delete; [reflexivity|].
    eauto.
Qed.

Lemma shop_cart_invariant : cart_invariant (shop one_walden None).
Proof.
  split.
  - unfold unique_lines. simpl. apply NoDup_singleton.
  - repeat constructor; simpl; [lia|]. intros b Hb. lia.
Qed.

Lemma shop_walden_line :
  get_cart_item_or_404 0 0 (shop one_walden None) = Ok (line 0 3 1).
Proof. reflexivity. Qed.

(** The cart with one copy of "Walden" stays well formed when the book is
    added again, when its line is increased and when it is removed. *)
Lemma cart_views_keep_invariant_witness :
  cart_invariant (add_to_cart 0 3 (shop one_walden None)).2 /\
  cart_invariant
    (update_cart_item POST 0 0 (Some "increase") (shop one_walden None)).2 /\
  cart_invariant (remove_from_cart 0 0 (shop one_walden None)).2.
Proof.
  destruct (cart_views_keep_invariant (shop one_walden None) shop_cart_invariant)
    as (Hadd & Hupdate & Hremove).
  split; [apply Hadd|]. split; [apply Hupdate | apply Hremove].
Defined.

(** A second customer asks to remove the line of customer 0. *)
Lemma cart_line_of_another_customer_witness :
  let db := set_customers (insert 1%nat alice) (shop one_walden None) in
  cartitem_cart <$> cart_items db !! 0%nat = Some 0%nat /\
  update_cart_item POST 1 0 (Some "increase") db = (Http404, db) /\
  remove_from_cart 1 0 db = (Http404, db).
Proof.
  cbv zeta. split; [reflexivity|].
  destruct (cart_line_of_another_customer 1%nat 0%nat
              (set_customers (insert 1%nat alice) (shop one_walden None)) alice)
    as [Hupdate Hremove].
  - vm_compute. reflexivity.
  - intros item Hitem. simpl in Hitem. injection Hitem as <-. simpl. lia.
  - split; [apply Hupdate | exact Hremove].
Defined.

(** One copy of "Walden" (stock 4) becomes two copies and one again. *)
Lemma update_cart_item_increase_decrease_witness :
  let increased :=
    update_cart_item POST 0 0 (Some "increase") (shop one_walden None) in
  cart_items increased.2 !! 0%nat = Some (line 0 3 2) /\
  update_cart_item POST 0 0 (Some "decrease") increased.2
  = (flash "view_cart" msg_success (Text "Quantity updated!"), shop one_walden None).
Proof.
  cbv zeta.
  destruct (update_cart_item_increase_decrease 0%nat 0%nat (shop one_walden None)
              alice (line 0 3 1) (book "Walden" 600.00%Q 4))
    as (_ & Hline & Hback).
  - reflexivity.
  - exact shop_walden_line.
  - reflexivity.
  - simpl. lia.
  - split; [exact Hline | exact Hback].
Defined.

(** Removing the only line leaves a cart of no items and the stock of
    "Walden" at 4. *)
Lemma remove_from_cart_removes_line_witness :
  let result := remove_from_cart 0 0 (shop one_walden None) in
  Cart.total_items result.2 (cart_of None)
  = Cart.total_items (shop one_walden None) (cart_of None) - 1 /\
  books result.2 = books (shop one_walden None).
Proof.
  cbv zeta.
  destruct (remove_from_cart_removes_line 0%nat 0%nat (shop one_walden None)
              alice (line 0 3 1) (book "Walden" 600.00%Q 4))
    as (_ & Hitems & _ & _ & Hbooks).
  - reflexivity.
  - exact shop_walden_line.
  - reflexivity.
  - split; [apply (Hitems (cart_of None)); reflexivity | exact Hbooks].
Defined.

(** X20. Removing the coupon undoes [apply_coupon]: starting from a cart
    without a coupon, an [apply_coupon] request with an ASCII text
    followed by [remove_coupon] leaves the cart without a coupon, and the
    applied coupon of every other cart and every other table as they
    were, whether or not the coupon was accepted; when it was, the message
    of [remove_coupon] names the normalised code that was submitted.  (The
    [updated_at] of the cart, which both saves rewrite, is not part of the
    statement.) *)
Theorem remove_coupon_undoes_apply_coupon now customer_pk field db :
  carts db !! customer_pk = Some None ->
  ascii_text (default "" field) = true ->
  let applied := apply_coupon now POST customer_pk field db in
  let removed := remove_coupon POST customer_pk applied.2 in
  carts removed.2 !! customer_pk = Some None /\
  (forall other, other <> customer_pk ->
                 carts removed.2 !! other = carts db !! other) /\
  customers removed.2 = customers db /\
  books removed.2 = books db /\
  coupons removed.2 = coupons db /\
  coupon_usages removed.2 = coupon_usages db /\
  orders removed.2 = orders db /\
  order_items removed.2 = order_items db /\
  payments removed.2 = payments db /\
  cart_items removed.2 = cart_items db /\
  (forall pk, carts applied.2 !! customer_pk = Some (Some pk) ->
     removed.1 = flash "view_cart" msg_success
                   (Text ("Coupon " ++ dquote ++ upper (strip (default "" field))
                          ++ dquote ++ " removed!"))).
Proof.
  intros Hcart Hascii applied removed.
  assert (Hback : removed.2 = db /\
            (forall pk, carts applied.2 !! customer_pk = Some (Some pk) ->
               removed.1 = flash "view_cart" msg_success
                 (Text ("Coupon " ++ dquote ++ upper (strip (default "" field))
                        ++ dquote ++ " removed!")))).
  { subst removed applied.
    assert (Hnone : remove_coupon POST customer_pk db
                    = ((remove_coupon POST customer_pk db).1, db)).
    { unfold remove_coupon. rewrite respond_customer_required.
      destruct (customers db !! customer_pk); [|reflexivity].
      unfold respond. cbn [is_post]. rewrite bind_query.
      unfold get_cart_or_404. rewrite Hcart. reflexivity. }
    destruct (apply_coupon_effect now POST customer_pk field db)
      as [Hsame | (pk & c & Hget & Hdb)].
    - rewrite Hsame. split; [rewrite Hnone; reflexivity|].
      intros pk Hpk. congruence.
    - rewrite Hdb. apply Coupon_objects_get_Ok in Hget.
      destruct Hget as [Hc Hcode].
      assert (Hcustomer : is_Some (customers db !! customer_pk)).
      { destruct (customers db !! customer_pk) eqn:E; [eauto|].
        exfalso. revert Hdb. unfold apply_coupon.
        rewrite respond_customer_required, E. cbn [snd]. intros Heq.
        apply (f_equal (fun d => carts d !! customer_pk)) in Heq.
        cbn [set_carts carts] in Heq. rewrite lookup_insert_eq in Heq.
        congruence. }
      destruct Hcustomer as [customer Hcustomer].
      unfold remove_coupon. rewrite respond_customer_required.
      cbn [set_carts customers]. rewrite Hcustomer.
      unfold respond. cbn [is_post]. rewrite bind_query.
      unfold get_cart_or_404. cbn [set_carts carts]. rewrite lookup_insert_eq.
      rewrite bind_query. unfold Cart_applied_coupon, get_coupon.
      cbn [cart_applied_coupon set_carts coupons]. rewrite Hc. cbn [rbind].
      unfold Cart_save. rewrite bind_update. cbn [ret fst snd cart_customer
        cart_applied_coupon].
      split.
      + apply DB_eq; try reflexivity. cbn [set_carts carts].
        rewrite insert_insert_eq. apply insert_id. exact Hcart.
      + intros pk' _. rewrite Hcode. reflexivity. }
  destruct Hback as [-> Hmessage].
  split; [exact Hcart|]. repeat split; auto.
Qed.

Lemma checkout_page now customer_pk form db customer item :
  customers db !! customer_pk = Some customer ->
  is_Some (carts db !! customer_pk) ->
  item ∈ cart_items db ->
  cartitem_cart item = customer_pk ->
  checkout now GET customer_pk form db = (Render "bookstore/checkout.html", db).
Proof.
  intros Hcustomer [applied Hcart] Hin Howner.
  unfold checkout. rewrite respond_customer_required, Hcustomer.
  unfold respond. rewrite bind_query. unfold get_cart_or_404. rewrite Hcart.
  rewrite bind_current_db.
  destruct (Cart.cartitem_set db _) as [|l ls] eqn:Hlines; [|reflexivity].
  exfalso.
  assert (Hmem : item ∈ Cart.cartitem_set db
            {| cart_customer := customer_pk; cart_applied_coupon := applied |}).
  { unfold Cart.cartitem_set. apply list_elem_of_filter. split; assumption. }
  rewrite Hlines in Hmem. inversion Hmem.
Qed.

(** X21. The first [add_to_cart] of a book puts one copy in the cart
    whatever the stock of the book (the stock is compared only when the
    line exists already), creating the cart when the customer has none;
    the checkout page is then shown instead of the empty-cart warning. *)
Theorem add_to_cart_first_copy customer_pk book_id db customer b :
  customers db !! customer_pk = Some customer ->
  books db !! book_id = Some b ->
  (customer_pk, book_id) ∉ map cart_key (cart_items db) ->
  let result := add_to_cart customer_pk book_id db in
  result.1 = flash "view_cart" msg_success
               (Text ("'" ++ book_title b ++ "' added to cart!")) /\
  cart_items result.2 = cart_items db ++
    [{| cartitem_cart := customer_pk; cartitem_book := book_id;
        cartitem_quantity := 1 |}] /\
  carts result.2 !! customer_pk = Some (default None (carts db !! customer_pk)) /\
  books result.2 = books db /\
  forall now form,
    (checkout now GET customer_pk form result.2).1 = Render "bookstore/checkout.html".
Proof.
  intros Hcustomer Hbook Hfresh result.
  assert (Hfilter : forall cart d,
            cart_customer cart = customer_pk -> cart_items d = cart_items db ->
            CartItem_filter cart book_id d = []).
  { intros cart d Hc Hd.
    destruct (CartItem_filter cart book_id d) as [|[pk item] rest] eqn:Hrows;
      [reflexivity|].
    exfalso. destruct (CartItem_filter_elem cart book_id d pk item) as [Hrow Hkey].
    { rewrite Hrows. apply list_elem_of_here. }
    apply Hfresh. apply list_elem_of_fmap. exists item.
    split; [rewrite Hkey, Hc; reflexivity|].
    rewrite <- Hd. eapply list_elem_of_lookup_2. exact Hrow. }
  assert (Hrun : exists db1,
            result = (flash "view_cart" msg_success
                        (Text ("'" ++ book_title b ++ "' added to cart!")),
                      set_cart_items
                        (fun rows => rows ++
                           [{| cartitem_cart := customer_pk; cartitem_book := book_id;
                               cartitem_quantity := 1 |}]) db1) /\
            customers db1 = customers db /\ books db1 = books db /\
            cart_items db1 = cart_items db /\
            carts db1 !! customer_pk
              = Some (default None (carts db !! customer_pk))).
  { subst result. unfold add_to_cart.
    rewrite respond_customer_required, Hcustomer.
    unfold respond. rewrite bind_query. unfold get_book_or_404. rewrite Hbook.
    unfold bind at 1. unfold Cart_get_or_create at 1. rewrite bind_current_db.
    destruct (carts db !! customer_pk) as [applied|] eqn:Hcart.
    - cbn [ret]. unfold bind at 1. unfold CartItem_get_or_create at 1.
      rewrite bind_current_db, Hfilter by reflexivity.
      exists db. cbn. rewrite Hcart. auto 6.
    - rewrite bind_update. cbn [ret]. unfold bind at 1.
      unfold CartItem_get_or_create at 1.
      rewrite bind_current_db, Hfilter by reflexivity.
      eexists. split; [reflexivity|]. cbn. rewrite lookup_insert_eq. auto. }
  destruct Hrun as (db1 & -> & Hc1 & Hb1 & Hi1 & Hcart1).
  cbn [fst snd set_cart_items cart_items carts books].
  split; [reflexivity|]. split; [rewrite Hi1; reflexivity|].
  split; [exact Hcart1|]. split; [exact Hb1|].
  intros now form.
  erewrite (checkout_page now customer_pk form _ customer
              {| cartitem_cart := customer_pk; cartitem_book := book_id;
                 cartitem_quantity := 1 |}); [reflexivity| | | |reflexivity].
  - cbn [set_cart_items customers]. rewrite Hc1. exact Hcustomer.
  - cbn [set_cart_items carts]. rewrite Hcart1. eauto.
  - cbn [set_cart_items cart_items]. apply elem_of_app. right.
    apply list_elem_of_here.
Qed.

Lemma shipping_of_nonneg (S : Decimal) (n : Z) : (0 <= Cart.shipping_of S n)%Q.
Proof.
  unfold Cart.shipping_of. decimal_cases; [lra|].
  destruct (Z.gtb_spec n 5) as [Hgt|Hle]; [|lra].
  assert (H : (0 <= inject_Z (n - 5))%Q).
  { change 0%Q with (inject_Z 0). rewrite <- Zle_Qle. lia. }
  nra.
Qed.

(** X22. Without a coupon the discounts never exceed 30% of the subtotal:
    the total of a cart with a non-negative subtotal and no applied coupon
    is at least 70% of the subtotal, so it is not negative, and at most
    the subtotal plus the shipping fee. *)
Theorem total_amount_without_coupon now db cart S customer :
  Cart.subtotal db cart = Ok S ->
  customers db !! cart_customer cart = Some customer ->
  cart_applied_coupon cart = None ->
  (0 <= S)%Q ->
  exists total,
    Cart.total_amount now db cart = Ok total /\
    (S * 0.70 <= total)%Q /\ (0 <= total)%Q /\
    (total <= S + Cart.shipping_of S (Cart.total_items db cart))%Q.
Proof.
  intros HS Hcustomer Hnone Hnonneg.
  pose proof (shipping_of_nonneg S (Cart.total_items db cart)) as Hfee.
  unfold Cart.total_amount, Cart.total_discount, Cart.coupon_discount.
  rewrite HS, Hnone, (order_value_discount_of_subtotal _ _ _ HS),
    (shipping_fee_of_subtotal _ _ _ HS).
  unfold Cart.first_time_discount, get_customer. rewrite Hcustomer. cbn [rbind].
  assert (Hovd : (0 <= Cart.order_value_discount_of S <= S * 0.15)%Q).
  { unfold Cart.order_value_discount_of. decimal_cases; lra. }
  destruct (customer_is_first_time_buyer customer).
  - rewrite HS. cbn [rbind]. eexists. split; [reflexivity|]. lra.
  - cbn [rbind]. eexists. split; [reflexivity|]. lra.
Qed.

(** The code " flat1000 " is accepted for a cart without a coupon, and
    removing the coupon leaves the cart without one. *)
Lemma remove_coupon_undoes_apply_coupon_witness :
  let applied :=
    apply_coupon now0 POST 0 (Some " flat1000 ") (shop one_walden None) in
  carts applied.2 !! 0%nat = Some (Some 0%nat) /\
  carts (remove_coupon POST 0 applied.2).2 !! 0%nat = Some None /\
  (remove_coupon POST 0 applied.2).1
  = flash "view_cart" msg_success
      (Text ("Coupon " ++ dquote ++ "FLAT1000" ++ dquote ++ " removed!")).
Proof.
  cbv zeta.
  destruct (remove_coupon_undoes_apply_coupon now0 0%nat (Some " flat1000 ")
              (shop one_walden None))
    as (Hback & _ & _ & _ & _ & _ & _ & _ & _ & _ & Hmessage).
  - reflexivity.
  - reflexivity.
  - assert (Happlied : carts (apply_coupon now0 POST 0 (Some " flat1000 ")
                                (shop one_walden None)).2 !! 0%nat
                       = Some (Some 0%nat)) by (vm_compute; reflexivity).
    split; [exact Happlied|]. split; [exact Hback|].
    exact (Hmessage 0%nat Happlied).
Defined.

(** A book without stock is added to an empty cart with one copy. *)
Lemma add_to_cart_first_copy_witness :
  let db := set_books (insert 9%nat (book "Rare" 10.00%Q 0)) (shop [] None) in
  cart_items (add_to_cart 0 9 db).2 = [line 0 9 1] /\
  (checkout now0 GET 0 cash_form (add_to_cart 0 9 db).2).1
  = Render "bookstore/checkout.html".
Proof.
  cbv zeta.
  destruct (add_to_cart_first_copy 0%nat 9%nat
              (set_books (insert 9%nat (book "Rare" 10.00%Q 0)) (shop [] None))
              alice (book "Rare" 10.00%Q 0))
    as (_ & Hlines & _ & _ & Hpage).
  - reflexivity.
  - simpl. apply lookup_insert_eq.
  - simpl. apply not_elem_of_nil.
  - split; [exact Hlines | apply Hpage].
Defined.

(** A first-time buyer with one copy of "Walden" and no coupon pays
    600 - 90 + 50. *)
Lemma total_amount_without_coupon_witness :
  exists total,
    Cart.total_amount now0 (shop one_walden None) (cart_of None) = Ok total /\
    (0 <= total)%Q.
Proof.
  destruct (total_amount_without_coupon now0 (shop one_walden None) (cart_of None)
              (0 + 600.00 * inject_Z 1)%Q alice)
    as (total & Htotal & _ & Hnonneg & _).
  - vm_compute. reflexivity.
  - reflexivity.
  - reflexivity.
  - vm_compute. discriminate.
  - exists total. split; [exact Htotal | exact Hnonneg].
Defined.

(** ** The pages after a request *)

(** X23. After a card payment has succeeded (a valid form, a cart in
    stock whose lines fit the columns of the order item), and when the
    rows of the new order and of its payment can be read back, the success
    page of the new order is shown to the customer who paid (the order has
    exactly one payment), and any other customer gets a 404 for it. *)
Theorem payment_success_after_card_payment py_int current_year current_month now
    customer_pk form db customer applied :
  card_form_valid py_int current_year current_month form ->
  customers db !! customer_pk = Some customer ->
  carts db !! customer_pk = Some applied ->
  let cart := {| cart_customer := customer_pk; cart_applied_coupon := applied |} in
  cart_in_stock db cart ->
  lines_fit db (Cart.cartitem_set db cart) ->
  orders_referenced db ->
  let result := process_card_payment py_int current_year current_month now POST
                  customer_pk form db in
  let order_id := length (orders db) in
  rows_readable result.2 order_id = true ->
  result.1 = JsonResponse true (Text "Payment processed successfully!")
               (Some order_id) /\
  payment_success customer_pk order_id result.2
  = (Render "bookstore/payment_success.html", result.2) /\
  forall other, other <> customer_pk -> is_Some (customers result.2 !! other) ->
    payment_success other order_id result.2 = (Http404, result.2).
Proof.
  intros Hform Hcustomer Hcart cart Hstock Hfit Hwf result order_id.
  subst result order_id.
  destruct (place_order_succeeds now customer_pk customer cart
              (card_delivery form) Card Paid true db Hcustomer eq_refl Hstock Hfit
              Hwf)
    as (order & ac & stock & table & payment & Hnew & Hres & Hpayment & Hpo).
  rewrite (process_card_payment_valid py_int current_year current_month now
             customer_pk form db customer applied Hform Hcustomer Hcart
             (proj1 Hstock)).
  fold cart. rewrite Hpo. cbn [fst snd]. intros Hread. split; [reflexivity|].
  destruct (new_order_fields _ _ _ _ _ _ _ Hnew) as (Hc & Hp & _).
  destruct (payment_of_fields _ _ _ _ _ _ _ _ Hpayment) as (Hpo_order & _).
  set (db' := settled now customer_pk customer cart order ac stock table Card Paid
                true db) in *.
  assert (Horder : orders db' !! length (orders db)
                   = Some (settled_order order Paid)).
  { subst db'. cbn [settled orders]. rewrite lookup_app_r by lia.
    rewrite Nat.sub_diag. reflexivity. }
  assert (Howner : order_customer (settled_order order Paid) = customer_pk).
  { unfold settled_order. rewrite Hp. exact Hc. }
  assert (Hfilter : filter (fun p => payment_order p = length (orders db))
                      (payments db') = [payment]).
  { subst db'. cbn [settled payments]. rewrite Hpayment, filter_app, filter_none.
    - rewrite filter_cons_True by exact Hpo_order. rewrite filter_nil.
      reflexivity.
    - destruct Hwf as (_ & _ & Hpayments).
      eapply Forall_impl; [exact Hpayments|]. intros p Hlt Heq.
      cbn beta in Hlt. rewrite Heq in Hlt. lia. }
  unfold rows_readable in Hread. rewrite Horder, Hfilter in Hread.
  cbn [forallb] in Hread. apply andb_prop in Hread. destruct Hread as [Hro Hrp].
  rewrite andb_true_r in Hrp.
  destruct (Order.from_db (settled_order order Paid)) as [read|] eqn:Hread_order;
    [|discriminate].
  destruct (Payment.from_db payment) as [read_payment|] eqn:Hread_payment;
    [|discriminate].
  split.
  - unfold payment_success. rewrite respond_customer_required.
    assert (Hcustomer' : is_Some (customers db' !! customer_pk)).
    { subst db'. cbn [settled customers].
      destruct (customer_is_first_time_buyer customer);
        [rewrite lookup_insert_eq|rewrite Hcustomer]; eauto. }
    destruct Hcustomer' as [customer' ->].
    unfold respond. rewrite bind_query.
    rewrite (proj2 (get_order_or_404_Ok _ _ _ read)
               (ex_intro _ _ (conj Horder (conj Howner Hread_order)))).
    rewrite bind_query. unfold get_payment_or_404.
    rewrite Hfilter, Hread_payment. reflexivity.
  - intros other Hother [customer' Hcustomer'].
    unfold payment_success. rewrite respond_customer_required, Hcustomer'.
    unfold respond. rewrite bind_query. unfold get_order_or_404.
    rewrite Horder.
    destruct (decide (order_customer (settled_order order Paid) = other))
      as [Heq|]; [congruence | reflexivity].
Qed.

(** X24. [view_cart] creates the cart of a customer who has none and
    changes nothing else, so that a second visit writes nothing; a customer
    without lines is then told that the cart is empty instead of getting
    the 404 of a missing cart. *)
Theorem view_cart_creates_cart now customer_pk db customer :
  customers db !! customer_pk = Some customer ->
  let result := view_cart customer_pk db in
  result.1 = Render "bookstore/cart.html" /\
  carts result.2 = <[customer_pk := default None (carts db !! customer_pk)]> (carts db) /\
  cart_items result.2 = cart_items db /\
  view_cart customer_pk result.2 = (Render "bookstore/cart.html", result.2) /\
  (carts db !! customer_pk = None ->
   Cart.cartitem_set db {| cart_customer := customer_pk; cart_applied_coupon := None |}
     = [] ->
   forall method form,
     checkout now method customer_pk form db = (Http404, db) /\
     checkout now method customer_pk form result.2 = (cart_is_empty, result.2)).
Proof.
  intros Hcustomer result.
  assert (Hrun : forall d applied,
            customers d !! customer_pk = Some customer ->
            carts d !! customer_pk = Some applied ->
            view_cart customer_pk d = (Render "bookstore/cart.html", d)).
  { intros d applied Hc Hcart. unfold view_cart.
    rewrite respond_customer_required, Hc. unfold respond.
    unfold bind at 1. unfold Cart_get_or_create at 1.
    rewrite bind_current_db, Hcart. reflexivity. }
  destruct (carts db !! customer_pk) as [applied|] eqn:Hcart.
  - subst result. rewrite (Hrun db applied Hcustomer Hcart). cbn [fst snd default].
    split; [reflexivity|]. split; [symmetry; apply insert_id; exact Hcart|].
    split; [reflexivity|]. split; [apply (Hrun db applied Hcustomer Hcart)|].
    discriminate.
  - assert (Hfirst : result = (Render "bookstore/cart.html",
                               set_carts (insert customer_pk None) db)).
    { subst result. unfold view_cart.
      rewrite respond_customer_required, Hcustomer. unfold respond.
      unfold bind at 1. unfold Cart_get_or_create at 1.
      rewrite bind_current_db, Hcart. reflexivity. }
    rewrite Hfirst. cbn [fst snd default set_carts carts cart_items].
    split; [reflexivity|]. split; [reflexivity|]. split; [reflexivity|].
    split.
    + apply (Hrun _ None); [exact Hcustomer|]. cbn [set_carts carts].
      apply lookup_insert_eq.
    + intros _ Hempty method form. split.
      * unfold checkout. rewrite respond_customer_required, Hcustomer.
        unfold respond. rewrite bind_query. unfold get_cart_or_404.
        rewrite Hcart. reflexivity.
      * unfold checkout. rewrite respond_customer_required.
        cbn [set_carts customers]. rewrite Hcustomer.
        unfold respond. rewrite bind_query. unfold get_cart_or_404.
        cbn [set_carts carts]. rewrite lookup_insert_eq.
        rewrite bind_current_db.
        unfold Cart.cartitem_set in *. cbn [set_carts cart_items cart_customer] in *.
        rewrite Hempty. reflexivity.
Qed.

Lemma sample_card_form_valid :
  card_form_valid decimal_int 2026 11 (card_form "4111 1111 1111 1111").
Proof. repeat split; try (vm_compute; reflexivity). simpl. vm_compute. lia. Qed.

(** The customer who paid for "Walden" by card sees the success page of
    order 0. *)
Lemma payment_success_after_card_payment_witness :
  let result := process_card_payment decimal_int 2026 11 now0 POST 0
                  (card_form "4111 1111 1111 1111") (shop one_walden (Some 0%nat)) in
  payment_success 0 0 result.2 = (Render "bookstore/payment_success.html", result.2).
Proof.
  cbv zeta.
  destruct (payment_success_after_card_payment decimal_int 2026 11 now0 0%nat
              (card_form "4111 1111 1111 1111") (shop one_walden (Some 0%nat))
              alice (Some 0%nat)) as (_ & Hpage & _).
  - exact sample_card_form_valid.
  - reflexivity.
  - reflexivity.
  - exact shop_cart_in_stock.
  - exact shop_walden_fits.
  - apply shop_orders_referenced.
  - vm_compute. reflexivity.
  - exact Hpage.
Defined.

(** A customer without a cart: the checkout answers 404 before the cart
    page is visited and reports an empty cart afterwards. *)
Lemma view_cart_creates_cart_witness :
  let db := set_carts (fun _ => ∅) (shop [] None) in
  checkout now0 POST 0 cash_form db = (Http404, db) /\
  checkout now0 POST 0 cash_form (view_cart 0 db).2
  = (cart_is_empty, (view_cart 0 db).2).
Proof.
  cbv zeta.
  destruct (view_cart_creates_cart now0 0%nat (set_carts (fun _ => ∅) (shop [] None))
              alice) as (_ & _ & _ & _ & Hcheckout).
  - reflexivity.
  - apply Hcheckout; reflexivity.
Defined.
